(** * HIDArduino tremor filter: the classifier, the smoothing filter and the
      sample-processing paths of the Python sources, with the properties the
      design document states about them.

    Number model.  Cursor coordinates and movement deltas are Python [int]s
    and are modelled by [Z].  Python [float]s (timestamps, magnitudes,
    thresholds, the filter state) are modelled by the real numbers [R] in the
    modules [Enhanced] and [Baseline]: rounding is not modelled there, so a
    statement about a float is a statement about the exact value the
    expression denotes.  The module [Binary64] gives the smoothing step in
    IEEE binary64 arithmetic, the arithmetic of Python's [float], for the
    properties that depend on rounding.

    Text model.  A Python [str] is represented by its UTF-8 encoding, one
    [ascii] per byte; [bytes] read from the serial port are [list Byte.byte].
    The tables of Unicode white space and decimal digits are those of
    Unicode 14.0 (CPython 3.11). *)

From Stdlib Require Import String Ascii.
From Stdlib Require Import Reals Lra Lia ZArith List Bool Arith.
From Stdlib Require Strings.Byte.
From Stdlib Require PrimFloat Uint63 FloatAxioms.
Import ListNotations.

Local Open Scope R_scope.

(** ** Python and numpy primitives used by the sources *)

Module Py.

(** Comparisons of floats, as booleans. *)
Definition ltb (a b : R) : bool := if Rlt_dec a b then true else false.
Definition leb (a b : R) : bool := if Rle_dec a b then true else false.
Definition eqb (a b : R) : bool := if Req_dec_T a b then true else false.
Definition gtb (a b : R) : bool := ltb b a.

(** [int(r)]: truncation toward zero. *)
Definition int (r : R) : Z :=
  if Rle_dec 0 r then Int_part r else (- Int_part (- r))%Z.

(** [max(a, b)] on floats. *)
Definition max (a b : R) : R := if Rlt_dec a b then b else a.

(** [l[-n:]] for [0 < n]: the last [n] elements, the whole list when it is
    shorter. *)
Definition lastn {A : Type} (n : nat) (l : list A) : list A :=
  skipn (length l - n) l.

(** [d.append(x)] on a [deque(maxlen=maxlen)]: the oldest entry is dropped
    once the deque is full. *)
Definition deque_append {A : Type} (maxlen : nat) (d : list A) (x : A)
  : list A :=
  lastn maxlen (d ++ [x]).

(** [[(l[i-1], l[i]) for i in range(1, len(l))]] *)
Fixpoint pairs {A : Type} (l : list A) : list (A * A) :=
  match l with
  | a :: (b :: _) as t => (a, b) :: pairs t
  | _ => []
  end.

(** [sum], [np.mean] and [np.std] (population standard deviation). *)
Definition sum (l : list R) : R := fold_right Rplus 0 l.
Definition mean (l : list R) : R := sum l / INR (length l).
Definition std (l : list R) : R :=
  sqrt (mean (map (fun v => (v - mean l) * (v - mean l)) l)).

(** [sum(1 for d in l if p(d))] *)
Definition count {A : Type} (p : A -> bool) (l : list A) : nat :=
  length (filter p l).

(** The exceptions that leave the modelled code. *)
Inductive Exception : Type :=
| UnicodeDecodeError
| TypeError
| RuntimeError.

(** [b.decode('utf-8')] on [bytes]: [None] stands for [UnicodeDecodeError].
    The well-formed byte sequences are those of the Unicode standard (no
    overlong form, no surrogate, nothing above U+10FFFF); a [str] being
    represented by its UTF-8 encoding, decoding a well-formed sequence
    returns the same bytes. *)
Definition between (lo hi : N) (b : Byte.byte) : bool :=
  ((lo <=? Byte.to_N b) && (Byte.to_N b <=? hi))%N.

Definition continuation (b : Byte.byte) : bool := between 0x80 0xBF b.

Fixpoint valid_utf8 (bs : list Byte.byte) : bool :=
  match bs with
  | [] => true
  | b0 :: r0 =>
      let n0 := Byte.to_N b0 in
      if (n0 <? 0x80)%N then valid_utf8 r0
      else if between 0xC2 0xDF b0 then
        match r0 with
        | b1 :: r1 => continuation b1 && valid_utf8 r1
        | _ => false
        end
      else if between 0xE0 0xEF b0 then
        match r0 with
        | b1 :: b2 :: r2 =>
            between (if (n0 =? 0xE0)%N then 0xA0 else 0x80)
                    (if (n0 =? 0xED)%N then 0x9F else 0xBF) b1
            && continuation b2 && valid_utf8 r2
        | _ => false
        end
      else if between 0xF0 0xF4 b0 then
        match r0 with
        | b1 :: b2 :: b3 :: r3 =>
            between (if (n0 =? 0xF0)%N then 0x90 else 0x80)
                    (if (n0 =? 0xF4)%N then 0x8F else 0xBF) b1
            && continuation b2 && continuation b3 && valid_utf8 r3
        | _ => false
        end
      else false
  end.

Definition decode_utf8 (bs : list Byte.byte) : option string :=
  if valid_utf8 bs then Some (string_of_list_byte bs) else None.

(** The characters of a [str], each with the bytes that encode it. *)
Fixpoint chars (s : string) : list string :=
  match s with
  | EmptyString => []
  | String b0 r0 =>
      let n0 := N_of_ascii b0 in
      if (n0 <? 0xC0)%N then String b0 EmptyString :: chars r0
      else if (n0 <? 0xE0)%N then
        match r0 with
        | String b1 r1 => String b0 (String b1 EmptyString) :: chars r1
        | _ => [s]
        end
      else if (n0 <? 0xF0)%N then
        match r0 with
        | String b1 (String b2 r2) =>
            String b0 (String b1 (String b2 EmptyString)) :: chars r2
        | _ => [s]
        end
      else
        match r0 with
        | String b1 (String b2 (String b3 r3)) =>
            String b0 (String b1 (String b2 (String b3 EmptyString)))
            :: chars r3
        | _ => [s]
        end
  end.

(** [ord(c)]: the code point of a character. *)
Definition ord (c : string) : N :=
  match map N_of_ascii (list_ascii_of_string c) with
  | [b0] => b0
  | [b0; b1] => (b0 - 0xC0) * 64 + (b1 - 0x80)
  | [b0; b1; b2] => (b0 - 0xE0) * 4096 + (b1 - 0x80) * 64 + (b2 - 0x80)
  | [b0; b1; b2; b3] =>
      (b0 - 0xF0) * 262144 + (b1 - 0x80) * 4096 + (b2 - 0x80) * 64
      + (b3 - 0x80)
  | _ => 0
  end%N.

(** [c.isspace()] on a character: the white space [str.strip] removes. *)
Definition is_space (c : string) : bool :=
  let n := ord c in
  ((9 <=? n) && (n <=? 13) || (28 <=? n) && (n <=? 32)
   || (n =? 0x85) || (n =? 0xA0) || (n =? 0x1680)
   || (0x2000 <=? n) && (n <=? 0x200A)
   || (n =? 0x2028) || (n =? 0x2029) || (n =? 0x202F) || (n =? 0x205F)
   || (n =? 0x3000))%N.

Fixpoint dropwhile {A : Type} (p : A -> bool) (l : list A) : list A :=
  match l with
  | x :: l' => if p x then dropwhile p l' else l
  | [] => []
  end.

Definition lstrip (s : string) : string :=
  String.concat "" (dropwhile is_space (chars s)).

Definition rstrip (s : string) : string :=
  String.concat "" (rev (dropwhile is_space (rev (chars s)))).

(** [s.strip()] *)
Definition strip (s : string) : string :=
  String.concat ""
    (rev (dropwhile is_space (rev (dropwhile is_space (chars s))))).

(** [s.split(sep)] for a one-character separator. *)
Fixpoint split (sep : ascii) (s : string) : list string :=
  match s with
  | EmptyString => [EmptyString]
  | String c s' =>
      if Ascii.eqb c sep then EmptyString :: split sep s'
      else
        match split sep s' with
        | h :: t => String c h :: t
        | [] => [String c EmptyString]
        end
  end.

(** [c in s] for a character [c]. *)
Fixpoint has_char (c : ascii) (s : string) : bool :=
  match s with
  | EmptyString => false
  | String c' s' => Ascii.eqb c' c || has_char c s'
  end.

(** [sub in s] *)
Definition contains (sub s : string) : bool :=
  match String.index 0 sub s with
  | Some _ => true
  | None => false
  end.

(** The code points of the digit zero of each block of decimal digits. *)
Definition decimal_zeros : list N :=
  [0x30; 0x660; 0x6F0; 0x7C0; 0x966; 0x9E6; 0xA66; 0xAE6; 0xB66; 0xBE6;
   0xC66; 0xCE6; 0xD66; 0xDE6; 0xE50; 0xED0; 0xF20; 0x1040; 0x1090;
   0x17E0; 0x1810; 0x1946; 0x19D0; 0x1A80; 0x1A90; 0x1B50; 0x1BB0;
   0x1C40; 0x1C50; 0xA620; 0xA8D0; 0xA900; 0xA9D0; 0xA9F0; 0xAA50;
   0xABF0; 0xFF10; 0x104A0; 0x10D30; 0x11066; 0x110F0; 0x11136; 0x111D0;
   0x112F0; 0x11450; 0x114D0; 0x11650; 0x116C0; 0x11730; 0x118E0;
   0x11950; 0x11C50; 0x11D50; 0x11DA0; 0x16A60; 0x16AC0; 0x16B50;
   0x1D7CE; 0x1D7D8; 0x1D7E2; 0x1D7EC; 0x1D7F6; 0x1E140; 0x1E2F0;
   0x1E950; 0x1FBF0]%N.

(** [unicodedata.decimal] of a code point, when it has one. *)
Definition decimal (n : N) : option N :=
  match find (fun z => (z <=? n) && (n <? z + 10))%N decimal_zeros with
  | Some z => Some (n - z)%N
  | None => None
  end.

Definition is_ascii (s : string) : bool :=
  forallb (fun b => (N_of_ascii b <? 0x80)%N) (list_ascii_of_string s).

(** What [int] does to a [str] that is not ASCII before it reads it:
    characters below U+007F are kept, white space becomes a blank, a decimal
    digit becomes its ASCII digit, and anything else makes the literal
    invalid. *)
Fixpoint transform (cs : list string) : option string :=
  match cs with
  | [] => Some EmptyString
  | c :: cs' =>
      let out :=
        if (ord c <? 127)%N then Some c
        else if is_space c then Some " "%string
        else option_map
               (fun d => String (ascii_of_N (48 + d)) EmptyString)
               (decimal (ord c)) in
      match out, transform cs' with
      | Some a, Some r => Some (a ++ r)%string
      | _, _ => None
      end
  end.

(** The white space [int] skips around an ASCII literal: tab, line feed,
    vertical tab, form feed, carriage return and blank. *)
Definition c_isspace (b : ascii) : bool :=
  let n := N_of_ascii b in
  ((9 <=? n) && (n <=? 13) || (n =? 32))%N.

Fixpoint skip_space (s : string) : string :=
  match s with
  | String b s' => if c_isspace b then skip_space s' else s
  | EmptyString => EmptyString
  end.

Fixpoint drop_trailing_space (s : string) : string :=
  match s with
  | String b s' =>
      match drop_trailing_space s' with
      | EmptyString =>
          if c_isspace b then EmptyString else String b EmptyString
      | r => String b r
      end
  | EmptyString => EmptyString
  end.

Definition digit_of (c : ascii) : option Z :=
  let n := nat_of_ascii c in
  if ((48 <=? n) && (n <=? 57))%nat then Some (Z.of_nat (n - 48)) else None.

(** [sys.get_int_max_str_digits()], at its default. *)
Definition max_str_digits : nat := 4300.

(** The digit part of an integer literal: decimal digits, with single
    underscores allowed between two digits, and at most [max_str_digits]
    digits. *)
Fixpoint digits (acc : Z) (count : nat) (prev_digit : bool) (s : string)
  : option Z :=
  match s with
  | EmptyString =>
      if prev_digit && (count <=? max_str_digits)%nat then Some acc else None
  | String c s' =>
      match digit_of c with
      | Some d => digits (10 * acc + d) (S count) true s'
      | None =>
          if Ascii.eqb c "_" && prev_digit then digits acc count false s'
          else None
      end
  end.

(** [int] on an ASCII literal, base 10. *)
Definition long_from_string (s : string) : option Z :=
  match drop_trailing_space (skip_space s) with
  | String "+" r => digits 0 0 false r
  | String "-" r => option_map Z.opp (digits 0 0 false r)
  | r => digits 0 0 false r
  end.

(** [int(s)] on a string: [None] stands for [ValueError]. *)
Definition int_of_str (s : string) : option Z :=
  if is_ascii s then long_from_string s
  else
    match transform (chars s) with
    | Some t => long_from_string t
    | None => None
    end.

End Py.

(** What a sample-processing path does to the outside world. *)
Inductive Output : Type :=
| SetCursorPos (x y : Z)          (* absolute cursor placement *)
| MoveRel (x y : Z)               (* pyautogui.moveRel *)
| MouseDown (button : string)     (* pyautogui.mouseDown *)
| MouseUp (button : string)       (* pyautogui.mouseUp *)
| Print (s : string)              (* a line on the console *)
| PrintException (prefix : string) (e : Py.Exception).
                                  (* print(f"{prefix}{e}"): the text of
                                     the exception is not modelled *)

Definition newline : string := String (ascii_of_nat 10) EmptyString.

(** ** enhanced_tremor_filter.py *)

Module Enhanced.

(** The module-level settings that [main] may overwrite from the command
    line. *)
Record Config : Type := mkConfig {
  SAMPLE_SIZE : Z;
  SHAKE_THRESHOLD : R;
  SMOOTHING_FACTOR : R;
  MIN_TREMOR_FREQUENCY : R;
  MAX_TREMOR_FREQUENCY : R;
  DIRECTION_CHANGE_THRESHOLD : R;
  STD_DEV_THRESHOLD : R;
  JITTER_THRESHOLD : R;
  ADAPTIVE_SMOOTHING : bool
}.

Definition default_config : Config :=
  {| SAMPLE_SIZE := 25;
     SHAKE_THRESHOLD := 17 / 10;
     SMOOTHING_FACTOR := 4 / 10;
     MIN_TREMOR_FREQUENCY := 3;
     MAX_TREMOR_FREQUENCY := 12;
     DIRECTION_CHANGE_THRESHOLD := 4 / 10;
     STD_DEV_THRESHOLD := 75 / 100;
     JITTER_THRESHOLD := 2;
     ADAPTIVE_SMOOTHING := true |}.

(** [FREQUENCY_WINDOW] is never reassigned. *)
Definition FREQUENCY_WINDOW : nat := 15.

(** The three deques are built at import time with
    [maxlen=SAMPLE_SIZE], that is 25, whatever [--samples] says later. *)
Definition deque_maxlen : nat := 25.

(** The module-level mutable state. *)
Record State : Type := mkState {
  position_history : list (Z * Z);
  delta_history : list (Z * Z);
  timestamp_history : list R;
  tremor_detected : bool;
  tremor_type : string;
  tremor_intensity : R;
  stabilization_active : bool;
  last_x : R;
  last_y : R;
  last_real_x : Z;
  last_real_y : Z
}.

Definition initial_state : State :=
  {| position_history := [];
     delta_history := [];
     timestamp_history := [];
     tremor_detected := false;
     tremor_type := "None"%string;
     tremor_intensity := 0;
     stabilization_active := true;
     last_x := 0;
     last_y := 0;
     last_real_x := 0%Z;
     last_real_y := 0%Z |}.

Definition set_histories (st : State) (ps ds : list (Z * Z)) (ts : list R)
  : State :=
  {| position_history := ps;
     delta_history := ds;
     timestamp_history := ts;
     tremor_detected := tremor_detected st;
     tremor_type := tremor_type st;
     tremor_intensity := tremor_intensity st;
     stabilization_active := stabilization_active st;
     last_x := last_x st;
     last_y := last_y st;
     last_real_x := last_real_x st;
     last_real_y := last_real_y st |}.

Definition set_classification (st : State) (ty : string) (i : R) : State :=
  {| position_history := position_history st;
     delta_history := delta_history st;
     timestamp_history := timestamp_history st;
     tremor_detected := tremor_detected st;
     tremor_type := ty;
     tremor_intensity := i;
     stabilization_active := stabilization_active st;
     last_x := last_x st;
     last_y := last_y st;
     last_real_x := last_real_x st;
     last_real_y := last_real_y st |}.

Definition set_tremor_detected (st : State) (b : bool) : State :=
  {| position_history := position_history st;
     delta_history := delta_history st;
     timestamp_history := timestamp_history st;
     tremor_detected := b;
     tremor_type := tremor_type st;
     tremor_intensity := tremor_intensity st;
     stabilization_active := stabilization_active st;
     last_x := last_x st;
     last_y := last_y st;
     last_real_x := last_real_x st;
     last_real_y := last_real_y st |}.

Definition set_stabilization_active (st : State) (b : bool) : State :=
  {| position_history := position_history st;
     delta_history := delta_history st;
     timestamp_history := timestamp_history st;
     tremor_detected := tremor_detected st;
     tremor_type := tremor_type st;
     tremor_intensity := tremor_intensity st;
     stabilization_active := b;
     last_x := last_x st;
     last_y := last_y st;
     last_real_x := last_real_x st;
     last_real_y := last_real_y st |}.

Definition set_last (st : State) (x y : R) : State :=
  {| position_history := position_history st;
     delta_history := delta_history st;
     timestamp_history := timestamp_history st;
     tremor_detected := tremor_detected st;
     tremor_type := tremor_type st;
     tremor_intensity := tremor_intensity st;
     stabilization_active := stabilization_active st;
     last_x := x;
     last_y := y;
     last_real_x := last_real_x st;
     last_real_y := last_real_y st |}.

Definition set_last_real (st : State) (x y : Z) : State :=
  {| position_history := position_history st;
     delta_history := delta_history st;
     timestamp_history := timestamp_history st;
     tremor_detected := tremor_detected st;
     tremor_type := tremor_type st;
     tremor_intensity := tremor_intensity st;
     stabilization_active := stabilization_active st;
     last_x := last_x st;
     last_y := last_y st;
     last_real_x := x;
     last_real_y := y |}.

(** [calculate_magnitude]: [np.sqrt(x**2 + y**2)] on integers. *)
Definition calculate_magnitude (x y : Z) : R :=
  sqrt (IZR (x ^ 2 + y ^ 2)).

(** [[recent_times[i] - recent_times[i-1] for i in range(1, len(recent_times))]] *)
Definition intervals (recent_times : list R) : list R :=
  map (fun pc => snd pc - fst pc) (Py.pairs recent_times).

(** [calculate_frequency], reading the global [timestamp_history]. *)
Definition calculate_frequency (timestamp_history : list R) : R :=
  if (length timestamp_history <? FREQUENCY_WINDOW)%nat then 0
  else
    let recent_times := Py.lastn FREQUENCY_WINDOW timestamp_history in
    let intervals := intervals recent_times in
    match intervals with
    | [] => 0
    | _ =>
        let avg_interval := Py.mean intervals in
        if Py.eqb avg_interval 0 then 0 else 1 / avg_interval
    end.

(** [calculate_jitter] *)
Definition calculate_jitter (positions : list (Z * Z)) : R :=
  if (length positions <? 3)%nat then 0
  else
    let first_derivs :=
      map (fun pc => (fst (snd pc) - fst (fst pc),
                      snd (snd pc) - snd (fst pc))%Z)
          (Py.pairs positions) in
    let second_derivs :=
      map (fun pc => calculate_magnitude
                       (fst (snd pc) - fst (fst pc))
                       (snd (snd pc) - snd (fst pc)))
          (Py.pairs first_derivs) in
    match second_derivs with
    | [] => 0
    | _ => Py.mean second_derivs
    end.

Definition nonzero (d : Z * Z) : bool :=
  negb (fst d =? 0)%Z || negb (snd d =? 0)%Z.

(** The list [directions] of [detect_tremor]: one cosine per consecutive
    pair of deltas that passes both guards. *)
Definition directions (deltas : list (Z * Z)) : list R :=
  flat_map
    (fun pc =>
       let prev := fst pc in
       let curr := snd pc in
       if nonzero prev && nonzero curr then
         let dot_product := (fst prev * fst curr + snd prev * snd curr)%Z in
         let magnitude_product :=
           calculate_magnitude (fst prev) (snd prev)
           * calculate_magnitude (fst curr) (snd curr) in
         if negb (Py.eqb magnitude_product 0)
         then [IZR dot_product / magnitude_product]
         else []
       else [])
    (Py.pairs deltas).

Definition direction_changes (deltas : list (Z * Z)) : nat :=
  Py.count (fun d => Py.ltb d 0) (directions deltas).

Definition direction_change_ratio (deltas : list (Z * Z)) : R :=
  match directions deltas with
  | [] => 0
  | ds => INR (direction_changes deltas) / INR (length ds)
  end.

(** The five booleans of [detect_tremor], in the order of the
    [tremor_scores] dictionary. *)
Record Criteria : Type := mkCriteria {
  frequency_tremor : bool;
  directional_tremor : bool;
  magnitude_tremor : bool;
  jitter_tremor : bool;
  variance_tremor : bool
}.

(** The part of [detect_tremor] between the early return and the
    [tremor_scores] dictionary: it reads the three histories (after the
    append) and the current delta. *)
Definition criteria (cfg : Config) (st : State) (dx dy : Z) : Criteria :=
  let current_magnitude := calculate_magnitude dx dy in
  let deltas := delta_history st in
  let magnitudes :=
    map (fun d => calculate_magnitude (fst d) (snd d)) deltas in
  let avg_magnitude := Py.mean magnitudes in
  let std_magnitude := Py.std magnitudes in
  let direction_change_ratio := direction_change_ratio deltas in
  let frequency := calculate_frequency (timestamp_history st) in
  let jitter := calculate_jitter (position_history st) in
  let cv :=
    if Py.gtb avg_magnitude 0 then std_magnitude / avg_magnitude else 0 in
  {| frequency_tremor :=
       Py.leb (MIN_TREMOR_FREQUENCY cfg) frequency
       && Py.leb frequency (MAX_TREMOR_FREQUENCY cfg);
     directional_tremor :=
       Py.gtb direction_change_ratio (DIRECTION_CHANGE_THRESHOLD cfg);
     magnitude_tremor :=
       Py.gtb current_magnitude (avg_magnitude * SHAKE_THRESHOLD cfg);
     jitter_tremor := Py.gtb jitter (JITTER_THRESHOLD cfg);
     variance_tremor := Py.gtb cv (STD_DEV_THRESHOLD cfg) |}.

(** The dictionary [tremor_scores], in insertion order. *)
Definition tremor_scores (c : Criteria) : list (string * R) :=
  [ ("Frequency"%string, if frequency_tremor c then 1 else 0);
    ("Directional"%string, if directional_tremor c then 1 else 0);
    ("Magnitude"%string, if magnitude_tremor c then 1 else 0);
    ("Jitter"%string, if jitter_tremor c then 1 else 0);
    ("Variance"%string, if variance_tremor c then 1 else 0) ].

Definition tremor_score (c : Criteria) : R :=
  Py.sum (map snd (tremor_scores c)) / 5.

Definition detected_types (c : Criteria) : list string :=
  map fst (filter (fun tv => Py.gtb (snd tv) 0) (tremor_scores c)).

(** [detect_tremor(dx, dy, current_x, current_y)]; [now] is the value
    [time.time()] returns inside the call.  The function returns the
    decision; it assigns the globals [tremor_type] and
    [tremor_intensity], not [tremor_detected]. *)
Definition detect_tremor (cfg : Config) (st : State)
    (dx dy current_x current_y : Z) (now : R) : State * bool :=
  let st1 :=
    set_histories st
      (Py.deque_append deque_maxlen (position_history st)
         (current_x, current_y))
      (Py.deque_append deque_maxlen (delta_history st) (dx, dy))
      (Py.deque_append deque_maxlen (timestamp_history st) now) in
  if (Z.of_nat (length (delta_history st1)) <? SAMPLE_SIZE cfg / 2)%Z
  then (st1, false)
  else
    let c := criteria cfg st1 dx dy in
    let tremor_score := tremor_score c in
    let tremor_detected := Py.gtb tremor_score (3 / 10) in
    let tremor_type :=
      if tremor_detected
      then String.concat "+" (detected_types c)
      else "None"%string in
    (set_classification st1 tremor_type tremor_score, tremor_detected).

(** The blend factor [adaptive_factor] of [apply_adaptive_smoothing]. *)
Definition adaptive_factor (cfg : Config) (st : State) : R :=
  if ADAPTIVE_SMOOTHING cfg
  then Py.max (1 / 10) (SMOOTHING_FACTOR cfg * (1 - tremor_intensity st))
  else SMOOTHING_FACTOR cfg.

(** [apply_adaptive_smoothing(x, y)] *)
Definition apply_adaptive_smoothing (cfg : Config) (st : State) (x y : R)
  : State * (Z * Z) :=
  let a := adaptive_factor cfg st in
  let filtered_x := a * x + (1 - a) * last_x st in
  let filtered_y := a * y + (1 - a) * last_y st in
  (set_last st filtered_x filtered_y, (Py.int filtered_x, Py.int filtered_y)).

(** [toggle_stabilization()] *)
Definition toggle_stabilization (st : State) : State * list Output :=
  let st' := set_stabilization_active st (negb (stabilization_active st)) in
  (st',
   [Print (newline ++ "Stabilization "
           ++ (if stabilization_active st' then "ENABLED" else "DISABLED"))
           %string]).

(** The prologue of [mouse_monitor]: [last_real_x, last_real_y] are
    declared global there and take the cursor position; [last_x, last_y]
    are not, so the assignment to them creates locals and the filter state
    keeps its value. *)
Definition mouse_monitor_init (st : State) (x y : Z) : State :=
  set_last_real st x y.

(** One iteration of the [while running] loop of [mouse_monitor]:
    [(current_x, current_y)] is what [get_cursor_pos()] returns, [now] is
    the clock read by [detect_tremor] when it is called. *)
Definition mouse_monitor_step (cfg : Config) (st : State)
    (current_x current_y : Z) (now : R) : State * list Output :=
  let dx := (current_x - last_real_x st)%Z in
  let dy := (current_y - last_real_y st)%Z in
  let st1 := set_last_real st current_x current_y in
  if (negb (dx =? 0)%Z || negb (dy =? 0)%Z) && stabilization_active st1
  then
    let (st2, d) := detect_tremor cfg st1 dx dy current_x current_y now in
    let st3 := set_tremor_detected st2 d in
    if d then
      let (st4, new) :=
        apply_adaptive_smoothing cfg st3 (IZR current_x) (IZR current_y) in
      (set_last_real st4 (fst new) (snd new),
       [SetCursorPos (fst new) (snd new)])
    else (st3, [])
  else (st1, []).

(** What the controller reacts to: a poll of the cursor, or the [s]
    command. *)
Inductive Event : Type :=
| Poll (current_x current_y : Z) (now : R)
| Toggle.

(** A poll given as [((x, y), now)]. *)
Definition poll_of (p : Z * Z * R) : Event :=
  Poll (fst (fst p)) (snd (fst p)) (snd p).

Definition step (cfg : Config) (st : State) (e : Event)
  : State * list Output :=
  match e with
  | Poll x y now => mouse_monitor_step cfg st x y now
  | Toggle => toggle_stabilization st
  end.

(** A run of the controller: the final state and the outputs of each
    event, in order. *)
Fixpoint run (cfg : Config) (st : State) (es : list Event)
  : State * list (list Output) :=
  match es with
  | [] => (st, [])
  | e :: es' =>
      let (st1, out) := step cfg st e in
      let (st2, outs) := run cfg st1 es' in
      (st2, out :: outs)
  end.

(** Feeding the classifier alone a sequence of samples
    [(dx, dy, current_x, current_y, now)]. *)
Record Sample : Type := mkSample {
  s_dx : Z; s_dy : Z; s_x : Z; s_y : Z; s_t : R
}.

Definition classify (cfg : Config) (st : State) (s : Sample)
  : State * bool :=
  detect_tremor cfg st (s_dx s) (s_dy s) (s_x s) (s_y s) (s_t s).

Definition feed (cfg : Config) (st : State) (ss : list Sample) : State :=
  fold_left (fun st s => fst (classify cfg st s)) ss st.

(** The decisions [detect_tremor] returns along a sequence of samples, in
    order. *)
Fixpoint decisions (cfg : Config) (st : State) (ss : list Sample)
  : list bool :=
  match ss with
  | [] => []
  | s :: ss' =>
      let (st', d) := classify cfg st s in
      d :: decisions cfg st' ss'
  end.

(** The three histories hold the same samples, index by index: they are the
    three projections of one list of samples. *)
Definition aligned (st : State) : Prop :=
  exists window : list Sample,
    delta_history st = map (fun s => (s_dx s, s_dy s)) window
    /\ position_history st = map (fun s => (s_x s, s_y s)) window
    /\ timestamp_history st = map s_t window.

End Enhanced.

(** ** The baseline classifier and filter

    [detect_tremor] and [apply_smoothing] are the same text in
    tremor_filter.py, Joystick/mouse_filter.py, simple_windows_filter.py and
    windows_mouse_filter_fixed.py; the four files differ in how a sample
    reaches them. *)

Module Baseline.

Record Config : Type := mkConfig {
  SAMPLE_SIZE : Z;
  SHAKE_THRESHOLD : R;
  SMOOTHING_FACTOR : R
}.

Definition default_config : Config :=
  {| SAMPLE_SIZE := 20;
     SHAKE_THRESHOLD := 17 / 10;
     SMOOTHING_FACTOR := 4 / 10 |}.

(** [mouse_history = deque(maxlen=SAMPLE_SIZE)], built at import time. *)
Definition deque_maxlen : nat := 20.

(** The module-level mutable state.  [last_real_x], [last_real_y] exist in
    the three cursor-reading variants, [arduino_verified] in the serial
    one. *)
Record State : Type := mkState {
  mouse_history : list (Z * Z);
  tremor_detected : bool;
  stabilization_active : bool;
  last_x : R;
  last_y : R;
  last_real_x : Z;
  last_real_y : Z;
  arduino_verified : bool
}.

Definition initial_state : State :=
  {| mouse_history := [];
     tremor_detected := false;
     stabilization_active := true;
     last_x := 0;
     last_y := 0;
     last_real_x := 0%Z;
     last_real_y := 0%Z;
     arduino_verified := false |}.

Definition set_mouse_history (st : State) (h : list (Z * Z)) : State :=
  {| mouse_history := h;
     tremor_detected := tremor_detected st;
     stabilization_active := stabilization_active st;
     last_x := last_x st;
     last_y := last_y st;
     last_real_x := last_real_x st;
     last_real_y := last_real_y st;
     arduino_verified := arduino_verified st |}.

Definition set_tremor_detected (st : State) (b : bool) : State :=
  {| mouse_history := mouse_history st;
     tremor_detected := b;
     stabilization_active := stabilization_active st;
     last_x := last_x st;
     last_y := last_y st;
     last_real_x := last_real_x st;
     last_real_y := last_real_y st;
     arduino_verified := arduino_verified st |}.

Definition set_stabilization_active (st : State) (b : bool) : State :=
  {| mouse_history := mouse_history st;
     tremor_detected := tremor_detected st;
     stabilization_active := b;
     last_x := last_x st;
     last_y := last_y st;
     last_real_x := last_real_x st;
     last_real_y := last_real_y st;
     arduino_verified := arduino_verified st |}.

Definition set_last (st : State) (x y : R) : State :=
  {| mouse_history := mouse_history st;
     tremor_detected := tremor_detected st;
     stabilization_active := stabilization_active st;
     last_x := x;
     last_y := y;
     last_real_x := last_real_x st;
     last_real_y := last_real_y st;
     arduino_verified := arduino_verified st |}.

Definition set_last_real (st : State) (x y : Z) : State :=
  {| mouse_history := mouse_history st;
     tremor_detected := tremor_detected st;
     stabilization_active := stabilization_active st;
     last_x := last_x st;
     last_y := last_y st;
     last_real_x := x;
     last_real_y := y;
     arduino_verified := arduino_verified st |}.

Definition set_arduino_verified (st : State) (b : bool) : State :=
  {| mouse_history := mouse_history st;
     tremor_detected := tremor_detected st;
     stabilization_active := stabilization_active st;
     last_x := last_x st;
     last_y := last_y st;
     last_real_x := last_real_x st;
     last_real_y := last_real_y st;
     arduino_verified := b |}.

Definition calculate_magnitude (x y : Z) : R :=
  sqrt (IZR (x ^ 2 + y ^ 2)).

(** The list [directions] of the baseline [detect_tremor]: one raw dot
    product per consecutive pair whose first delta is not (0, 0). *)
Definition directions (history : list (Z * Z)) : list Z :=
  flat_map
    (fun pc =>
       let prev := fst pc in
       let curr := snd pc in
       if negb (fst prev =? 0)%Z || negb (snd prev =? 0)%Z
       then [(fst prev * fst curr + snd prev * snd curr)%Z]
       else [])
    (Py.pairs history).

Definition direction_changes (history : list (Z * Z)) : nat :=
  Py.count (fun d => (d <? 0)%Z) (directions history).

(** The second disjunct of [is_tremor]:
    [direction_changes > len(directions) * 0.4]. *)
Definition many_direction_changes (history : list (Z * Z)) : bool :=
  Py.gtb (INR (direction_changes history))
         (INR (length (directions history)) * (4 / 10)).

(** [detect_tremor(x, y)] *)
Definition detect_tremor (cfg : Config) (st : State) (x y : Z)
  : State * bool :=
  let st1 :=
    set_mouse_history st
      (Py.deque_append deque_maxlen (mouse_history st) (x, y)) in
  if (Z.of_nat (length (mouse_history st1)) <? SAMPLE_SIZE cfg / 2)%Z
  then (st1, false)
  else
    let current_magnitude := calculate_magnitude x y in
    let magnitudes :=
      map (fun p => calculate_magnitude (fst p) (snd p))
          (mouse_history st1) in
    let avg_magnitude := Py.mean magnitudes in
    let std_magnitude := Py.std magnitudes in
    let is_tremor :=
      Py.gtb current_magnitude (avg_magnitude * SHAKE_THRESHOLD cfg)
      || many_direction_changes (mouse_history st1)
      || Py.gtb std_magnitude (avg_magnitude * (8 / 10)) in
    (st1, is_tremor).

(** [apply_smoothing(x, y)], up to the [return]: the new state and the
    pair [(filtered_x, filtered_y)].  tremor_filter.py returns the pair as
    it is, the other three files return [int] of each component. *)
Definition apply_smoothing (cfg : Config) (st : State) (x y : R)
  : State * (R * R) :=
  let filtered_x :=
    SMOOTHING_FACTOR cfg * x + (1 - SMOOTHING_FACTOR cfg) * last_x st in
  let filtered_y :=
    SMOOTHING_FACTOR cfg * y + (1 - SMOOTHING_FACTOR cfg) * last_y st in
  (set_last st filtered_x filtered_y, (filtered_x, filtered_y)).

Definition apply_smoothing_int (cfg : Config) (st : State) (x y : R)
  : State * (Z * Z) :=
  let (st', f) := apply_smoothing cfg st x y in
  (st', (Py.int (fst f), Py.int (snd f))).

(** [toggle_stabilization()] (the [s] command of every variant). *)
Definition toggle_stabilization (st : State) : State :=
  set_stabilization_active st (negb (stabilization_active st)).

(** Feeding the baseline classifier a sequence of deltas: the final state
    and the decisions it returns, in order. *)
Definition feed (cfg : Config) (st : State) (ds : list (Z * Z)) : State :=
  fold_left (fun st d => fst (detect_tremor cfg st (fst d) (snd d))) ds st.

Fixpoint decisions (cfg : Config) (st : State) (ds : list (Z * Z))
  : list bool :=
  match ds with
  | [] => []
  | d :: ds' =>
      let (st', b) := detect_tremor cfg st (fst d) (snd d) in
      b :: decisions cfg st' ds'
  end.

End Baseline.

(** ** Joystick/mouse_filter.py: the pynput listener callback *)

Module Joystick.
Import Baseline.

(** How a call of the callback ends. *)
Inductive Outcome : Type :=
| Return (b : bool)
| Raise (e : Py.Exception).

(** [on_move(x, y)]: the new state, the cursor placement if any, and how
    the call ends.  When a tremor is detected the callback stops the
    listener, places the cursor and calls [mouse_listener.start()]; the
    listener is the thread the callback runs in, it has been started, and
    starting a thread a second time raises [RuntimeError].  The assignments
    to [last_real_x], [last_real_y] and the [return False] that follow are
    not reached. *)
Definition on_move (cfg : Config) (st : State) (x y : Z)
  : State * list Output * Outcome :=
  let dx := (x - last_real_x st)%Z in
  let dy := (y - last_real_y st)%Z in
  let st1 := set_last_real st x y in
  if (negb (dx =? 0)%Z || negb (dy =? 0)%Z) && stabilization_active st1
  then
    let (st2, d) := detect_tremor cfg st1 dx dy in
    let st3 := set_tremor_detected st2 d in
    if d then
      let (st4, new) := apply_smoothing_int cfg st3 (IZR x) (IZR y) in
      (st4, [SetCursorPos (fst new) (snd new)], Raise Py.RuntimeError)
    else (st3, [], Return true)
  else (st1, [], Return true).

End Joystick.

(** ** simple_windows_filter.py: the polling loop *)

Module SimpleWindows.
Import Baseline.

(** One iteration of the [while running] loop of [mouse_monitor]. *)
Definition mouse_monitor_step (cfg : Config) (st : State)
    (current_x current_y : Z) : State * list Output :=
  let dx := (current_x - last_real_x st)%Z in
  let dy := (current_y - last_real_y st)%Z in
  let st1 := set_last_real st current_x current_y in
  if (negb (dx =? 0)%Z || negb (dy =? 0)%Z) && stabilization_active st1
  then
    let (st2, d) := detect_tremor cfg st1 dx dy in
    let st3 := set_tremor_detected st2 d in
    if d then
      let (st4, new) :=
        apply_smoothing_int cfg st3 (IZR current_x) (IZR current_y) in
      (set_last_real st4 (fst new) (snd new),
       [SetCursorPos (fst new) (snd new)])
    else (st3, [])
  else (st1, []).

End SimpleWindows.

(** ** windows_mouse_filter_fixed.py: the low-level hook callback *)

Module WindowsHook.
Import Baseline.

Definition WM_MOUSEMOVE : Z := 512.

(** [mouse_callback(n_code, w_param, l_param)]; [(current_x, current_y)]
    is what [get_cursor_pos()] returns when it is called.  The boolean is
    [true] when the callback returns 1 (movement handled) and [false] when
    it hands over to [CallNextHookEx]. *)
Definition mouse_callback (cfg : Config) (st : State)
    (n_code w_param : Z) (current_x current_y : Z)
  : State * list Output * bool :=
  if (n_code <? 0)%Z then (st, [], false)
  else if (w_param =? WM_MOUSEMOVE)%Z && stabilization_active st then
    let dx := (current_x - last_real_x st)%Z in
    let dy := (current_y - last_real_y st)%Z in
    let st1 := set_last_real st current_x current_y in
    if negb (dx =? 0)%Z || negb (dy =? 0)%Z then
      let (st2, d) := detect_tremor cfg st1 dx dy in
      let st3 := set_tremor_detected st2 d in
      if d then
        let (st4, new) :=
          apply_smoothing_int cfg st3 (IZR current_x) (IZR current_y) in
        (st4, [SetCursorPos (fst new) (snd new)], true)
      else (st3, [], false)
    else (st1, [], false)
  else (st, [], false).

End WindowsHook.

(** ** tremor_filter.py: records from the serial link *)

Module Serial.
Import Baseline.

Definition button_map (k : string) : string :=
  if String.eqb k "L" then "left"%string
  else if String.eqb k "R" then "right"%string
  else "middle"%string.

(** The body of the [while True] loop of [process_data] for one line read
    from the port ([raw] is the decoded line, before [strip]), when no
    exception leaves it; [process_data] below tells when one does. *)
Definition process_line (cfg : Config) (st : State) (raw : string)
  : State * list Output :=
  let line := Py.strip raw in
  if String.eqb line "" then (st, [])
  else
    let parts := Py.split "," line in
    let parts0 := hd EmptyString parts in
    if String.eqb parts0 "M" && (3 <=? length parts)%nat then
      match Py.int_of_str (nth 1 parts EmptyString),
            Py.int_of_str (nth 2 parts EmptyString) with
      | Some x, Some y =>
          let (st1, d) := detect_tremor cfg st x y in
          let st2 := set_tremor_detected st1 d in
          let '(st3, (fx, fy)) :=
            if d && stabilization_active st2
            then apply_smoothing cfg st2 (IZR x) (IZR y)
            else (st2, (IZR x, IZR y)) in
          if negb (Py.eqb fx 0) || negb (Py.eqb fy 0)
          then (st3, [MoveRel (Py.int fx) (Py.int fy)])
          else (st3, [])
      | _, _ =>
          (st, [Print ("Error parsing movement data: " ++ line)%string])
      end
    else if (String.eqb parts0 "L" || String.eqb parts0 "R"
             || String.eqb parts0 "N") && (2 <=? length parts)%nat then
      let button_state := String.eqb (nth 1 parts EmptyString) "1" in
      let button := button_map parts0 in
      if button_state then (st, [MouseDown button])
      else (st, [MouseUp button])
    else if String.eqb parts0 "I" then
      let msg :=
        Print ("Info: " ++ String.concat "," (tl parts))%string in
      if Py.contains "USB Host Shield" line
      then (set_arduino_verified st true, [msg])
      else (st, [msg])
    else if String.eqb parts0 "E" then
      (st, [Print ("Error from Arduino: "
                   ++ String.concat "," (tl parts))%string])
    else (st, []).

(** The two integers of a motion record whose fields [int] accepts. *)
Definition motion_fields (raw : string) : option (Z * Z) :=
  let parts := Py.split "," (Py.strip raw) in
  if String.eqb (hd EmptyString parts) "M" && (3 <=? length parts)%nat then
    match Py.int_of_str (nth 1 parts EmptyString),
          Py.int_of_str (nth 2 parts EmptyString) with
    | Some x, Some y => Some (x, y)
    | _, _ => None
    end
  else None.

(** [np.sqrt(v)] on a Python [int]: an integer below 2^64 is converted to a
    machine number; a larger one is handed over as an object, which has no
    [sqrt], and the call raises [TypeError]. *)
Definition sqrt_raises (v : Z) : bool := (2 ^ 64 <=? v)%Z.

(** Whether [detect_tremor(x, y)] raises: past its guard it calls
    [calculate_magnitude] on the current delta and on every entry of the
    window, the current delta being the last of them. *)
Definition detect_tremor_raises (cfg : Config) (st : State) (x y : Z)
  : bool :=
  let history := Py.deque_append deque_maxlen (mouse_history st) (x, y) in
  negb (Z.of_nat (length history) <? SAMPLE_SIZE cfg / 2)%Z
  && existsb (fun p => sqrt_raises (fst p ^ 2 + snd p ^ 2)) history.

(** [process_data] over what the successive calls of [ser.readline()]
    return: the final state, what was printed or sent to the mouse, and the
    exception that ended the loop, if any ([None]: every line was processed
    and the loop goes on reading).  [decode] is called outside the inner
    [try]: an undecodable line raises [UnicodeDecodeError] to the outer
    handler.  Inside the motion branch only [ValueError] is handled: the
    [TypeError] of [np.sqrt] leaves [detect_tremor] after the append and
    before [tremor_detected] is assigned, and reaches the outer handler
    too.  The outer handler prints the exception and the function
    returns.  The calls into the port and into pyautogui are taken to
    succeed. *)
Fixpoint process_data (cfg : Config) (st : State)
    (reads : list (list Byte.byte))
  : State * list Output * option Py.Exception :=
  match reads with
  | [] => (st, [], None)
  | bytes :: rest =>
      match Py.decode_utf8 bytes with
      | None =>
          (st,
           [PrintException "Error in data processing: "
              Py.UnicodeDecodeError],
           Some Py.UnicodeDecodeError)
      | Some raw =>
          let raises :=
            match motion_fields raw with
            | Some (x, y) =>
                if detect_tremor_raises cfg st x y
                then Some (set_mouse_history st
                             (Py.deque_append deque_maxlen (mouse_history st)
                                (x, y)))
                else None
            | None => None
            end in
          match raises with
          | Some st1 =>
              (st1,
               [PrintException "Error in data processing: " Py.TypeError],
               Some Py.TypeError)
          | None =>
              let (st1, out) := process_line cfg st raw in
              let '(st2, outs, e) := process_data cfg st1 rest in
              (st2, out ++ outs, e)
          end
      end
  end.

End Serial.

(** ** The smoothing step in binary64 arithmetic

    [apply_smoothing] (the same text in the four baseline files) and the
    last lines of [apply_adaptive_smoothing] evaluate
    [factor * x + (1 - factor) * last] on Python [float]s: every operation
    is the IEEE 754 binary64 one, rounded to nearest. *)

Module Binary64.
Import PrimFloat.
Local Open Scope float_scope.

(** [float(x)] of a Python [int] (exact below 2^53 in absolute value). *)
Definition of_int (x : Z) : float :=
  if (x <? 0)%Z then - of_uint63 (Uint63.of_Z (- x))
  else of_uint63 (Uint63.of_Z x).

(** The default [SMOOTHING_FACTOR = 0.4]: the float nearest to 4/10. *)
Definition SMOOTHING_FACTOR : float := 0x1.999999999999ap-2.

(** [max(0.1, SMOOTHING_FACTOR * (1.0 - tremor_intensity))] *)
Definition adaptive_factor (SMOOTHING_FACTOR tremor_intensity : float)
  : float :=
  let v := SMOOTHING_FACTOR * (1 - tremor_intensity) in
  if 0x1.999999999999ap-4 <? v then v else 0x1.999999999999ap-4.



(** One coordinate of the smoothing step. *)
Definition filtered (factor : float) (x : Z) (last : float) : float :=
  factor * of_int x + (1 - factor) * last.

(** The smoothing step on the filter state [(last_x, last_y)]. *)
Definition apply_smoothing (factor : float) (last : float * float)
    (x y : Z) : float * float :=
  (filtered factor x (fst last), filtered factor y (snd last)).










End Binary64.

(** ** Vocabulary of the design document and example inputs *)

Module Spec.
Import Enhanced.

(** The criteria that fired, by name, in the order Frequency, Directional,
    Magnitude, Jitter, Variance. *)
Definition fired (c : Criteria) : list string :=
  (if frequency_tremor c then ["Frequency"%string] else [])
  ++ (if directional_tremor c then ["Directional"%string] else [])
  ++ (if magnitude_tremor c then ["Magnitude"%string] else [])
  ++ (if jitter_tremor c then ["Jitter"%string] else [])
  ++ (if variance_tremor c then ["Variance"%string] else []).

(** The number of true criteria. *)
Definition fired_count (c : Criteria) : nat := length (fired c).

(** What each classifier records for one pair [(prev, curr)] of deltas that
    passes its guard: the cosine of the angle in the enhanced classifier,
    the raw dot product in the baseline one. *)
Definition enhanced_entry (pc : (Z * Z) * (Z * Z)) : R :=
  IZR (fst (fst pc) * fst (snd pc) + snd (fst pc) * snd (snd pc))
  / (calculate_magnitude (fst (fst pc)) (snd (fst pc))
     * calculate_magnitude (fst (snd pc)) (snd (snd pc))).

Definition baseline_entry (pc : (Z * Z) * (Z * Z)) : Z :=
  (fst (fst pc) * fst (snd pc) + snd (fst pc) * snd (snd pc))%Z.

(** [n] samples of a hand that oscillates along the x axis around
    [(x0, y0)] with amplitude [amp]: the cursor is at [x0 + amp] on odd
    samples and back at [x0] on even ones; sample [i] is taken at time [i]
    seconds. *)
Definition oscillation_x (x0 amp : Z) (i : nat) : Z :=
  if Nat.odd i then (x0 + amp)%Z else x0.

Definition oscillation_sample (x0 y0 amp : Z) (i : nat) : Sample :=
  {| s_dx := (oscillation_x x0 amp i - oscillation_x x0 amp (i - 1))%Z;
     s_dy := 0;
     s_x := oscillation_x x0 amp i;
     s_y := y0;
     s_t := INR i |}.

Definition oscillation (x0 y0 amp : Z) (n : nat) : list Sample :=
  map (oscillation_sample x0 y0 amp) (seq 1 n).

(** The same motion as the polling loop sees it. *)
Definition oscillation_polls (x0 y0 amp : Z) (n : nat) : list Event :=
  map (fun i => Poll (oscillation_x x0 amp i) y0 (INR i)) (seq 1 n).

(** Positions of a cursor that leaves [(x, y)] and advances by [(dx, dy)] at
    every step, [n] steps long. *)
Fixpoint line (x y dx dy : Z) (n : nat) : list (Z * Z) :=
  match n with
  | O => []
  | S n' => ((x + dx)%Z, (y + dy)%Z) :: line (x + dx) (y + dy) dx dy n'
  end.

(** The samples of that steady motion, one per timestamp of [ts]. *)
Fixpoint drift (x y dx dy : Z) (ts : list R) : list Sample :=
  match ts with
  | [] => []
  | t :: ts' =>
      {| s_dx := dx; s_dy := dy;
         s_x := (x + dx)%Z; s_y := (y + dy)%Z; s_t := t |}
      :: drift (x + dx) (y + dy) dx dy ts'
  end.

(** A window of [n] deltas that reverses at every sample:
    [d, -d, d, ...]. *)
Fixpoint alternating (d : Z * Z) (n : nat) : list (Z * Z) :=
  match n with
  | O => []
  | S n' => d :: alternating ((- fst d)%Z, (- snd d)%Z) n'
  end.

(** The values an intensity can take: 0, 1/5, ..., 5/5. *)
Definition fifths (v : R) : Prop :=
  exists k : nat, (k <= 5)%nat /\ v = INR k / 5.

(** A session that starts with the cursor at the origin: stabilization is
    switched off, the cursor is moved to (2000, 1000), stabilization is
    switched on again, and the hand then oscillates by 5 units around the
    new position. *)
Definition reenable_prefix : list Event :=
  Toggle :: Poll 2000 1000 0 :: Toggle
  :: oscillation_polls 2000 1000 5 11.

Definition reenable_session : list Event :=
  [Toggle; Poll 2000 1000 0; Toggle] ++ oscillation_polls 2000 1000 5 12.

End Spec.

(** * Properties *)

(** ** Facts about the primitives *)

Module PyFacts.

Lemma ltb_true (a b : R) : Py.ltb a b = true <-> a < b.
Proof.
  unfold Py.ltb. destruct (Rlt_dec a b); split; intros; try easy.
Qed.

Lemma ltb_false (a b : R) : Py.ltb a b = false <-> b <= a.
Proof.
  unfold Py.ltb. destruct (Rlt_dec a b); split; intros; try easy; lra.
Qed.

Lemma gtb_true (a b : R) : Py.gtb a b = true <-> b < a.
Proof. apply ltb_true. Qed.

Lemma gtb_false (a b : R) : Py.gtb a b = false <-> a <= b.
Proof. apply ltb_false. Qed.

Lemma leb_true (a b : R) : Py.leb a b = true <-> a <= b.
Proof.
  unfold Py.leb. destruct (Rle_dec a b); split; intros; try easy.
Qed.

Lemma leb_false (a b : R) : Py.leb a b = false <-> b < a.
Proof.
  unfold Py.leb. destruct (Rle_dec a b); split; intros; try easy; lra.
Qed.

Lemma eqb_true (a b : R) : Py.eqb a b = true <-> a = b.
Proof.
  unfold Py.eqb. destruct (Req_dec_T a b); split; intros; try easy.
Qed.

Lemma eqb_false (a b : R) : Py.eqb a b = false <-> a <> b.
Proof.
  unfold Py.eqb. destruct (Req_dec_T a b); split; intros; try easy.
Qed.

Lemma max_Rmax (a b : R) : Py.max a b = Rmax a b.
Proof.
  unfold Py.max, Rmax.
  destruct (Rlt_dec a b), (Rle_dec a b); try reflexivity; lra.
Qed.

(** [int] of a float that holds an integer is that integer. *)
Lemma int_IZR (z : Z) : Py.int (IZR z) = z.
Proof.
  assert (H : forall k, Int_part (IZR k) = k).
  { intro k. symmetry. apply Int_part_spec. lra. }
  unfold Py.int. destruct (Rle_dec 0 (IZR z)).
  - apply H.
  - rewrite <- opp_IZR, H. lia.
Qed.

(** [int] truncates toward zero. *)
Lemma int_nonneg (r : R) :
  0 <= r -> IZR (Py.int r) <= r < IZR (Py.int r) + 1.
Proof.
  intros Hr. unfold Py.int. destruct (Rle_dec 0 r); [|lra].
  destruct (base_Int_part r). lra.
Qed.

End PyFacts.

(** ** The smoothing filter *)

(** C3. In [apply_adaptive_smoothing] the effective blend factor is the base
    smoothing factor when adaptive smoothing is off and
    [max(0.1, base * (1 - intensity))] when it is on, for every state (hence
    every intensity) and every input; the filtered value, which becomes the
    new filter state, is [a * raw + (1 - a) * last]; the pair handed to the
    cursor is that value truncated to integers.  With adaptive smoothing on,
    base factor 0.4, intensity 0.8, last filtered (0, 0) and input (10, 10)
    the emitted pair is (1, 1). *)
Theorem C3_adaptive_smoothing_formula
    (cfg : Enhanced.Config) (st : Enhanced.State) (x y : R) :
  let a := Enhanced.adaptive_factor cfg st in
  let r := Enhanced.apply_adaptive_smoothing cfg st x y in
  a = (if Enhanced.ADAPTIVE_SMOOTHING cfg
       then Rmax (1 / 10)
              (Enhanced.SMOOTHING_FACTOR cfg
               * (1 - Enhanced.tremor_intensity st))
       else Enhanced.SMOOTHING_FACTOR cfg)
  /\ Enhanced.last_x (fst r) = a * x + (1 - a) * Enhanced.last_x st
  /\ Enhanced.last_y (fst r) = a * y + (1 - a) * Enhanced.last_y st
  /\ snd r = (Py.int (Enhanced.last_x (fst r)),
              Py.int (Enhanced.last_y (fst r)))
  /\ (forall ty : string,
        snd (Enhanced.apply_adaptive_smoothing Enhanced.default_config
               (Enhanced.set_classification Enhanced.initial_state ty (8 / 10))
               10 10)
        = (1, 1)%Z).
Proof.
  intros a r. repeat split.
  - unfold a, Enhanced.adaptive_factor.
    destruct (Enhanced.ADAPTIVE_SMOOTHING cfg); [apply PyFacts.max_Rmax|reflexivity].
  - intros ty.
    unfold Enhanced.apply_adaptive_smoothing, Enhanced.adaptive_factor.
    cbn [snd Enhanced.default_config Enhanced.ADAPTIVE_SMOOTHING
         Enhanced.SMOOTHING_FACTOR Enhanced.set_classification
         Enhanced.tremor_intensity Enhanced.initial_state
         Enhanced.last_x Enhanced.last_y].
    replace (Py.max (1 / 10) (4 / 10 * (1 - 8 / 10))) with (1 / 10).
    2:{ unfold Py.max. destruct (Rlt_dec _ _); [lra|reflexivity]. }
    replace (1 / 10 * 10 + (1 - 1 / 10) * 0) with (IZR 1) by lra.
    rewrite PyFacts.int_IZR. reflexivity.
Qed.

(** ** The smoothing filter under a constant input, in binary64 *)

Module Binary64Facts.
Import Binary64.








End Binary64Facts.




(** ** Lists: windows, consecutive pairs, sums *)

Module ListFacts.

Lemma length_pairs {A : Type} (l : list A) :
  length (Py.pairs l) = pred (length l).
Proof.
  induction l as [|a [|b t] IH]; try reflexivity.
  change (Py.pairs (a :: b :: t)) with ((a, b) :: Py.pairs (b :: t)).
  cbn [length]. rewrite IH. reflexivity.
Qed.

Lemma length_lastn {A : Type} (n : nat) (l : list A) :
  length (Py.lastn n l) = Nat.min n (length l).
Proof. unfold Py.lastn. rewrite length_skipn. lia. Qed.

Lemma lastn_short {A : Type} (n : nat) (l : list A) :
  (length l <= n)%nat -> Py.lastn n l = l.
Proof.
  intros H. unfold Py.lastn.
  replace (length l - n)%nat with 0%nat by lia. reflexivity.
Qed.

Lemma nth_lastn {A : Type} (n i : nat) (l : list A) (d : A) :
  nth i (Py.lastn n l) d = nth (length l - n + i) l d.
Proof. unfold Py.lastn. apply nth_skipn. Qed.

(** Appending to a full window and cutting again is the same as cutting the
    whole stream once. *)
Lemma lastn_app_lastn {A : Type} (n : nat) (l : list A) (x : A) :
  Py.lastn n (Py.lastn n l ++ [x]) = Py.lastn n (l ++ [x]).
Proof.
  unfold Py.lastn at 1 3.
  rewrite !length_app, length_lastn. cbn [length].
  unfold Py.lastn. rewrite skipn_app, skipn_skipn.
  rewrite (skipn_app (length l + 1 - n) l [x]).
  rewrite length_skipn.
  f_equal; f_equal; lia.
Qed.

Lemma lastn_map {A B : Type} (f : A -> B) (n : nat) (l : list A) :
  Py.lastn n (map f l) = map f (Py.lastn n l).
Proof. unfold Py.lastn. rewrite length_map. apply skipn_map. Qed.

Lemma last_nonempty {A : Type} (c : A) (t : list A) (a b : A) :
  last (c :: t) a = last (c :: t) b.
Proof.
  revert c. induction t as [|e t IH]; intros c; [reflexivity|].
  change (last (c :: e :: t) a) with (last (e :: t) a).
  change (last (c :: e :: t) b) with (last (e :: t) b).
  apply IH.
Qed.

Lemma last_as_nth {A : Type} (l : list A) (a d : A) :
  last l a = nth (length l) (a :: l) d.
Proof.
  revert a. induction l as [|b t IH]; intros a; [reflexivity|].
  destruct t as [|c t'].
  - reflexivity.
  - change (last (b :: c :: t') a) with (last (c :: t') a).
    change (nth (length (b :: c :: t')) (a :: b :: c :: t') d)
      with (nth (length (c :: t')) (b :: c :: t') d).
    rewrite <- (IH b). apply last_nonempty.
Qed.

(** The sum of the consecutive differences telescopes. *)
Lemma sum_intervals (l : list R) (a : R) :
  Py.sum (Enhanced.intervals (a :: l)) = last l a - a.
Proof.
  revert a. induction l as [|b t IH]; intros a.
  - cbn. lra.
  - change (Enhanced.intervals (a :: b :: t))
      with ((b - a) :: Enhanced.intervals (b :: t)).
    change (Py.sum ((b - a) :: Enhanced.intervals (b :: t)))
      with ((b - a) + Py.sum (Enhanced.intervals (b :: t))).
    rewrite IH.
    destruct t as [|c t']; [cbn; lra|].
    change (last (b :: c :: t') a) with (last (c :: t') a).
    rewrite (last_nonempty c t' b a). lra.
Qed.

Lemma length_intervals (l : list R) :
  length (Enhanced.intervals l) = pred (length l).
Proof. unfold Enhanced.intervals. rewrite length_map. apply length_pairs. Qed.

End ListFacts.

(** ** The frequency estimate *)

Module FrequencyFacts.
Import Enhanced.

(** With a full frequency window the average interval is the time spanned by
    the last [FREQUENCY_WINDOW] timestamps divided by the number of
    intervals. *)
Lemma mean_recent_intervals (ts : list R) :
  (FREQUENCY_WINDOW <= length ts)%nat ->
  intervals (Py.lastn FREQUENCY_WINDOW ts) <> []
  /\ Py.mean (intervals (Py.lastn FREQUENCY_WINDOW ts))
     = (nth (length ts - 1) ts 0
        - nth (length ts - FREQUENCY_WINDOW) ts 0) / 14.
Proof.
  intros Hlen.
  pose proof (ListFacts.length_lastn FREQUENCY_WINDOW ts) as Hl.
  rewrite Nat.min_l in Hl by exact Hlen.
  pose proof (ListFacts.nth_lastn FREQUENCY_WINDOW 0 ts 0) as H0.
  pose proof (ListFacts.nth_lastn FREQUENCY_WINDOW 14 ts 0) as H14.
  destruct (Py.lastn FREQUENCY_WINDOW ts) as [|a l] eqn:E;
    [discriminate Hl|].
  assert (Hll : length l = 14%nat) by (cbn in Hl; unfold FREQUENCY_WINDOW in Hl; lia).
  split.
  - intros C. apply (f_equal (@length R)) in C.
    rewrite ListFacts.length_intervals in C. cbn in C. lia.
  - unfold Py.mean.
    rewrite ListFacts.sum_intervals, ListFacts.length_intervals.
    cbn [length pred]. rewrite Hll.
    rewrite (ListFacts.last_as_nth l a 0), Hll, H14.
    cbn [nth] in H0. rewrite H0.
    unfold FREQUENCY_WINDOW.
    replace (length ts - 15 + 14)%nat with (length ts - 1)%nat
      by (unfold FREQUENCY_WINDOW in Hlen; lia).
    replace (length ts - 15 + 0)%nat with (length ts - 15)%nat by lia.
    replace (INR 14) with 14 by (simpl; lra).
    reflexivity.
Qed.

(** The guard at the top of [calculate_frequency]. *)
Lemma calculate_frequency_short (ts : list R) :
  (length ts < FREQUENCY_WINDOW)%nat -> calculate_frequency ts = 0.
Proof.
  intros H. unfold calculate_frequency.
  apply Nat.ltb_lt in H. rewrite H. reflexivity.
Qed.

Lemma calculate_frequency_full (ts : list R) :
  (FREQUENCY_WINDOW <= length ts)%nat ->
  calculate_frequency ts
  = if Req_dec_T (Py.mean (intervals (Py.lastn FREQUENCY_WINDOW ts))) 0
    then 0
    else 1 / Py.mean (intervals (Py.lastn FREQUENCY_WINDOW ts)).
Proof.
  intros H. unfold calculate_frequency.
  destruct (mean_recent_intervals ts H) as [Hne _].
  apply Nat.ltb_ge in H. rewrite H.
  destruct (intervals (Py.lastn FREQUENCY_WINDOW ts)) as [|i rest] eqn:E;
    [contradiction|].
  unfold Py.eqb. destruct (Req_dec_T _ _); reflexivity.
Qed.

End FrequencyFacts.

(** C5 (as the code has it). [calculate_frequency] returns 0 whenever the
    history holds fewer than [FREQUENCY_WINDOW] timestamps.  Otherwise it
    takes the last [FREQUENCY_WINDOW] timestamps, averages their consecutive
    intervals (which is the time they span divided by
    [FREQUENCY_WINDOW - 1]) and returns the inverse of that average, or 0
    when the average is 0.  So the estimate is 0 exactly when the history is
    shorter than [FREQUENCY_WINDOW] or the average interval is 0. *)
Theorem C5_frequency_estimate (ts : list R) :
  let n := length ts in
  let avg :=
    Py.mean (Enhanced.intervals (Py.lastn Enhanced.FREQUENCY_WINDOW ts)) in
  Enhanced.calculate_frequency ts
  = (if (n <? Enhanced.FREQUENCY_WINDOW)%nat then 0
     else if Req_dec_T avg 0 then 0 else 1 / avg)
  /\ (Enhanced.calculate_frequency ts = 0
      <-> (n < Enhanced.FREQUENCY_WINDOW)%nat \/ avg = 0)
  /\ ((n <? Enhanced.FREQUENCY_WINDOW)%nat = false ->
      avg = (nth (n - 1) ts 0 - nth (n - Enhanced.FREQUENCY_WINDOW) ts 0)
            / INR (Enhanced.FREQUENCY_WINDOW - 1)).
Proof.
  intros n avg.
  assert (Hval :
    Enhanced.calculate_frequency ts
    = (if (n <? Enhanced.FREQUENCY_WINDOW)%nat then 0
       else if Req_dec_T avg 0 then 0 else 1 / avg)).
  { destruct (n <? Enhanced.FREQUENCY_WINDOW)%nat eqn:E.
    - apply FrequencyFacts.calculate_frequency_short.
      apply Nat.ltb_lt. exact E.
    - apply FrequencyFacts.calculate_frequency_full.
      apply Nat.ltb_ge. exact E. }
  split; [exact Hval|]. split.
  - rewrite Hval.
    destruct (n <? Enhanced.FREQUENCY_WINDOW)%nat eqn:E.
    + apply Nat.ltb_lt in E. tauto.
    + apply Nat.ltb_ge in E.
      destruct (Req_dec_T avg 0) as [Ha|Ha].
      * tauto.
      * split.
        -- intros H. exfalso.
           assert (Hi : / avg <> 0) by (apply Rinv_neq_0_compat; exact Ha).
           apply Hi. lra.
        -- intros [H|H]; [lia|contradiction].
  - intros E. apply Nat.ltb_ge in E.
    destruct (FrequencyFacts.mean_recent_intervals ts E) as [_ H].
    unfold avg. rewrite H. unfold n.
    replace (INR (Enhanced.FREQUENCY_WINDOW - 1)) with 14
      by (unfold Enhanced.FREQUENCY_WINDOW; simpl; lra).
    reflexivity.
Qed.

(** C5, the claim as written fails: two timestamps one second apart give one
    interval of positive average, yet the estimate is 0. *)
Lemma C5_counterexample :
  let ts := [0; 1] in
  (2 <= length ts < Enhanced.FREQUENCY_WINDOW)%nat
  /\ 0 < Py.mean (Enhanced.intervals ts)
  /\ Enhanced.calculate_frequency ts = 0.
Proof.
  cbv zeta. split; [|split].
  - unfold Enhanced.FREQUENCY_WINDOW. cbn [length]. lia.
  - unfold Py.mean. cbn. lra.
  - apply FrequencyFacts.calculate_frequency_short.
    unfold Enhanced.FREQUENCY_WINDOW. cbn [length]. lia.
Qed.

Lemma C5_witness :
  let ts := map INR (seq 0 15) in
  (length ts <? Enhanced.FREQUENCY_WINDOW)%nat = false
  /\ Py.mean (Enhanced.intervals (Py.lastn Enhanced.FREQUENCY_WINDOW ts))
     = (nth (length ts - 1) ts 0
        - nth (length ts - Enhanced.FREQUENCY_WINDOW) ts 0)
       / INR (Enhanced.FREQUENCY_WINDOW - 1).
Proof.
  cbv zeta.
  assert (H : (length (map INR (seq 0 15)) <? Enhanced.FREQUENCY_WINDOW)%nat
              = false) by reflexivity.
  split; [exact H|].
  exact (proj2 (proj2 (C5_frequency_estimate (map INR (seq 0 15)))) H).
Defined.

(** ** The rolling window of the enhanced classifier *)

Module WindowFacts.
Import Enhanced.

(** [detect_tremor] appends the sample to the three deques and changes the
    histories in no other way, on both of its return paths. *)
Lemma detect_tremor_histories cfg st dx dy x y now :
  let st' := fst (detect_tremor cfg st dx dy x y now) in
  delta_history st' = Py.deque_append deque_maxlen (delta_history st) (dx, dy)
  /\ position_history st'
     = Py.deque_append deque_maxlen (position_history st) (x, y)
  /\ timestamp_history st'
     = Py.deque_append deque_maxlen (timestamp_history st) now.
Proof.
  unfold detect_tremor. cbv zeta.
  destruct (Z.of_nat _ <? _)%Z; cbn; auto.
Qed.

Lemma feed_snoc cfg st ss s :
  feed cfg st (ss ++ [s]) = fst (classify cfg (feed cfg st ss) s).
Proof. unfold feed. rewrite fold_left_app. reflexivity. Qed.

Lemma deque_append_map {A B : Type} (f : A -> B) n (w : list A) (s : A) :
  Py.deque_append n (map f (Py.lastn n w)) (f s)
  = map f (Py.lastn n (w ++ [s])).
Proof.
  unfold Py.deque_append.
  change [f s] with (map f [s]).
  rewrite <- map_app, ListFacts.lastn_map, ListFacts.lastn_app_lastn.
  reflexivity.
Qed.

(** After any sequence of samples the histories are the projections of the
    last [deque_maxlen] samples fed. *)
Lemma feed_histories cfg ss :
  let st := feed cfg initial_state ss in
  let window := Py.lastn deque_maxlen ss in
  delta_history st = map (fun s => (s_dx s, s_dy s)) window
  /\ position_history st = map (fun s => (s_x s, s_y s)) window
  /\ timestamp_history st = map s_t window.
Proof.
  induction ss as [|s ss IH] using rev_ind; [cbn; auto|].
  cbv zeta in *. rewrite feed_snoc.
  destruct IH as (Hd & Hp & Ht).
  destruct (detect_tremor_histories cfg (feed cfg initial_state ss)
              (s_dx s) (s_dy s) (s_x s) (s_y s) (s_t s)) as (Ed & Ep & Et).
  unfold classify. cbv zeta in Ed, Ep, Et.
  rewrite Ed, Ep, Et, Hd, Hp, Ht.
  rewrite (deque_append_map (fun s => (s_dx s, s_dy s))).
  rewrite (deque_append_map (fun s => (s_x s, s_y s))).
  rewrite (deque_append_map s_t).
  auto.
Qed.

Lemma aligned_lengths st :
  aligned st ->
  length (delta_history st) = length (position_history st)
  /\ length (position_history st) = length (timestamp_history st).
Proof.
  intros (w & Hd & Hp & Ht). rewrite Hd, Hp, Ht, !length_map. auto.
Qed.

Lemma aligned_detect_tremor cfg st dx dy x y now :
  aligned st -> aligned (fst (detect_tremor cfg st dx dy x y now)).
Proof.
  intros (w & Hd & Hp & Ht).
  destruct (detect_tremor_histories cfg st dx dy x y now) as (Ed & Ep & Et).
  cbv zeta in Ed, Ep, Et.
  exists (Py.deque_append deque_maxlen w (mkSample dx dy x y now)).
  rewrite Ed, Ep, Et, Hd, Hp, Ht.
  unfold Py.deque_append.
  rewrite <- !ListFacts.lastn_map, !map_app. cbn [map s_dx s_dy s_x s_y s_t].
  auto.
Qed.

Lemma aligned_same_histories st st' :
  delta_history st' = delta_history st ->
  position_history st' = position_history st ->
  timestamp_history st' = timestamp_history st ->
  aligned st -> aligned st'.
Proof.
  intros Hd Hp Ht (w & H). exists w. rewrite Hd, Hp, Ht. exact H.
Qed.

Lemma aligned_mouse_monitor_step cfg st x y now :
  aligned st -> aligned (fst (mouse_monitor_step cfg st x y now)).
Proof.
  intros H. unfold mouse_monitor_step. cbv zeta.
  set (st1 := set_last_real st x y).
  assert (H1 : aligned st1)
    by (apply (aligned_same_histories st); auto).
  destruct (_ && _); [|exact H1].
  pose proof (aligned_detect_tremor cfg st1
                (x - last_real_x st) (y - last_real_y st) x y now H1) as H2.
  destruct (detect_tremor cfg st1 _ _ x y now) as [st2 d].
  cbn [fst] in H2.
  destruct d; cbn [fst apply_adaptive_smoothing];
    apply (aligned_same_histories st2); auto.
Qed.

Lemma aligned_step cfg st e :
  aligned st -> aligned (fst (step cfg st e)).
Proof.
  destruct e as [x y now|]; cbn [step].
  - apply aligned_mouse_monitor_step.
  - intros H. apply (aligned_same_histories st); auto.
Qed.

Lemma aligned_run cfg es : forall st,
  aligned st -> aligned (fst (run cfg st es)).
Proof.
  induction es as [|e es IH]; intros st H; [exact H|].
  cbn [run].
  pose proof (aligned_step cfg st e H) as H1.
  destruct (step cfg st e) as [st1 out]. cbn [fst] in H1.
  specialize (IH st1 H1).
  destruct (run cfg st1 es) as [st2 outs]. exact IH.
Qed.

Lemma aligned_initial : aligned initial_state.
Proof. exists []. cbn. auto. Qed.

End WindowFacts.

(** C9. The three histories stay parallel.  After the classifier has been
    fed any sequence of samples from the initial state, the delta, position
    and timestamp histories are the three projections of the same window,
    the last [deque_maxlen] samples fed, so they have equal length and equal
    indices describe the same sample.  Every operation of the program
    ([detect_tremor], [apply_adaptive_smoothing], [toggle_stabilization], a
    polling step, a whole run) preserves being three projections of one
    window. *)
Theorem C9_histories_parallel (cfg : Enhanced.Config) :
  (forall ss : list Enhanced.Sample,
     let st := Enhanced.feed cfg Enhanced.initial_state ss in
     let window := Py.lastn Enhanced.deque_maxlen ss in
     Enhanced.delta_history st
       = map (fun s => (Enhanced.s_dx s, Enhanced.s_dy s)) window
     /\ Enhanced.position_history st
       = map (fun s => (Enhanced.s_x s, Enhanced.s_y s)) window
     /\ Enhanced.timestamp_history st = map Enhanced.s_t window
     /\ length (Enhanced.delta_history st)
        = length (Enhanced.position_history st)
     /\ length (Enhanced.position_history st)
        = length (Enhanced.timestamp_history st))
  /\ Enhanced.aligned Enhanced.initial_state
  /\ (forall st dx dy x y now,
        Enhanced.aligned st ->
        Enhanced.aligned (fst (Enhanced.detect_tremor cfg st dx dy x y now)))
  /\ (forall st x y,
        Enhanced.aligned st ->
        Enhanced.aligned (fst (Enhanced.apply_adaptive_smoothing cfg st x y)))
  /\ (forall st,
        Enhanced.aligned st ->
        Enhanced.aligned (fst (Enhanced.toggle_stabilization st)))
  /\ (forall st x y now,
        Enhanced.aligned st ->
        Enhanced.aligned (fst (Enhanced.mouse_monitor_step cfg st x y now)))
  /\ (forall es,
        let st := fst (Enhanced.run cfg Enhanced.initial_state es) in
        Enhanced.aligned st
        /\ length (Enhanced.delta_history st)
           = length (Enhanced.position_history st)
        /\ length (Enhanced.position_history st)
           = length (Enhanced.timestamp_history st)).
Proof.
  split; [|split; [|split; [|split; [|split; [|split]]]]].
  - intros ss st window.
    destruct (WindowFacts.feed_histories cfg ss) as (Hd & Hp & Ht).
    fold st window in Hd, Hp, Ht.
    repeat split; try assumption.
    + rewrite Hd, Hp, !length_map. reflexivity.
    + rewrite Hp, Ht, !length_map. reflexivity.
  - exact WindowFacts.aligned_initial.
  - intros. apply WindowFacts.aligned_detect_tremor. assumption.
  - intros st x y H.
    apply (WindowFacts.aligned_same_histories st); auto.
  - intros st H.
    apply (WindowFacts.aligned_same_histories st); auto.
  - intros. apply WindowFacts.aligned_mouse_monitor_step. assumption.
  - intros es st.
    assert (H : Enhanced.aligned st)
      by (apply WindowFacts.aligned_run, WindowFacts.aligned_initial).
    split; [exact H|]. apply WindowFacts.aligned_lengths. exact H.
Qed.

Lemma C9_witness :
  Enhanced.aligned Enhanced.initial_state
  /\ Enhanced.aligned
       (fst (Enhanced.detect_tremor Enhanced.default_config
               Enhanced.initial_state 5 0 5 0 0)).
Proof.
  pose proof (C9_histories_parallel Enhanced.default_config)
    as (_ & H0 & Hd & _).
  split; [exact H0|].
  apply Hd. exact H0.
Defined.

(** ** The half-window guard of the enhanced classifier *)

Module GuardFacts.
Import Enhanced.

(** What [detect_tremor] does when the guard fires: it returns [False] and
    leaves [tremor_type] and [tremor_intensity] as they were. *)
Lemma detect_tremor_guard cfg st dx dy x y now :
  let r := detect_tremor cfg st dx dy x y now in
  (Z.of_nat (length (delta_history (fst r))) < SAMPLE_SIZE cfg / 2)%Z ->
  snd r = false
  /\ tremor_intensity (fst r) = tremor_intensity st
  /\ tremor_type (fst r) = tremor_type st.
Proof.
  unfold detect_tremor. cbv zeta.
  destruct (Z.of_nat _ <? _)%Z eqn:E.
  - cbn. auto.
  - cbn [fst set_classification delta_history set_histories] in *.
    intros H. apply Z.ltb_ge in E. lia.
Qed.

(** The window never shrinks. *)
Lemma deque_append_grows {A : Type} (l : list A) (x : A) :
  (length l <= deque_maxlen)%nat ->
  (length l <= length (Py.deque_append deque_maxlen l x) <= deque_maxlen)%nat.
Proof.
  intros H. unfold Py.deque_append.
  rewrite ListFacts.length_lastn, length_app. cbn [length]. lia.
Qed.

(** From the initial state, the intensity and the reported type keep their
    initial values for as long as the window is below half of
    [SAMPLE_SIZE]. *)
Lemma feed_below_half cfg ss :
  let st := feed cfg initial_state ss in
  (length (delta_history st) <= deque_maxlen)%nat
  /\ ((Z.of_nat (length (delta_history st)) < SAMPLE_SIZE cfg / 2)%Z ->
      tremor_intensity st = 0 /\ tremor_type st = "None"%string).
Proof.
  induction ss as [|s ss IH] using rev_ind.
  - cbn. split; [unfold deque_maxlen; lia|auto].
  - cbv zeta in *. rewrite WindowFacts.feed_snoc.
    destruct IH as [Hlen IH].
    set (st := feed cfg initial_state ss) in *.
    unfold classify.
    destruct (WindowFacts.detect_tremor_histories cfg st
                (s_dx s) (s_dy s) (s_x s) (s_y s) (s_t s)) as (Ed & _).
    cbv zeta in Ed.
    pose proof (deque_append_grows (delta_history st) (s_dx s, s_dy s) Hlen)
      as Hg.
    rewrite <- Ed in Hg.
    split; [lia|].
    intros Hlt.
    destruct (detect_tremor_guard cfg st
                (s_dx s) (s_dy s) (s_x s) (s_y s) (s_t s) Hlt)
      as (_ & Hi & Hty).
    rewrite Hi, Hty. apply IH. lia.
Qed.

End GuardFacts.

(** C4 (as the code has it). Feed the classifier any sequence of samples
    from the initial state, then one more.  If after that last sample the
    window holds fewer than [SAMPLE_SIZE // 2] samples (the floor of half
    the window size: 12 for the default 25), the call returns [False] and
    the intensity is 0. *)
Theorem C4_below_half_window
    (cfg : Enhanced.Config) (ss : list Enhanced.Sample) (s : Enhanced.Sample) :
  let r := Enhanced.classify cfg (Enhanced.feed cfg Enhanced.initial_state ss) s in
  (Z.of_nat (length (Enhanced.delta_history (fst r)))
   < Enhanced.SAMPLE_SIZE cfg / 2)%Z ->
  snd r = false /\ Enhanced.tremor_intensity (fst r) = 0.
Proof.
  intros r Hlt.
  destruct (GuardFacts.detect_tremor_guard cfg
              (Enhanced.feed cfg Enhanced.initial_state ss)
              (Enhanced.s_dx s) (Enhanced.s_dy s)
              (Enhanced.s_x s) (Enhanced.s_y s) (Enhanced.s_t s) Hlt)
    as (Hr & _ & _).
  split; [exact Hr|].
  pose proof (GuardFacts.feed_below_half cfg (ss ++ [s])) as [_ H].
  cbv zeta in H. rewrite WindowFacts.feed_snoc in H.
  apply H. exact Hlt.
Qed.

Lemma C4_witness :
  let r :=
    Enhanced.classify Enhanced.default_config
      (Enhanced.feed Enhanced.default_config Enhanced.initial_state
         [Enhanced.mkSample 1 0 1 0 0])
      (Enhanced.mkSample 1 0 2 0 1) in
  (Z.of_nat (length (Enhanced.delta_history (fst r)))
   < Enhanced.SAMPLE_SIZE Enhanced.default_config / 2)%Z
  /\ snd r = false /\ Enhanced.tremor_intensity (fst r) = 0.
Proof.
  cbv zeta.
  assert (H : (Z.of_nat (length (Enhanced.delta_history (fst
    (Enhanced.classify Enhanced.default_config
      (Enhanced.feed Enhanced.default_config Enhanced.initial_state
         [Enhanced.mkSample 1 0 1 0 0])
      (Enhanced.mkSample 1 0 2 0 1)))))
   < Enhanced.SAMPLE_SIZE Enhanced.default_config / 2)%Z).
  { cbn. lia. }
  split; [exact H|].
  exact (C4_below_half_window Enhanced.default_config
           [Enhanced.mkSample 1 0 1 0 0] (Enhanced.mkSample 1 0 2 0 1) H).
Defined.

(** ** Direction changes: raw dot products against cosines *)

Module DirectionFacts.

Lemma nonzero_iff (d : Z * Z) : Enhanced.nonzero d = true <-> d <> (0, 0)%Z.
Proof.
  destruct d as [x y]. unfold Enhanced.nonzero. cbn [fst snd].
  rewrite orb_true_iff, !negb_true_iff, !Z.eqb_neq.
  split.
  - intros H C. injection C as -> ->. destruct H as [H|H]; apply H; reflexivity.
  - intros H. destruct (Z.eq_dec x 0) as [->|Hx]; [right|left; exact Hx].
    intros ->. apply H. reflexivity.
Qed.

(** A delta other than (0, 0) has positive magnitude. *)
Lemma magnitude_pos (d : Z * Z) :
  d <> (0, 0)%Z -> 0 < Enhanced.calculate_magnitude (fst d) (snd d).
Proof.
  destruct d as [x y]. intros H. cbn [fst snd].
  unfold Enhanced.calculate_magnitude. apply sqrt_lt_R0.
  apply IZR_lt.
  assert (x <> 0 \/ y <> 0)%Z as [Hx|Hy].
  { destruct (Z.eq_dec x 0) as [->|]; [right|left; assumption].
    intros ->. apply H. reflexivity. }
  - nia.
  - nia.
Qed.

(** The cosine is negative exactly when the dot product is. *)
Lemma entry_sign (pc : (Z * Z) * (Z * Z)) :
  fst pc <> (0, 0)%Z -> snd pc <> (0, 0)%Z ->
  Py.ltb (Spec.enhanced_entry pc) 0 = (Spec.baseline_entry pc <? 0)%Z.
Proof.
  intros Hp Hc.
  pose proof (magnitude_pos _ Hp) as Mp.
  pose proof (magnitude_pos _ Hc) as Mc.
  unfold Spec.enhanced_entry, Spec.baseline_entry.
  set (dot := (fst (fst pc) * fst (snd pc) + snd (fst pc) * snd (snd pc))%Z).
  set (m := Enhanced.calculate_magnitude (fst (fst pc)) (snd (fst pc))
            * Enhanced.calculate_magnitude (fst (snd pc)) (snd (snd pc))).
  assert (Hm : 0 < m) by (apply Rmult_lt_0_compat; assumption).
  assert (Hi : 0 < / m) by (apply Rinv_0_lt_compat; exact Hm).
  destruct (dot <? 0)%Z eqn:E.
  - apply Z.ltb_lt in E. apply PyFacts.ltb_true.
    apply IZR_lt in E. unfold Rdiv. nra.
  - apply Z.ltb_ge in E. apply PyFacts.ltb_false.
    apply IZR_le in E. unfold Rdiv. nra.
Qed.

Lemma pairs_nonzero (ds : list (Z * Z)) :
  Forall (fun d => d <> (0, 0)%Z) ds ->
  Forall (fun pc => fst pc <> (0, 0)%Z /\ snd pc <> (0, 0)%Z) (Py.pairs ds).
Proof.
  induction ds as [|a [|b t] IH]; intros H; try constructor.
  - inversion H as [|? ? Ha Ht]; subst.
    inversion Ht as [|? ? Hb _]; subst. cbn [fst snd]. auto.
  - apply IH. inversion H; assumption.
Qed.

(** On a window of non-zero deltas both variants record every pair. *)
Lemma enhanced_directions_nonzero (ds : list (Z * Z)) :
  Forall (fun d => d <> (0, 0)%Z) ds ->
  Enhanced.directions ds = map Spec.enhanced_entry (Py.pairs ds).
Proof.
  intros H. apply pairs_nonzero in H. unfold Enhanced.directions.
  induction H as [|pc l [Hp Hc] _ IH]; [reflexivity|].
  cbn [flat_map map]. rewrite IH.
  rewrite (proj2 (nonzero_iff _) Hp), (proj2 (nonzero_iff _) Hc).
  cbn [andb].
  pose proof (magnitude_pos _ Hp) as Mp.
  pose proof (magnitude_pos _ Hc) as Mc.
  assert (E : Py.eqb
                (Enhanced.calculate_magnitude (fst (fst pc)) (snd (fst pc))
                 * Enhanced.calculate_magnitude (fst (snd pc)) (snd (snd pc)))
                0 = false).
  { apply PyFacts.eqb_false. nra. }
  rewrite E. reflexivity.
Qed.

Lemma baseline_directions_nonzero (ds : list (Z * Z)) :
  Forall (fun d => d <> (0, 0)%Z) ds ->
  Baseline.directions ds = map Spec.baseline_entry (Py.pairs ds).
Proof.
  intros H. apply pairs_nonzero in H. unfold Baseline.directions.
  induction H as [|pc l [Hp Hc] _ IH]; [reflexivity|].
  cbn [flat_map map]. rewrite IH.
  apply nonzero_iff in Hp. unfold Enhanced.nonzero in Hp. rewrite Hp.
  reflexivity.
Qed.

Lemma count_entries (l : list ((Z * Z) * (Z * Z))) :
  Forall (fun pc => fst pc <> (0, 0)%Z /\ snd pc <> (0, 0)%Z) l ->
  Py.count (fun d => Py.ltb d 0) (map Spec.enhanced_entry l)
  = Py.count (fun d => (d <? 0)%Z) (map Spec.baseline_entry l).
Proof.
  unfold Py.count.
  induction 1 as [|pc l [Hp Hc] _ IH]; [reflexivity|].
  cbn [map filter]. rewrite (entry_sign pc Hp Hc).
  destruct (Spec.baseline_entry pc <? 0)%Z; cbn [length]; rewrite IH; reflexivity.
Qed.

Lemma direction_changes_nonzero (ds : list (Z * Z)) :
  Forall (fun d => d <> (0, 0)%Z) ds ->
  Enhanced.direction_changes ds = Baseline.direction_changes ds.
Proof.
  intros H. unfold Enhanced.direction_changes, Baseline.direction_changes.
  rewrite (enhanced_directions_nonzero ds H).
  rewrite (baseline_directions_nonzero ds H).
  apply count_entries, pairs_nonzero, H.
Qed.

Lemma count_le_length {A : Type} (p : A -> bool) (l : list A) :
  (Py.count p l <= length l)%nat.
Proof. unfold Py.count. apply filter_length_le. Qed.

End DirectionFacts.

(** C10. On a window in which no delta is (0, 0), the baseline classifier
    and the enhanced classifier evaluate the same number of consecutive
    pairs (all of them), the baseline count of negative dot products equals
    the enhanced count of negative cosines, and the baseline test
    [direction_changes > len(directions) * 0.4] gives the same answer as the
    enhanced test [direction_change_ratio > 0.4], which is the enhanced
    criterion [directional_tremor] when its threshold is 0.4. *)
Theorem C10_direction_changes_agree (ds : list (Z * Z)) :
  Forall (fun d => d <> (0, 0)%Z) ds ->
  Baseline.direction_changes ds = Enhanced.direction_changes ds
  /\ length (Baseline.directions ds) = length (Enhanced.directions ds)
  /\ length (Baseline.directions ds) = pred (length ds)
  /\ Baseline.many_direction_changes ds
     = Py.gtb (Enhanced.direction_change_ratio ds) (4 / 10)
  /\ (forall cfg st dx dy,
        Enhanced.DIRECTION_CHANGE_THRESHOLD cfg = 4 / 10 ->
        Enhanced.delta_history st = ds ->
        Enhanced.directional_tremor (Enhanced.criteria cfg st dx dy)
        = Baseline.many_direction_changes ds).
Proof.
  intros H.
  assert (Hcrit :
    Baseline.many_direction_changes ds
    = Py.gtb (Enhanced.direction_change_ratio ds) (4 / 10)
    -> forall cfg st dx dy,
        Enhanced.DIRECTION_CHANGE_THRESHOLD cfg = 4 / 10 ->
        Enhanced.delta_history st = ds ->
        Enhanced.directional_tremor (Enhanced.criteria cfg st dx dy)
        = Baseline.many_direction_changes ds).
  { intros E cfg st dx dy Hthr Hds. unfold Enhanced.criteria.
    cbn [Enhanced.directional_tremor]. rewrite Hthr, Hds, E. reflexivity. }
  revert Hcrit.
  pose proof (DirectionFacts.direction_changes_nonzero ds H) as Hc.
  pose proof (DirectionFacts.enhanced_directions_nonzero ds H) as He.
  pose proof (DirectionFacts.baseline_directions_nonzero ds H) as Hb.
  assert (Hl : length (Baseline.directions ds)
               = length (Enhanced.directions ds))
    by (rewrite He, Hb, !length_map; reflexivity).
  intros Hcrit.
  split; [symmetry; exact Hc|]. split; [exact Hl|].
  split; [rewrite Hb, length_map; apply ListFacts.length_pairs|].
  assert (Hagree : Baseline.many_direction_changes ds
                   = Py.gtb (Enhanced.direction_change_ratio ds) (4 / 10));
    [|split; [exact Hagree|exact (Hcrit Hagree)]].
  - unfold Baseline.many_direction_changes, Enhanced.direction_change_ratio.
    rewrite Hl, <- Hc.
    pose proof (DirectionFacts.count_le_length
                  (fun d => Py.ltb d 0) (Enhanced.directions ds)) as Hle.
    fold (Enhanced.direction_changes ds) in Hle.
    destruct (Enhanced.directions ds) as [|d l] eqn:E.
    + cbn [length] in *.
      replace (Enhanced.direction_changes ds) with 0%nat by lia.
      cbn [INR].
      transitivity false; [|symmetry];
        apply PyFacts.gtb_false; lra.
    + set (n := length (d :: l)).
      assert (Hn : 0 < INR n) by (apply lt_0_INR; unfold n; cbn; lia).
      set (c := INR (Enhanced.direction_changes ds)).
      destruct (Rlt_dec (INR n * (4 / 10)) c) as [Hlt|Hge].
      * transitivity true; [|symmetry]; apply PyFacts.gtb_true.
        -- exact Hlt.
        -- apply (Rmult_lt_reg_r (INR n)); [exact Hn|].
           unfold Rdiv at 2. rewrite Rmult_assoc, Rinv_l by lra. lra.
      * transitivity false; [|symmetry]; apply PyFacts.gtb_false.
        -- lra.
        -- apply (Rmult_le_reg_r (INR n)); [exact Hn|].
           unfold Rdiv at 1. rewrite Rmult_assoc, Rinv_l by lra. lra.
Qed.

Lemma C10_witness :
  let ds := [(5, 0); (-5, 0); (5, 0)]%Z in
  Baseline.direction_changes ds = Enhanced.direction_changes ds
  /\ length (Baseline.directions ds) = length (Enhanced.directions ds)
  /\ length (Baseline.directions ds) = pred (length ds)
  /\ Baseline.many_direction_changes ds
     = Py.gtb (Enhanced.direction_change_ratio ds) (4 / 10).
Proof.
  cbv zeta.
  destruct (C10_direction_changes_agree [(5, 0); (-5, 0); (5, 0)]%Z)
    as (H1 & H2 & H3 & H4 & _).
  - repeat constructor; discriminate.
  - repeat split; assumption.
Defined.

(** ** Records from the serial link *)

Module SerialFacts.

Lemma split_no_sep (sep : ascii) (s : string) :
  Py.has_char sep s = false -> Py.split sep s = [s].
Proof.
  induction s as [|c s IH]; intros H; [reflexivity|].
  cbn [Py.has_char] in H. apply orb_false_iff in H as [Hc Hs].
  cbn [Py.split]. rewrite Hc, (IH Hs). reflexivity.
Qed.

Lemma split_app_sep (sep : ascii) (s t : string) :
  Py.has_char sep s = false ->
  Py.split sep (s ++ String sep t)%string = s :: Py.split sep t.
Proof.
  induction s as [|c s IH]; intros H.
  - cbn [append Py.split]. rewrite Ascii.eqb_refl. reflexivity.
  - cbn [Py.has_char] in H. apply orb_false_iff in H as [Hc Hs].
    cbn [append Py.split]. rewrite Hc, (IH Hs). reflexivity.
Qed.

(** The fields of a motion record. *)
Lemma split_motion_record (a b : string) :
  Py.has_char "," a = false -> Py.has_char "," b = false ->
  Py.split "," ("M," ++ a ++ "," ++ b)%string = ["M"%string; a; b].
Proof.
  intros Ha Hb.
  change ("M," ++ a ++ "," ++ b)%string
    with ("M" ++ String "," (a ++ String "," b))%string.
  rewrite split_app_sep by reflexivity.
  rewrite split_app_sep by exact Ha.
  rewrite split_no_sep by exact Hb.
  reflexivity.
Qed.

End SerialFacts.

(** C8 (as the code has it). A line that decodes as UTF-8 and reads
    [M,<a>,<b>] once stripped, where [<a>] or [<b>] is not an integer
    literal, leaves the whole state (window, filter state, detection flag)
    as it was; the only effect is the message naming the record, and the
    lines that follow are processed from that unchanged state.  A line that
    does not decode as UTF-8 leaves the state as it was too, but ends the
    processing: the exception is printed and no later line is read. *)
Theorem C8_malformed_motion_record
    (cfg : Baseline.Config) (st : Baseline.State)
    (rest : list (list Byte.byte)) :
  (forall (bytes : list Byte.byte) (raw a b : string),
      Py.decode_utf8 bytes = Some raw ->
      Py.strip raw = ("M," ++ a ++ "," ++ b)%string ->
      Py.has_char "," a = false ->
      Py.has_char "," b = false ->
      Py.int_of_str a = None \/ Py.int_of_str b = None ->
      Serial.process_line cfg st raw
      = (st, [Print ("Error parsing movement data: " ++ Py.strip raw)%string])
      /\ Serial.process_data cfg st (bytes :: rest)
         = (fst (fst (Serial.process_data cfg st rest)),
            Print ("Error parsing movement data: " ++ Py.strip raw)%string
            :: snd (fst (Serial.process_data cfg st rest)),
            snd (Serial.process_data cfg st rest)))
  /\ (forall bytes : list Byte.byte,
        Py.decode_utf8 bytes = None ->
        Serial.process_data cfg st (bytes :: rest)
        = (st,
           [PrintException "Error in data processing: "
              Py.UnicodeDecodeError],
           Some Py.UnicodeDecodeError)).
Proof.
  split.
  - intros bytes raw a b Hdec Hs Ha Hb Hbad.
    assert (H : Serial.process_line cfg st raw
                = (st, [Print ("Error parsing movement data: "
                               ++ Py.strip raw)%string])).
    { unfold Serial.process_line. cbv zeta. rewrite Hs.
      rewrite (SerialFacts.split_motion_record a b Ha Hb).
      cbn [append String.eqb Ascii.eqb Bool.eqb hd length Nat.leb andb nth].
      destruct Hbad as [E|E]; rewrite E.
      - reflexivity.
      - destruct (Py.int_of_str a); reflexivity. }
    split; [exact H|].
    assert (Hm : Serial.motion_fields raw = None).
    { unfold Serial.motion_fields. cbv zeta. rewrite Hs.
      rewrite (SerialFacts.split_motion_record a b Ha Hb).
      cbn [append String.eqb Ascii.eqb Bool.eqb hd length Nat.leb andb nth].
      destruct Hbad as [E|E]; rewrite E.
      - reflexivity.
      - destruct (Py.int_of_str a); reflexivity. }
    cbn [Serial.process_data]. rewrite Hdec, Hm, H.
    destruct (Serial.process_data cfg st rest) as [[st2 outs] e].
    reflexivity.
  - intros bytes Hdec. cbn [Serial.process_data]. rewrite Hdec. reflexivity.
Qed.

Lemma C8_witness :
  let bytes := list_byte_of_string ("M,abc,5" ++ newline) in
  let raw := ("M,abc,5" ++ newline)%string in
  let cfg := Baseline.default_config in
  let st := Baseline.initial_state in
  Serial.process_line cfg st raw
  = (st, [Print ("Error parsing movement data: " ++ Py.strip raw)%string])
  /\ Serial.process_data cfg st [bytes]
     = (fst (fst (Serial.process_data cfg st [])),
        Print ("Error parsing movement data: " ++ Py.strip raw)%string
        :: snd (fst (Serial.process_data cfg st [])),
        snd (Serial.process_data cfg st [])).
Proof.
  apply (proj1 (C8_malformed_motion_record Baseline.default_config
                  Baseline.initial_state [])
           (list_byte_of_string ("M,abc,5" ++ newline))
           ("M,abc,5" ++ newline)%string "abc"%string "5"%string).
  - reflexivity.
  - reflexivity.
  - reflexivity.
  - reflexivity.
  - left. reflexivity.
Defined.

(** C8, the claim as written fails when the record holds a byte that is
    not UTF-8.  The line [M,<FF>,5], where [<FF>] is the single byte 255, is
    a motion record whose first field is not an integer.  [decode] raises
    [UnicodeDecodeError] before the record is parsed; nothing names the
    record, the exception is printed, and whatever lines follow, none of
    them is processed. *)
Lemma C8_counterexample :
  let bytes :=
    (list_byte_of_string "M," ++ [Byte.xff]
     ++ list_byte_of_string ("," ++ "5" ++ newline))%list in
  Py.decode_utf8 bytes = None
  /\ (forall rest : list (list Byte.byte),
        Serial.process_data Baseline.default_config Baseline.initial_state
          (bytes :: rest)
        = (Baseline.initial_state,
           [PrintException "Error in data processing: "
              Py.UnicodeDecodeError],
           Some Py.UnicodeDecodeError)).
Proof.
  cbv zeta. split; [reflexivity|].
  intros rest. cbn [Serial.process_data].
  replace (Py.decode_utf8 _) with (@None string) by reflexivity.
  reflexivity.
Qed.

(** ** Samples with a zero delta *)

Module ZeroDeltaFacts.

Lemma enhanced_set_last_real_same st x y :
  (x - Enhanced.last_real_x st = 0)%Z ->
  (y - Enhanced.last_real_y st = 0)%Z ->
  Enhanced.set_last_real st x y = st.
Proof.
  intros Hx Hy.
  assert (x = Enhanced.last_real_x st) as -> by lia.
  assert (y = Enhanced.last_real_y st) as -> by lia.
  destruct st; reflexivity.
Qed.

Lemma baseline_set_last_real_same st x y :
  (x - Baseline.last_real_x st = 0)%Z ->
  (y - Baseline.last_real_y st = 0)%Z ->
  Baseline.set_last_real st x y = st.
Proof.
  intros Hx Hy.
  assert (x = Baseline.last_real_x st) as -> by lia.
  assert (y = Baseline.last_real_y st) as -> by lia.
  destruct st; reflexivity.
Qed.

(** The baseline [detect_tremor] always appends its argument to the
    window, and changes nothing else. *)
Lemma baseline_detect_tremor_state cfg st x y :
  fst (Baseline.detect_tremor cfg st x y)
  = Baseline.set_mouse_history st
      (Py.deque_append Baseline.deque_maxlen (Baseline.mouse_history st)
         (x, y)).
Proof.
  unfold Baseline.detect_tremor. cbv zeta.
  destruct (Z.of_nat _ <? _)%Z; reflexivity.
Qed.

(** A well-formed motion record of the serial link is classified whatever
    its deltas are. *)
Lemma serial_motion_record cfg st raw a b x y :
  Py.strip raw = ("M," ++ a ++ "," ++ b)%string ->
  Py.has_char "," a = false ->
  Py.has_char "," b = false ->
  Py.int_of_str a = Some x -> Py.int_of_str b = Some y ->
  let st' := fst (Serial.process_line cfg st raw) in
  Baseline.mouse_history st'
  = Py.deque_append Baseline.deque_maxlen (Baseline.mouse_history st) (x, y)
  /\ Baseline.tremor_detected st' = snd (Baseline.detect_tremor cfg st x y).
Proof.
  intros Hs Ha Hb Ea Eb.
  unfold Serial.process_line. cbv zeta. rewrite Hs.
  rewrite (SerialFacts.split_motion_record a b Ha Hb).
  cbn [append String.eqb Ascii.eqb Bool.eqb hd length Nat.leb andb nth].
  rewrite Ea, Eb.
  pose proof (baseline_detect_tremor_state cfg st x y) as Hst.
  destruct (Baseline.detect_tremor cfg st x y) as [st1 d].
  cbn [fst snd] in *. subst st1.
  destruct (d && _);
    cbn [Baseline.apply_smoothing];
    destruct (negb _ || negb _); cbn; auto.
Qed.

End ZeroDeltaFacts.

(** C7 (as the code has it). In the four cursor-reading paths (the polling
    loops of enhanced_tremor_filter.py and simple_windows_filter.py, the
    listener callback of Joystick/mouse_filter.py, the hook callback of
    windows_mouse_filter_fixed.py) a sample whose delta is (0, 0) changes
    nothing: window, filter state, classification result and every other
    part of the state are as before and no cursor placement is emitted.
    In the serial path of tremor_filter.py a motion record is classified
    whatever its deltas: a record with deltas (0, 0) is appended to the
    window and sets the detection flag; its zero test only guards the cursor
    move. *)
Theorem C7_zero_delta_sample :
  (forall cfg st x y now,
      (x - Enhanced.last_real_x st = 0)%Z ->
      (y - Enhanced.last_real_y st = 0)%Z ->
      Enhanced.mouse_monitor_step cfg st x y now = (st, []))
  /\ (forall cfg st x y,
      (x - Baseline.last_real_x st = 0)%Z ->
      (y - Baseline.last_real_y st = 0)%Z ->
      SimpleWindows.mouse_monitor_step cfg st x y = (st, []))
  /\ (forall cfg st x y,
      (x - Baseline.last_real_x st = 0)%Z ->
      (y - Baseline.last_real_y st = 0)%Z ->
      Joystick.on_move cfg st x y = (st, [], Joystick.Return true))
  /\ (forall cfg st n_code w_param x y,
      (x - Baseline.last_real_x st = 0)%Z ->
      (y - Baseline.last_real_y st = 0)%Z ->
      WindowsHook.mouse_callback cfg st n_code w_param x y = (st, [], false))
  /\ (forall cfg st raw a b,
      Py.strip raw = ("M," ++ a ++ "," ++ b)%string ->
      Py.has_char "," a = false ->
      Py.has_char "," b = false ->
      Py.int_of_str a = Some 0%Z -> Py.int_of_str b = Some 0%Z ->
      let st' := fst (Serial.process_line cfg st raw) in
      Baseline.mouse_history st'
      = Py.deque_append Baseline.deque_maxlen (Baseline.mouse_history st)
          (0, 0)%Z
      /\ Baseline.tremor_detected st'
         = snd (Baseline.detect_tremor cfg st 0 0)).
Proof.
  split; [|split; [|split; [|split]]].
  - intros cfg st x y now Hx Hy.
    unfold Enhanced.mouse_monitor_step. cbv zeta.
    rewrite Hx, Hy. cbn [Z.eqb negb orb andb].
    rewrite ZeroDeltaFacts.enhanced_set_last_real_same by assumption.
    reflexivity.
  - intros cfg st x y Hx Hy.
    unfold SimpleWindows.mouse_monitor_step. cbv zeta.
    rewrite Hx, Hy. cbn [Z.eqb negb orb andb].
    rewrite ZeroDeltaFacts.baseline_set_last_real_same by assumption.
    reflexivity.
  - intros cfg st x y Hx Hy.
    unfold Joystick.on_move. cbv zeta.
    rewrite Hx, Hy. cbn [Z.eqb negb orb andb].
    rewrite ZeroDeltaFacts.baseline_set_last_real_same by assumption.
    reflexivity.
  - intros cfg st n_code w_param x y Hx Hy.
    unfold WindowsHook.mouse_callback. cbv zeta.
    rewrite Hx, Hy. cbn [Z.eqb negb orb andb].
    rewrite ZeroDeltaFacts.baseline_set_last_real_same by assumption.
    destruct (n_code <? 0)%Z; [reflexivity|].
    destruct (_ && _); reflexivity.
  - intros cfg st raw a b Hs Ha Hb Ea Eb.
    exact (ZeroDeltaFacts.serial_motion_record cfg st raw a b 0 0
             Hs Ha Hb Ea Eb).
Qed.

Lemma C7_witness :
  Enhanced.mouse_monitor_step Enhanced.default_config Enhanced.initial_state
    0 0 1
  = (Enhanced.initial_state, [])
  /\ Baseline.mouse_history
       (fst (Serial.process_line Baseline.default_config
               Baseline.initial_state "M,0,0"))
     = Py.deque_append Baseline.deque_maxlen
         (Baseline.mouse_history Baseline.initial_state) (0, 0)%Z.
Proof.
  destruct C7_zero_delta_sample as (He & _ & _ & _ & Hs).
  split.
  - apply He; reflexivity.
  - apply (Hs Baseline.default_config Baseline.initial_state
              "M,0,0"%string "0"%string "0"%string); reflexivity.
Defined.

(** C7, the claim as written fails in the serial path: with stabilization
    active and an empty window, the record [M,0,0] puts the delta (0, 0)
    into the window. *)
Lemma C7_counterexample :
  let st := Baseline.initial_state in
  let st' := fst (Serial.process_line Baseline.default_config st "M,0,0") in
  Baseline.stabilization_active st = true
  /\ Py.int_of_str "0" = Some 0%Z
  /\ Baseline.mouse_history st = []
  /\ Baseline.mouse_history st' = [(0, 0)%Z]
  /\ st' <> st.
Proof.
  cbv zeta.
  assert (H : Baseline.mouse_history
                (fst (Serial.process_line Baseline.default_config
                        Baseline.initial_state "M,0,0"))
              = [(0, 0)%Z]).
  { destruct (ZeroDeltaFacts.serial_motion_record Baseline.default_config
                Baseline.initial_state "M,0,0"%string "0"%string "0"%string
                0 0) as [E _]; try reflexivity.
    exact E. }
  repeat split; try reflexivity.
  - exact H.
  - intros C. rewrite C in H. discriminate H.
Qed.

(** ** The score of the enhanced classifier *)

Module ClassifierFacts.
Import Enhanced.

Lemma gtb_1_0 : Py.gtb 1 0 = true.
Proof. apply PyFacts.gtb_true. lra. Qed.

Lemma gtb_0_0 : Py.gtb 0 0 = false.
Proof. apply PyFacts.gtb_false. lra. Qed.

(** The names [detect_tremor] joins into [tremor_type] are the names of the
    criteria that fired. *)
Lemma detected_types_fired (c : Criteria) : detected_types c = Spec.fired c.
Proof.
  destruct c as [[] [] [] [] []];
    unfold detected_types, tremor_scores, Spec.fired;
    cbn [filter map fst snd frequency_tremor directional_tremor
         magnitude_tremor jitter_tremor variance_tremor app];
    rewrite ?gtb_1_0, ?gtb_0_0; reflexivity.
Qed.

Lemma tremor_score_count (c : Criteria) :
  tremor_score c = INR (Spec.fired_count c) / 5.
Proof.
  destruct c as [[] [] [] [] []];
    unfold tremor_score, tremor_scores, Spec.fired_count, Spec.fired, Py.sum;
    cbn [fold_right map fst snd frequency_tremor directional_tremor
         magnitude_tremor jitter_tremor variance_tremor app length];
    rewrite ?S_INR; cbn [INR]; lra.
Qed.

(** [n / 5 > 0.3] says that [n] is at least 2. *)
Lemma score_threshold (n : nat) :
  Py.gtb (INR n / 5) (3 / 10) = (2 <=? n)%nat.
Proof.
  destruct n as [|[|n]].
  - cbn [INR Nat.leb]. apply PyFacts.gtb_false. lra.
  - cbn [INR Nat.leb]. apply PyFacts.gtb_false. lra.
  - change (2 <=? S (S n))%nat with true. apply PyFacts.gtb_true.
    rewrite !S_INR. pose proof (pos_INR n). lra.
Qed.

(** The criteria read the three histories and nothing else. *)
Lemma criteria_ext cfg st st' dx dy :
  delta_history st' = delta_history st ->
  position_history st' = position_history st ->
  timestamp_history st' = timestamp_history st ->
  criteria cfg st' dx dy = criteria cfg st dx dy.
Proof. intros Hd Hp Ht. unfold criteria. rewrite Hd, Hp, Ht. reflexivity. Qed.

(** [detect_tremor] past the guard, in terms of the criteria that fired. *)
Lemma detect_tremor_full cfg st dx dy x y now :
  let st1 :=
    set_histories st
      (Py.deque_append deque_maxlen (position_history st) (x, y))
      (Py.deque_append deque_maxlen (delta_history st) (dx, dy))
      (Py.deque_append deque_maxlen (timestamp_history st) now) in
  let c := criteria cfg st1 dx dy in
  (SAMPLE_SIZE cfg / 2 <= Z.of_nat (length (delta_history st1)))%Z ->
  detect_tremor cfg st dx dy x y now
  = (set_classification st1
       (if (2 <=? Spec.fired_count c)%nat
        then String.concat "+" (Spec.fired c)
        else "None"%string)
       (INR (Spec.fired_count c) / 5),
     (2 <=? Spec.fired_count c)%nat).
Proof.
  intros st1 c H. unfold detect_tremor. cbv zeta. fold st1.
  apply Z.ltb_ge in H. rewrite H. fold c.
  rewrite detected_types_fired, tremor_score_count, score_threshold.
  reflexivity.
Qed.

End ClassifierFacts.

(** C2 (as the code has it). Once the window, after the append, holds at
    least [SAMPLE_SIZE // 2] samples: the score is the number of true
    criteria divided by 5; [detect_tremor] returns true exactly when at
    least 2 of the 5 criteria are true; the stored intensity is the score;
    and the stored [tremor_type] lists exactly the criteria that fired when
    tremor is detected, and is [None] when it is not (so a single criterion
    that fired is not reported). *)
Theorem C2_score_and_causes
    (cfg : Enhanced.Config) (st : Enhanced.State)
    (dx dy x y : Z) (now : R) :
  let r := Enhanced.detect_tremor cfg st dx dy x y now in
  let c := Enhanced.criteria cfg (fst r) dx dy in
  (Enhanced.SAMPLE_SIZE cfg / 2
   <= Z.of_nat (length (Enhanced.delta_history (fst r))))%Z ->
  Enhanced.tremor_score c = INR (Spec.fired_count c) / 5
  /\ snd r = (2 <=? Spec.fired_count c)%nat
  /\ Enhanced.tremor_intensity (fst r) = Enhanced.tremor_score c
  /\ Enhanced.tremor_type (fst r)
     = (if snd r then String.concat "+" (Spec.fired c) else "None"%string).
Proof.
  intros r c H.
  destruct (WindowFacts.detect_tremor_histories cfg st dx dy x y now)
    as (Hd & Hp & Ht).
  cbv zeta in Hd, Hp, Ht. fold r in Hd, Hp, Ht.
  rewrite Hd in H.
  pose proof (ClassifierFacts.detect_tremor_full cfg st dx dy x y now H)
    as E.
  cbv zeta in E. fold r in E.
  set (st1 := Enhanced.set_histories st _ _ _) in E.
  assert (Hc : c = Enhanced.criteria cfg st1 dx dy).
  { unfold c. apply ClassifierFacts.criteria_ext; rewrite E; reflexivity. }
  rewrite <- Hc in E.
  rewrite E. cbn [fst snd Enhanced.set_classification
                  Enhanced.tremor_intensity Enhanced.tremor_type].
  rewrite ClassifierFacts.tremor_score_count. auto.
Qed.

Lemma C2_witness :
  let cfg := Enhanced.default_config in
  let st := Enhanced.feed cfg Enhanced.initial_state
              (Spec.oscillation 0 0 1 11) in
  let r := Enhanced.detect_tremor cfg st (-1) 0 0 0 12 in
  let c := Enhanced.criteria cfg (fst r) (-1) 0 in
  Enhanced.tremor_score c = INR (Spec.fired_count c) / 5
  /\ snd r = (2 <=? Spec.fired_count c)%nat
  /\ Enhanced.tremor_intensity (fst r) = Enhanced.tremor_score c
  /\ Enhanced.tremor_type (fst r)
     = (if snd r then String.concat "+" (Spec.fired c) else "None"%string).
Proof.
  apply (C2_score_and_causes Enhanced.default_config
           (Enhanced.feed Enhanced.default_config Enhanced.initial_state
              (Spec.oscillation 0 0 1 11))
           (-1) 0 0 0 12).
  rewrite (proj1 (WindowFacts.detect_tremor_histories _ _ _ _ _ _ _)).
  rewrite (proj1 (WindowFacts.feed_histories _ _)).
  cbn. lia.
Defined.

(** ** Evaluating the classifier on an oscillating cursor *)

Module EvalFacts.
Import Enhanced.

Ltac decide_cmp :=
  first [ apply PyFacts.gtb_true; lra | apply PyFacts.gtb_false; lra
        | apply PyFacts.leb_true; lra | apply PyFacts.leb_false; lra ].

(** The magnitude of a delta along the x axis. *)
Lemma magnitude_axis (x : Z) : calculate_magnitude x 0 = IZR (Z.abs x).
Proof.
  unfold calculate_magnitude.
  replace (x ^ 2 + 0 ^ 2)%Z with (Z.abs x * Z.abs x)%Z by lia.
  rewrite mult_IZR. apply sqrt_square. apply IZR_le. lia.
Qed.

Lemma sum_repeat (v : R) (n : nat) : Py.sum (repeat v n) = INR n * v.
Proof.
  induction n as [|n IH]; [cbn; lra|].
  cbn [repeat].
  change (Py.sum (v :: repeat v n)) with (v + Py.sum (repeat v n)).
  rewrite IH, S_INR. lra.
Qed.

Lemma mean_repeat (v : R) (n : nat) : (0 < n)%nat -> Py.mean (repeat v n) = v.
Proof.
  intros H. unfold Py.mean. rewrite sum_repeat, repeat_length.
  field. apply not_0_INR. lia.
Qed.

Lemma std_repeat (v : R) (n : nat) : (0 < n)%nat -> Py.std (repeat v n) = 0.
Proof.
  intros H. unfold Py.std. rewrite (mean_repeat v n H).
  rewrite map_repeat, (mean_repeat _ n H).
  replace ((v - v) * (v - v)) with 0 by ring. apply sqrt_0.
Qed.

(** On a window of non-zero deltas the ratio is the baseline count of
    negative dot products over the number of pairs. *)
Lemma direction_change_ratio_nonzero (ds : list (Z * Z)) :
  Forall (fun d => d <> (0, 0)%Z) ds ->
  direction_change_ratio ds
  = INR (Baseline.direction_changes ds) / INR (pred (length ds)).
Proof.
  intros H. unfold direction_change_ratio.
  rewrite (DirectionFacts.direction_changes_nonzero ds H).
  pose proof (DirectionFacts.enhanced_directions_nonzero ds H) as He.
  assert (Hl : length (directions ds) = pred (length ds))
    by (rewrite He, length_map; apply ListFacts.length_pairs).
  pose proof (DirectionFacts.baseline_directions_nonzero ds H) as Hb.
  destruct (directions ds) as [|d l] eqn:E.
  - assert (Hc : Baseline.direction_changes ds = 0%nat).
    { unfold Baseline.direction_changes, Py.count.
      pose proof (filter_length_le (fun d => (d <? 0)%Z)
                    (Baseline.directions ds)) as Hf.
      rewrite Hb, length_map, ListFacts.length_pairs in Hf.
      rewrite Hb. cbn [length] in Hl. lia. }
    rewrite Hc. cbn [INR]. unfold Rdiv. ring.
  - rewrite Hl. reflexivity.
Qed.

(** Twelve samples of a cursor that oscillates by one unit: the deltas
    alternate between (1, 0) and (-1, 0).  Only the direction criterion
    fires: the magnitudes are all 1, the jitter is exactly 2 (not above the
    threshold 2.0), and twelve timestamps are too few for a frequency. *)
Lemma criteria_unit_oscillation (st : State) :
  delta_history st
  = map (fun s => (s_dx s, s_dy s)) (Spec.oscillation 0 0 1 12) ->
  position_history st
  = map (fun s => (s_x s, s_y s)) (Spec.oscillation 0 0 1 12) ->
  timestamp_history st = map s_t (Spec.oscillation 0 0 1 12) ->
  criteria default_config st (-1) 0 = mkCriteria false true false false false.
Proof.
  intros Hd Hp Ht. cbn in Hd, Hp, Ht.
  assert (Hj : calculate_jitter (position_history st) = 2).
  { rewrite Hp. unfold calculate_jitter.
    cbn -[calculate_magnitude Py.mean].
    rewrite !magnitude_axis. cbn [Z.abs].
    change (Py.mean (repeat 2 10) = 2). apply mean_repeat. lia. }
  unfold criteria. rewrite Hj, Hd, Ht.
  cbn [map fst snd].
  rewrite !magnitude_axis. cbn [Z.abs].
  change [1; 1; 1; 1; 1; 1; 1; 1; 1; 1; 1; 1] with (repeat 1 12).
  rewrite mean_repeat, std_repeat by lia.
  rewrite FrequencyFacts.calculate_frequency_short
    by (unfold FREQUENCY_WINDOW; cbn [length]; lia).
  rewrite direction_change_ratio_nonzero
    by (repeat constructor; discriminate).
  match goal with
  | |- context [Baseline.direction_changes ?l] =>
      replace (Baseline.direction_changes l) with 11%nat by reflexivity
  end.
  cbn [length pred default_config MIN_TREMOR_FREQUENCY MAX_TREMOR_FREQUENCY
       DIRECTION_CHANGE_THRESHOLD SHAKE_THRESHOLD JITTER_THRESHOLD
       STD_DEV_THRESHOLD].
  replace (Py.gtb 1 0) with true by (symmetry; decide_cmp).
  replace (Py.leb 3 0) with false by (symmetry; decide_cmp).
  cbn [andb].
  f_equal.
  - apply PyFacts.gtb_true. rewrite !S_INR; cbn [INR]. lra.
  - decide_cmp.
  - decide_cmp.
  - decide_cmp.
Qed.

(** Twelve samples of a cursor that oscillates by five units around
    (2000, 1000): the direction criterion and the jitter criterion fire. *)
Lemma criteria_wide_oscillation (st : State) :
  delta_history st
  = map (fun s => (s_dx s, s_dy s)) (Spec.oscillation 2000 1000 5 12) ->
  position_history st
  = map (fun s => (s_x s, s_y s)) (Spec.oscillation 2000 1000 5 12) ->
  timestamp_history st = map s_t (Spec.oscillation 2000 1000 5 12) ->
  criteria default_config st (-5) 0 = mkCriteria false true false true false.
Proof.
  intros Hd Hp Ht. cbn in Hd, Hp, Ht.
  assert (Hj : calculate_jitter (position_history st) = 10).
  { rewrite Hp. unfold calculate_jitter.
    cbn -[calculate_magnitude Py.mean].
    rewrite !magnitude_axis. cbn [Z.abs].
    change (Py.mean (repeat 10 10) = 10). apply mean_repeat. lia. }
  unfold criteria. rewrite Hj, Hd, Ht.
  cbn [map fst snd].
  rewrite !magnitude_axis. cbn [Z.abs].
  change [5; 5; 5; 5; 5; 5; 5; 5; 5; 5; 5; 5] with (repeat 5 12).
  rewrite mean_repeat, std_repeat by lia.
  rewrite FrequencyFacts.calculate_frequency_short
    by (unfold FREQUENCY_WINDOW; cbn [length]; lia).
  rewrite direction_change_ratio_nonzero
    by (repeat constructor; discriminate).
  match goal with
  | |- context [Baseline.direction_changes ?l] =>
      replace (Baseline.direction_changes l) with 11%nat by reflexivity
  end.
  cbn [length pred default_config MIN_TREMOR_FREQUENCY MAX_TREMOR_FREQUENCY
       DIRECTION_CHANGE_THRESHOLD SHAKE_THRESHOLD JITTER_THRESHOLD
       STD_DEV_THRESHOLD].
  replace (Py.gtb 5 0) with true by (symmetry; decide_cmp).
  replace (Py.leb 3 0) with false by (symmetry; decide_cmp).
  cbn [andb].
  f_equal.
  - apply PyFacts.gtb_true. rewrite !S_INR; cbn [INR]. lra.
  - decide_cmp.
  - decide_cmp.
  - decide_cmp.
Qed.

End EvalFacts.

(** C2, the claim as written fails on the cause set: after twelve samples
    of a cursor oscillating by one unit the window holds 12 = 25 // 2
    samples and exactly one criterion, Directional, has fired; the call
    returns false and the reported type is [None], not [Directional]. *)
Lemma C2_counterexample :
  let cfg := Enhanced.default_config in
  let st := Enhanced.feed cfg Enhanced.initial_state
              (Spec.oscillation 0 0 1 11) in
  let r := Enhanced.detect_tremor cfg st (-1) 0 0 0 12 in
  (Enhanced.SAMPLE_SIZE cfg / 2
   <= Z.of_nat (length (Enhanced.delta_history (fst r))))%Z
  /\ Spec.fired (Enhanced.criteria cfg (fst r) (-1) 0)
     = ["Directional"%string]
  /\ snd r = false
  /\ Enhanced.tremor_type (fst r) = "None"%string.
Proof.
  cbv zeta.
  set (st := Enhanced.feed Enhanced.default_config Enhanced.initial_state
               (Spec.oscillation 0 0 1 11)).
  assert (Hst : Enhanced.feed Enhanced.default_config Enhanced.initial_state
                  (Spec.oscillation 0 0 1 12)
                = fst (Enhanced.detect_tremor Enhanced.default_config st
                         (-1) 0 0 0 12)).
  { change (Spec.oscillation 0 0 1 12)
      with (Spec.oscillation 0 0 1 11
            ++ [Enhanced.mkSample (-1) 0 0 0 (INR 12)]).
    rewrite WindowFacts.feed_snoc. unfold Enhanced.classify.
    cbn [Enhanced.s_dx Enhanced.s_dy Enhanced.s_x Enhanced.s_y Enhanced.s_t].
    replace (INR 12) with 12 by (rewrite INR_IZR_INZ; reflexivity).
    reflexivity. }
  destruct (WindowFacts.feed_histories Enhanced.default_config
              (Spec.oscillation 0 0 1 12)) as (Hd & Hp & Ht).
  cbv zeta in Hd, Hp, Ht. rewrite Hst in Hd, Hp, Ht.
  set (r := Enhanced.detect_tremor Enhanced.default_config st (-1) 0 0 0 12)
    in *.
  assert (Hlen : (Enhanced.SAMPLE_SIZE Enhanced.default_config / 2
                  <= Z.of_nat (length (Enhanced.delta_history (fst r))))%Z).
  { rewrite Hd. cbn. lia. }
  assert (Hc : Enhanced.criteria Enhanced.default_config (fst r) (-1) 0
               = Enhanced.mkCriteria false true false false false).
  { apply EvalFacts.criteria_unit_oscillation.
    - rewrite Hd. reflexivity.
    - rewrite Hp. reflexivity.
    - rewrite Ht. reflexivity. }
  split; [exact Hlen|]. split; [rewrite Hc; reflexivity|].
  destruct (WindowFacts.detect_tremor_histories Enhanced.default_config st
              (-1) 0 0 0 12) as (Ed & Ep & Et).
  cbv zeta in Ed, Ep, Et. fold r in Ed, Ep, Et.
  assert (Hlen' := Hlen). rewrite Ed in Hlen'.
  pose proof (ClassifierFacts.detect_tremor_full Enhanced.default_config st
                (-1) 0 0 0 12 Hlen') as E.
  cbv zeta in E. fold r in E.
  set (st1 := Enhanced.set_histories st _ _ _) in E.
  assert (Hc1 : Enhanced.criteria Enhanced.default_config st1 (-1) 0
                = Enhanced.mkCriteria false true false false false).
  { rewrite <- Hc. symmetry.
    apply ClassifierFacts.criteria_ext; rewrite E; reflexivity. }
  rewrite Hc1 in E. rewrite E. split; reflexivity.
Qed.

(** C4, the claim as written fails when [SAMPLE_SIZE] is odd.  With the
    default [SAMPLE_SIZE = 25] half the window size is 12.5, and the guard
    of [detect_tremor] compares with [25 // 2 = 12].  After twelve samples
    of a cursor oscillating by five units around (2000, 1000) the window
    holds 12 samples, fewer than 12.5, and the call returns true with
    intensity 2/5. *)
Lemma C4_counterexample :
  let cfg := Enhanced.default_config in
  let st := Enhanced.feed cfg Enhanced.initial_state
              (Spec.oscillation 2000 1000 5 11) in
  let r := Enhanced.detect_tremor cfg st (-5) 0 2000 1000 12 in
  length (Enhanced.delta_history (fst r)) = 12%nat
  /\ INR (length (Enhanced.delta_history (fst r)))
     < IZR (Enhanced.SAMPLE_SIZE cfg) / 2
  /\ snd r = true
  /\ Enhanced.tremor_intensity (fst r) = 2 / 5.
Proof.
  cbv zeta.
  set (st := Enhanced.feed Enhanced.default_config Enhanced.initial_state
               (Spec.oscillation 2000 1000 5 11)).
  assert (Hst : Enhanced.feed Enhanced.default_config Enhanced.initial_state
                  (Spec.oscillation 2000 1000 5 12)
                = fst (Enhanced.detect_tremor Enhanced.default_config st
                         (-5) 0 2000 1000 12)).
  { change (Spec.oscillation 2000 1000 5 12)
      with (Spec.oscillation 2000 1000 5 11
            ++ [Enhanced.mkSample (-5) 0 2000 1000 (INR 12)]).
    rewrite WindowFacts.feed_snoc. unfold Enhanced.classify.
    cbn [Enhanced.s_dx Enhanced.s_dy Enhanced.s_x Enhanced.s_y Enhanced.s_t].
    replace (INR 12) with 12 by (rewrite INR_IZR_INZ; reflexivity).
    reflexivity. }
  destruct (WindowFacts.feed_histories Enhanced.default_config
              (Spec.oscillation 2000 1000 5 12)) as (Hd & Hp & Ht).
  cbv zeta in Hd, Hp, Ht. rewrite Hst in Hd, Hp, Ht.
  set (r := Enhanced.detect_tremor Enhanced.default_config st
              (-5) 0 2000 1000 12) in *.
  assert (Hlen : length (Enhanced.delta_history (fst r)) = 12%nat).
  { rewrite Hd. reflexivity. }
  assert (Hc : Enhanced.criteria Enhanced.default_config (fst r) (-5) 0
               = Enhanced.mkCriteria false true false true false).
  { apply EvalFacts.criteria_wide_oscillation.
    - rewrite Hd. reflexivity.
    - rewrite Hp. reflexivity.
    - rewrite Ht. reflexivity. }
  split; [exact Hlen|].
  split.
  { rewrite Hlen. cbn [Enhanced.default_config Enhanced.SAMPLE_SIZE].
    rewrite INR_IZR_INZ. cbn [Z.of_nat Pos.of_succ_nat Pos.succ]. lra. }
  destruct (WindowFacts.detect_tremor_histories Enhanced.default_config st
              (-5) 0 2000 1000 12) as (Ed & Ep & Et).
  cbv zeta in Ed, Ep, Et. fold r in Ed, Ep, Et.
  assert (Hge : (Enhanced.SAMPLE_SIZE Enhanced.default_config / 2
                 <= Z.of_nat (length (Enhanced.delta_history (fst r))))%Z).
  { rewrite Hlen. cbn. lia. }
  rewrite Ed in Hge.
  pose proof (ClassifierFacts.detect_tremor_full Enhanced.default_config st
                (-5) 0 2000 1000 12 Hge) as E.
  cbv zeta in E. fold r in E.
  set (st1 := Enhanced.set_histories st _ _ _) in E.
  assert (Hc1 : Enhanced.criteria Enhanced.default_config st1 (-5) 0
                = Enhanced.mkCriteria false true false true false).
  { rewrite <- Hc. symmetry.
    apply ClassifierFacts.criteria_ext; rewrite E; reflexivity. }
  rewrite Hc1 in E. rewrite E.
  cbn [fst snd Enhanced.set_classification Enhanced.tremor_intensity
       Spec.fired_count Spec.fired Enhanced.frequency_tremor
       Enhanced.directional_tremor Enhanced.magnitude_tremor
       Enhanced.jitter_tremor Enhanced.variance_tremor app length Nat.leb].
  split; [reflexivity|]. cbn [INR]. lra.
Qed.

(** ** The controller: toggling and polling *)

Module ControllerFacts.
Import Enhanced.

(** [detect_tremor] leaves the filter state, the enabled flag and the
    reference position alone. *)
Lemma detect_tremor_frame cfg st dx dy x y now :
  let st' := fst (detect_tremor cfg st dx dy x y now) in
  last_x st' = last_x st /\ last_y st' = last_y st
  /\ stabilization_active st' = stabilization_active st
  /\ last_real_x st' = last_real_x st /\ last_real_y st' = last_real_y st.
Proof.
  unfold detect_tremor. cbv zeta.
  destruct (Z.of_nat _ <? _)%Z; cbn; auto.
Qed.

(** A poll while stabilization is disabled only moves the reference
    position. *)
Lemma mouse_monitor_step_disabled cfg st x y now :
  stabilization_active st = false ->
  mouse_monitor_step cfg st x y now = (set_last_real st x y, []).
Proof.
  intros H. unfold mouse_monitor_step. cbv zeta.
  cbn [stabilization_active set_last_real]. rewrite H, andb_false_r.
  reflexivity.
Qed.

(** What a poll does to the filter state: it emits nothing and leaves the
    filter state as it was, or it emits the blend of the raw position with
    the filter state it found and stores that blend. *)
Lemma mouse_monitor_step_output cfg st x y now :
  let r := mouse_monitor_step cfg st x y now in
  (snd r = [] /\ last_x (fst r) = last_x st /\ last_y (fst r) = last_y st)
  \/ exists a : R,
       a = adaptive_factor cfg (fst r)
       /\ last_x (fst r) = a * IZR x + (1 - a) * last_x st
       /\ last_y (fst r) = a * IZR y + (1 - a) * last_y st
       /\ snd r = [SetCursorPos (Py.int (last_x (fst r)))
                                (Py.int (last_y (fst r)))].
Proof.
  unfold mouse_monitor_step. cbv zeta.
  destruct (_ && _); [|left; cbn; auto].
  pose proof (detect_tremor_frame cfg (set_last_real st x y)
                (x - last_real_x st) (y - last_real_y st) x y now)
    as (Hx & Hy & _).
  destruct (detect_tremor cfg (set_last_real st x y) _ _ x y now)
    as [st2 d].
  cbn [fst] in Hx, Hy. cbn [last_x last_y set_last_real] in Hx, Hy.
  destruct d; [right|left; cbn; auto].
  exists (adaptive_factor cfg (set_tremor_detected st2 true)).
  cbn. rewrite Hx, Hy. auto.
Qed.

(** Over a whole disabled period only the reference position moves, and
    nothing is emitted. *)
Lemma run_disabled cfg (ps : list (Z * Z * R)) : forall st,
  stabilization_active st = false ->
  let r := run cfg st (map poll_of ps) in
  snd r = repeat [] (length ps)
  /\ stabilization_active (fst r) = false
  /\ last_x (fst r) = last_x st /\ last_y (fst r) = last_y st
  /\ delta_history (fst r) = delta_history st
  /\ position_history (fst r) = position_history st
  /\ timestamp_history (fst r) = timestamp_history st
  /\ tremor_intensity (fst r) = tremor_intensity st
  /\ tremor_type (fst r) = tremor_type st
  /\ tremor_detected (fst r) = tremor_detected st.
Proof.
  induction ps as [|p ps IH]; intros st H; [cbn; repeat split; assumption|].
  cbn [map run poll_of step length repeat].
  rewrite (mouse_monitor_step_disabled cfg st _ _ _ H).
  specialize (IH (set_last_real st (fst (fst p)) (snd (fst p))) H).
  cbv zeta in IH.
  destruct (run cfg (set_last_real st (fst (fst p)) (snd (fst p)))
              (map poll_of ps)) as [st2 outs].
  cbn [fst snd] in *.
  destruct IH as (Ho & IH). rewrite Ho. split; [reflexivity|exact IH].
Qed.

Lemma run_app cfg es1 es2 : forall st,
  run cfg st (es1 ++ es2)
  = (fst (run cfg (fst (run cfg st es1)) es2),
     snd (run cfg st es1) ++ snd (run cfg (fst (run cfg st es1)) es2)).
Proof.
  induction es1 as [|e es1 IH]; intros st.
  - cbn. destruct (run cfg st es2); reflexivity.
  - cbn [app run]. destruct (step cfg st e) as [st1 out].
    rewrite (IH st1).
    destruct (run cfg st1 es1) as [st2 outs]. reflexivity.
Qed.

(** An event that places the cursor nowhere leaves the filter state as it
    was. *)
Lemma step_silent cfg st e :
  (forall x y, ~ In (SetCursorPos x y) (snd (step cfg st e))) ->
  last_x (fst (step cfg st e)) = last_x st
  /\ last_y (fst (step cfg st e)) = last_y st.
Proof.
  intros H. destruct e as [x y now|]; cbn [step] in *.
  - pose proof (mouse_monitor_step_output cfg st x y now) as Hm.
    cbv zeta in Hm.
    destruct Hm as [(_ & Hx & Hy)|(a & _ & _ & _ & Ho)]; [auto|].
    exfalso. eapply H. rewrite Ho. left. reflexivity.
  - cbn. auto.
Qed.

(** So does a whole run that places the cursor nowhere. *)
Lemma run_silent cfg es : forall st,
  (forall out x y, In out (snd (run cfg st es)) ->
                   ~ In (SetCursorPos x y) out) ->
  last_x (fst (run cfg st es)) = last_x st
  /\ last_y (fst (run cfg st es)) = last_y st.
Proof.
  induction es as [|e es IH]; intros st H; [cbn; auto|].
  cbn [run] in *.
  pose proof (step_silent cfg st e) as Hs.
  destruct (step cfg st e) as [st1 out].
  specialize (IH st1).
  destruct (run cfg st1 es) as [st2 outs]. cbn [fst snd] in *.
  destruct IH as [Ix Iy].
  { intros o x y Ho. apply H. right. exact Ho. }
  destruct Hs as [Sx Sy].
  { intros x y. apply H. left. reflexivity. }
  rewrite Ix, Iy. auto.
Qed.

End ControllerFacts.

(** C1 (as the code has it). [toggle_stabilization] flips the enabled flag
    and nothing else: the filter state [(last_x, last_y)], the window and
    the classification result are as before.  The polls made while
    stabilization is disabled only move the reference position.  A poll
    either emits nothing and leaves the filter state as it was, or emits the
    blend [a * raw + (1 - a) * last] with the filter state it found,
    truncated to integers, and stores that blend; so the filter state
    changes nowhere but in a correction, over any sequence of polls and
    toggles.  When stabilization is enabled again the filter state is
    therefore the one left by the last correction made before it was
    disabled (or the initial one), and the next corrected output is the
    blend of the raw position with that state. *)
Theorem C1_toggle_keeps_filter_state
    (cfg : Enhanced.Config) (st : Enhanced.State) :
  (let st' := fst (Enhanced.toggle_stabilization st) in
   Enhanced.stabilization_active st'
   = negb (Enhanced.stabilization_active st)
   /\ Enhanced.last_x st' = Enhanced.last_x st
   /\ Enhanced.last_y st' = Enhanced.last_y st
   /\ Enhanced.delta_history st' = Enhanced.delta_history st
   /\ Enhanced.position_history st' = Enhanced.position_history st
   /\ Enhanced.timestamp_history st' = Enhanced.timestamp_history st
   /\ Enhanced.tremor_intensity st' = Enhanced.tremor_intensity st
   /\ Enhanced.tremor_type st' = Enhanced.tremor_type st
   /\ Enhanced.tremor_detected st' = Enhanced.tremor_detected st
   /\ Enhanced.last_real_x st' = Enhanced.last_real_x st
   /\ Enhanced.last_real_y st' = Enhanced.last_real_y st)
  /\ (forall ps : list (Z * Z * R),
        Enhanced.stabilization_active st = false ->
        let r := Enhanced.run cfg st (map Enhanced.poll_of ps) in
        snd r = repeat [] (length ps)
        /\ Enhanced.stabilization_active (fst r) = false
        /\ Enhanced.last_x (fst r) = Enhanced.last_x st
        /\ Enhanced.last_y (fst r) = Enhanced.last_y st
        /\ Enhanced.delta_history (fst r) = Enhanced.delta_history st
        /\ Enhanced.position_history (fst r) = Enhanced.position_history st
        /\ Enhanced.timestamp_history (fst r) = Enhanced.timestamp_history st
        /\ Enhanced.tremor_intensity (fst r) = Enhanced.tremor_intensity st)
  /\ (forall (x y : Z) (now : R),
        let r := Enhanced.mouse_monitor_step cfg st x y now in
        (snd r = []
         /\ Enhanced.last_x (fst r) = Enhanced.last_x st
         /\ Enhanced.last_y (fst r) = Enhanced.last_y st)
        \/ exists a : R,
             a = Enhanced.adaptive_factor cfg (fst r)
             /\ Enhanced.last_x (fst r)
                = a * IZR x + (1 - a) * Enhanced.last_x st
             /\ Enhanced.last_y (fst r)
                = a * IZR y + (1 - a) * Enhanced.last_y st
             /\ snd r = [SetCursorPos (Py.int (Enhanced.last_x (fst r)))
                                      (Py.int (Enhanced.last_y (fst r)))])
  /\ (forall es : list Enhanced.Event,
        let r := Enhanced.run cfg st es in
        (forall out x y, In out (snd r) -> ~ In (SetCursorPos x y) out) ->
        Enhanced.last_x (fst r) = Enhanced.last_x st
        /\ Enhanced.last_y (fst r) = Enhanced.last_y st).
Proof.
  split; [|split; [|split]].
  - cbn. repeat split; reflexivity.
  - intros ps H r.
    destruct (ControllerFacts.run_disabled cfg ps st H)
      as (Ho & Ha & Hx & Hy & Hd & Hp & Ht & Hi & _).
    fold r in Ho, Ha, Hx, Hy, Hd, Hp, Ht, Hi.
    repeat split; assumption.
  - intros x y now. apply ControllerFacts.mouse_monitor_step_output.
  - intros es r H. apply ControllerFacts.run_silent. exact H.
Qed.

Lemma C1_witness :
  let st := fst (Enhanced.toggle_stabilization Enhanced.initial_state) in
  let r := Enhanced.run Enhanced.default_config st
             (map Enhanced.poll_of [(2000%Z, 1000%Z, 0)]) in
  Enhanced.stabilization_active st = false
  /\ snd r = repeat [] 1
  /\ Enhanced.last_x (fst r) = Enhanced.last_x st
  /\ Enhanced.last_y (fst r) = Enhanced.last_y st.
Proof.
  cbv zeta.
  assert (H : Enhanced.stabilization_active
                (fst (Enhanced.toggle_stabilization Enhanced.initial_state))
              = false) by reflexivity.
  split; [exact H|].
  destruct (proj1 (proj2 (C1_toggle_keeps_filter_state
                            Enhanced.default_config
                            (fst (Enhanced.toggle_stabilization
                                    Enhanced.initial_state))))
              [(2000%Z, 1000%Z, 0)] H)
    as (Ho & _ & Hx & Hy & _).
  repeat split; assumption.
Defined.

(** ** The re-enabling session *)

Module SessionFacts.
Import Enhanced.

(** What the re-enabling session emits, event by event. *)
Lemma reenable_session_outputs :
  nth 14 Spec.reenable_session Toggle = Poll 2000 1000 12
  /\ snd (run default_config (mouse_monitor_init initial_state 0 0)
            Spec.reenable_session)
     = [Print (newline ++ "Stabilization DISABLED")%string] :: []
       :: [Print (newline ++ "Stabilization ENABLED")%string]
       :: repeat [] 11 ++ [[SetCursorPos 480 240]].
Proof.
  split.
  - unfold Spec.reenable_session.
    cbn [app Spec.oscillation_polls seq map nth].
    f_equal. rewrite INR_IZR_INZ. reflexivity.
  - change Spec.reenable_session
      with (Spec.reenable_prefix ++ [Poll 2000 1000 (INR 12)]).
    rewrite ControllerFacts.run_app.
    set (st := fst (run default_config (mouse_monitor_init initial_state 0 0)
                      Spec.reenable_prefix)).
    change (snd (run default_config (mouse_monitor_init initial_state 0 0)
                   Spec.reenable_prefix))
      with ([Print (newline ++ "Stabilization DISABLED")%string] :: []
            :: [Print (newline ++ "Stabilization ENABLED")%string]
            :: repeat [] 11).
    cbn [snd].
    change ([Print (newline ++ "Stabilization DISABLED")%string] :: []
       :: [Print (newline ++ "Stabilization ENABLED")%string]
       :: repeat [] 11 ++ [[SetCursorPos 480 240]])
    with (([Print (newline ++ "Stabilization DISABLED")%string] :: []
       :: [Print (newline ++ "Stabilization ENABLED")%string]
       :: repeat [] 11) ++ [[SetCursorPos 480 240]]).
    f_equal.
    cbn [run step].
    assert (Hrx : last_real_x st = 2005%Z) by reflexivity.
    assert (Hry : last_real_y st = 1000%Z) by reflexivity.
    assert (Hact : stabilization_active st = true) by reflexivity.
    assert (Hlx : last_x st = 0) by reflexivity.
    assert (Hly : last_y st = 0) by reflexivity.
    assert (Hd : delta_history st
                 = map (fun s => (s_dx s, s_dy s))
                     (Spec.oscillation 2000 1000 5 11)) by reflexivity.
    assert (Hp : position_history st
                 = map (fun s => (s_x s, s_y s))
                     (Spec.oscillation 2000 1000 5 11)) by reflexivity.
    assert (Ht : timestamp_history st
                 = map s_t (Spec.oscillation 2000 1000 5 11)) by reflexivity.
    clearbody st.
    unfold mouse_monitor_step. cbv zeta.
    rewrite Hrx, Hry.
    change (2000 - 2005)%Z with (-5)%Z. change (1000 - 1000)%Z with 0%Z.
    cbn [stabilization_active set_last_real Z.eqb negb orb andb].
    rewrite Hact.
    rewrite ClassifierFacts.detect_tremor_full.
    2:{ cbn [delta_history set_histories set_last_real]. rewrite Hd.
        cbn. lia. }
    rewrite EvalFacts.criteria_wide_oscillation.
    2:{ cbn [delta_history set_histories set_last_real]. rewrite Hd.
        reflexivity. }
    2:{ cbn [position_history set_histories set_last_real]. rewrite Hp.
        reflexivity. }
    2:{ cbn [timestamp_history set_histories set_last_real]. rewrite Ht.
        reflexivity. }
    cbn [Spec.fired_count Spec.fired frequency_tremor directional_tremor
         magnitude_tremor jitter_tremor variance_tremor app length Nat.leb].
    unfold apply_adaptive_smoothing, adaptive_factor.
    cbn [default_config ADAPTIVE_SMOOTHING SMOOTHING_FACTOR tremor_intensity
         set_tremor_detected set_classification set_histories set_last_real
         set_last last_x last_y fst snd].
    rewrite Hlx, Hly.
    replace (Py.max (1 / 10) (4 / 10 * (1 - INR 2 / 5))) with (24 / 100).
    2:{ unfold Py.max. cbn [INR]. destruct (Rlt_dec _ _); lra. }
    replace (24 / 100 * 2000 + (1 - 24 / 100) * 0) with (IZR 480) by lra.
    replace (24 / 100 * 1000 + (1 - 24 / 100) * 0) with (IZR 240) by lra.
    rewrite !PyFacts.int_IZR. reflexivity.
Qed.

End SessionFacts.

(** C1, the claim as written fails.  The session starts with the cursor at
    the origin, so the filter state (0, 0) is the cursor position.
    Stabilization is switched off, the cursor moves to (2000, 1000),
    stabilization is switched on again and the hand oscillates by 5 units
    around the new position.  The first correction after re-enabling comes
    with the twelfth oscillation sample, whose raw position is
    (2000, 1000); the corrected output is (480, 240), the blend of the raw
    position with the filter state (0, 0) from before the toggle. *)
Lemma C1_counterexample :
  let cfg := Enhanced.default_config in
  let st0 := Enhanced.mouse_monitor_init Enhanced.initial_state 0 0 in
  nth 14 Spec.reenable_session Enhanced.Toggle = Enhanced.Poll 2000 1000 12
  /\ snd (Enhanced.run cfg st0 Spec.reenable_session)
     = [Print (newline ++ "Stabilization DISABLED")%string] :: []
       :: [Print (newline ++ "Stabilization ENABLED")%string]
       :: repeat [] 11 ++ [[SetCursorPos 480 240]].
Proof. exact SessionFacts.reenable_session_outputs. Qed.

(** * Further properties of the code *)

(** ** Further facts about the primitives *)

Module NumFacts.

(** [int] truncates toward zero: the result is no further from zero than
    its argument, on the same side, and less than one unit away from it. *)
Lemma int_trunc (r : R) :
  Rabs (IZR (Py.int r)) <= Rabs r
  /\ Rabs (r - IZR (Py.int r)) < 1
  /\ 0 <= r * IZR (Py.int r).
Proof.
  unfold Py.int. destruct (Rle_dec 0 r) as [Hr|Hr].
  - destruct (base_Int_part r) as [H1 H2].
    assert (Hk : 0 <= IZR (Int_part r)).
    { apply IZR_le. apply Z.lt_succ_r. apply lt_IZR.
      rewrite succ_IZR. lra. }
    rewrite !Rabs_pos_eq by lra. repeat split; try lra. nra.
  - destruct (base_Int_part (- r)) as [H1 H2].
    assert (Hk : 0 <= IZR (Int_part (- r))).
    { apply IZR_le. apply Z.lt_succ_r. apply lt_IZR.
      rewrite succ_IZR. lra. }
    rewrite opp_IZR.
    rewrite (Rabs_left1 (- IZR (Int_part (- r)))) by lra.
    rewrite (Rabs_left1 r) by lra.
    rewrite (Rabs_left1 (r - - IZR (Int_part (- r)))) by lra.
    repeat split; try lra. nra.
Qed.

Lemma magnitude_sq (x y : Z) :
  0 <= Enhanced.calculate_magnitude x y
  /\ Enhanced.calculate_magnitude x y * Enhanced.calculate_magnitude x y
     = IZR x * IZR x + IZR y * IZR y.
Proof.
  unfold Enhanced.calculate_magnitude. split; [apply sqrt_pos|].
  rewrite sqrt_sqrt.
  - replace (x ^ 2 + y ^ 2)%Z with (x * x + y * y)%Z by lia.
    rewrite plus_IZR, !mult_IZR. reflexivity.
  - apply IZR_le. nia.
Qed.

End NumFacts.

(** X1. [calculate_magnitude] is the same function in every variant.  It is
    never negative, it is 0 exactly for the delta (0, 0), it is at least the
    absolute value of each component and at most their sum, and it does not
    change when the delta is reversed or its components are swapped. *)
Theorem X_magnitude_facts (x y : Z) :
  let m := Enhanced.calculate_magnitude x y in
  Baseline.calculate_magnitude x y = m
  /\ 0 <= m
  /\ (m = 0 <-> x = 0%Z /\ y = 0%Z)
  /\ Rabs (IZR x) <= m /\ Rabs (IZR y) <= m
  /\ m <= Rabs (IZR x) + Rabs (IZR y)
  /\ Enhanced.calculate_magnitude (- x) (- y) = m
  /\ Enhanced.calculate_magnitude y x = m.
Proof.
  intros m. destruct (NumFacts.magnitude_sq x y) as [H0 Hsq]. fold m in H0, Hsq.
  pose proof (Rabs_pos (IZR x)) as Hx. pose proof (Rabs_pos (IZR y)) as Hy.
  assert (Hxx : Rabs (IZR x) * Rabs (IZR x) = IZR x * IZR x).
  { rewrite <- Rabs_mult. apply Rabs_pos_eq. nra. }
  assert (Hyy : Rabs (IZR y) * Rabs (IZR y) = IZR y * IZR y).
  { rewrite <- Rabs_mult. apply Rabs_pos_eq. nra. }
  split; [reflexivity|]. split; [exact H0|]. split; [|split; [|split; [|split; [|split]]]].
  - split.
    + intros Hm. rewrite Hm in Hsq.
      assert (IZR x = 0 /\ IZR y = 0) as [Ex Ey] by (split; nra).
      split; apply eq_IZR; assumption.
    + intros [-> ->]. nra.
  - nra.
  - nra.
  - nra.
  - unfold m, Enhanced.calculate_magnitude. f_equal. f_equal. lia.
  - unfold m, Enhanced.calculate_magnitude. f_equal. f_equal. lia.
Qed.

(** X3. The pair a smoothing call returns is the filter state truncated
    toward zero: each returned coordinate is less than one unit away from
    the unrounded filter state it came from, and never larger in absolute
    value.  The filter state itself keeps the unrounded value. *)
Theorem X_emitted_position_truncates
    (cfg : Enhanced.Config) (st : Enhanced.State) (x y : R) :
  let r := Enhanced.apply_adaptive_smoothing cfg st x y in
  let fx := Enhanced.last_x (fst r) in
  let fy := Enhanced.last_y (fst r) in
  Rabs (fx - IZR (fst (snd r))) < 1
  /\ Rabs (fy - IZR (snd (snd r))) < 1
  /\ Rabs (IZR (fst (snd r))) <= Rabs fx
  /\ Rabs (IZR (snd (snd r))) <= Rabs fy
  /\ (forall cfg' : Baseline.Config, forall st' : Baseline.State,
        let b := Baseline.apply_smoothing_int cfg' st' x y in
        Rabs (Baseline.last_x (fst b) - IZR (fst (snd b))) < 1
        /\ Rabs (Baseline.last_y (fst b) - IZR (snd (snd b))) < 1
        /\ Rabs (IZR (fst (snd b))) <= Rabs (Baseline.last_x (fst b))
        /\ Rabs (IZR (snd (snd b))) <= Rabs (Baseline.last_y (fst b))).
Proof.
  cbn.
  set (fx := Enhanced.adaptive_factor cfg st * x + _).
  set (fy := Enhanced.adaptive_factor cfg st * y + _).
  destruct (NumFacts.int_trunc fx) as (A1 & A2 & _).
  destruct (NumFacts.int_trunc fy) as (B1 & B2 & _).
  repeat split; try assumption.
  - apply NumFacts.int_trunc.
  - apply NumFacts.int_trunc.
  - apply NumFacts.int_trunc.
  - apply NumFacts.int_trunc.
Qed.

(** X4. Toggling stabilization twice restores the state exactly.  From an
    enabled state the first toggle prints that stabilization is DISABLED and
    the second that it is ENABLED. *)
Theorem X_toggle_twice_restores :
  (forall st : Enhanced.State,
      fst (Enhanced.toggle_stabilization
             (fst (Enhanced.toggle_stabilization st))) = st
      /\ (Enhanced.stabilization_active st = true ->
          snd (Enhanced.toggle_stabilization st)
          = [Print (newline ++ "Stabilization DISABLED")%string]
          /\ snd (Enhanced.toggle_stabilization
                    (fst (Enhanced.toggle_stabilization st)))
             = [Print (newline ++ "Stabilization ENABLED")%string]))
  /\ (forall st : Baseline.State,
        Baseline.toggle_stabilization (Baseline.toggle_stabilization st) = st).
Proof.
  split.
  - intros st. split.
    + destruct st as [ps ds ts d ty i a lx ly rx ry]. cbn.
      rewrite negb_involutive. reflexivity.
    + intros H. cbn. rewrite H. cbn. split; reflexivity.
  - intros st. destruct st. unfold Baseline.toggle_stabilization. cbn.
    rewrite negb_involutive. reflexivity.
Qed.

Lemma X_toggle_twice_restores_witness :
  snd (Enhanced.toggle_stabilization Enhanced.initial_state)
  = [Print (newline ++ "Stabilization DISABLED")%string]
  /\ snd (Enhanced.toggle_stabilization
            (fst (Enhanced.toggle_stabilization Enhanced.initial_state)))
     = [Print (newline ++ "Stabilization ENABLED")%string].
Proof.
  apply (proj2 (proj1 X_toggle_twice_restores Enhanced.initial_state)).
  reflexivity.
Defined.

(** ** The direction-change ratio on whole families of windows *)

Module RatioFacts.
Import Enhanced.

Lemma pairs_repeat {A : Type} (d : A) (n : nat) :
  Py.pairs (repeat d n) = repeat (d, d) (pred n).
Proof.
  induction n as [|[|n] IH]; try reflexivity.
  change (repeat d (S (S n))) with (d :: d :: repeat d n).
  change (Py.pairs (d :: d :: repeat d n))
    with ((d, d) :: Py.pairs (repeat d (S n))).
  rewrite IH. reflexivity.
Qed.

Lemma count_none {A : Type} (p : A -> bool) (l : list A) :
  Forall (fun a => p a = false) l -> Py.count p l = 0%nat.
Proof.
  unfold Py.count. induction 1 as [|a l Ha _ IH]; [reflexivity|].
  cbn [filter]. rewrite Ha. exact IH.
Qed.

Lemma count_all {A : Type} (p : A -> bool) (l : list A) :
  Forall (fun a => p a = true) l -> Py.count p l = length l.
Proof.
  unfold Py.count. induction 1 as [|a l Ha _ IH]; [reflexivity|].
  cbn [filter]. rewrite Ha. cbn [length]. rewrite IH. reflexivity.
Qed.

Lemma ratio_range (ds : list (Z * Z)) :
  0 <= direction_change_ratio ds <= 1.
Proof.
  unfold direction_change_ratio.
  pose proof (DirectionFacts.count_le_length
                (fun d => Py.ltb d 0) (directions ds)) as Hle.
  fold (direction_changes ds) in Hle.
  destruct (directions ds) as [|d l]; [lra|].
  set (n := length (d :: l)) in *.
  assert (Hn : 0 < INR n) by (apply lt_0_INR; unfold n; cbn; lia).
  pose proof (pos_INR (direction_changes ds)) as Hc.
  apply le_INR in Hle.
  split.
  - apply Rmult_le_pos; [exact Hc|]. apply Rlt_le, Rinv_0_lt_compat, Hn.
  - apply (Rmult_le_reg_r (INR n)); [exact Hn|].
    unfold Rdiv. rewrite Rmult_assoc, Rinv_l by lra. lra.
Qed.

Lemma ratio_no_reversal (ds : list (Z * Z)) :
  Forall (fun d => d <> (0, 0)%Z) ds ->
  Forall (fun pc => (0 <= Spec.baseline_entry pc)%Z) (Py.pairs ds) ->
  direction_change_ratio ds = 0.
Proof.
  intros Hnz Hall.
  rewrite (EvalFacts.direction_change_ratio_nonzero ds Hnz).
  unfold Baseline.direction_changes.
  rewrite (DirectionFacts.baseline_directions_nonzero ds Hnz).
  rewrite count_none.
  - cbn [INR]. unfold Rdiv. ring.
  - apply Forall_map. eapply Forall_impl; [|exact Hall].
    intros pc H. apply Z.ltb_ge. exact H.
Qed.

Lemma ratio_all_reversals (ds : list (Z * Z)) :
  Forall (fun d => d <> (0, 0)%Z) ds ->
  Forall (fun pc => (Spec.baseline_entry pc < 0)%Z) (Py.pairs ds) ->
  (2 <= length ds)%nat ->
  direction_change_ratio ds = 1.
Proof.
  intros Hnz Hall Hlen.
  rewrite (EvalFacts.direction_change_ratio_nonzero ds Hnz).
  unfold Baseline.direction_changes.
  rewrite (DirectionFacts.baseline_directions_nonzero ds Hnz).
  rewrite count_all.
  - rewrite length_map, ListFacts.length_pairs.
    field. apply not_0_INR. lia.
  - apply Forall_map. eapply Forall_impl; [|exact Hall].
    intros pc H. apply Z.ltb_lt. exact H.
Qed.

(** A window that repeats one non-zero delta has no reversal. *)
Lemma ratio_repeat (d : Z * Z) (n : nat) :
  d <> (0, 0)%Z -> direction_change_ratio (repeat d n) = 0.
Proof.
  intros H. apply ratio_no_reversal.
  - apply Forall_forall. intros e He. apply repeat_spec in He. subst e.
    exact H.
  - rewrite pairs_repeat. apply Forall_forall.
    intros pc Hpc. apply repeat_spec in Hpc. subst pc.
    unfold Spec.baseline_entry. cbn [fst snd]. nia.
Qed.

Lemma neg_nonzero (d : Z * Z) :
  d <> (0, 0)%Z -> ((- fst d)%Z, (- snd d)%Z) <> (0, 0)%Z.
Proof.
  destruct d as [x y]. cbn [fst snd]. intros H C. apply H.
  injection C as Hx Hy. f_equal; lia.
Qed.

Lemma alternating_nonzero (n : nat) : forall d,
  d <> (0, 0)%Z -> Forall (fun d => d <> (0, 0)%Z) (Spec.alternating d n).
Proof.
  induction n as [|n IH]; intros d H; cbn [Spec.alternating]; constructor.
  - exact H.
  - apply IH, neg_nonzero, H.
Qed.

Lemma alternating_reverses (n : nat) : forall d,
  d <> (0, 0)%Z ->
  Forall (fun pc => (Spec.baseline_entry pc < 0)%Z)
         (Py.pairs (Spec.alternating d n)).
Proof.
  induction n as [|[|n] IH]; intros d H.
  - cbn. constructor.
  - cbn. constructor.
  - change (Py.pairs (Spec.alternating d (S (S n))))
      with ((d, ((- fst d)%Z, (- snd d)%Z))
            :: Py.pairs (Spec.alternating ((- fst d)%Z, (- snd d)%Z) (S n))).
    constructor.
    + unfold Spec.baseline_entry. cbn [fst snd].
      destruct d as [x y]. cbn [fst snd].
      assert (x <> 0 \/ y <> 0)%Z as [Hx|Hy].
      { destruct (Z.eq_dec x 0) as [->|]; [right|left; assumption].
        intros ->. apply H. reflexivity. }
      * nia.
      * nia.
    + apply (IH ((- fst d)%Z, (- snd d)%Z)). apply neg_nonzero, H.
Qed.

Lemma length_alternating (n : nat) : forall d,
  length (Spec.alternating d n) = n.
Proof.
  induction n as [|n IH]; intros d; [reflexivity|].
  cbn [Spec.alternating length]. rewrite IH. reflexivity.
Qed.

End RatioFacts.

(** X6. The direction-change ratio of the enhanced classifier always lies in
    [0, 1].  It is 0 on a window that repeats one non-zero delta and 1 on a
    window of at least two deltas that reverses at every sample. *)
Theorem X_direction_change_ratio :
  (forall ds : list (Z * Z),
      0 <= Enhanced.direction_change_ratio ds <= 1)
  /\ (forall (d : Z * Z) (n : nat),
        d <> (0, 0)%Z ->
        Enhanced.direction_change_ratio (repeat d n) = 0)
  /\ (forall (d : Z * Z) (n : nat),
        d <> (0, 0)%Z -> (2 <= n)%nat ->
        Enhanced.direction_change_ratio (Spec.alternating d n) = 1).
Proof.
  split; [exact RatioFacts.ratio_range|]. split.
  - intros d n H. apply RatioFacts.ratio_repeat, H.
  - intros d n H Hn. apply RatioFacts.ratio_all_reversals.
    + apply RatioFacts.alternating_nonzero, H.
    + apply RatioFacts.alternating_reverses, H.
    + rewrite RatioFacts.length_alternating. exact Hn.
Qed.

Lemma X_direction_change_ratio_witness :
  Enhanced.direction_change_ratio (repeat (3, 4)%Z 20) = 0
  /\ Enhanced.direction_change_ratio (Spec.alternating (3, 4)%Z 20) = 1.
Proof.
  destruct X_direction_change_ratio as (_ & H0 & H1).
  split.
  - apply H0. discriminate.
  - apply H1; [discriminate|lia].
Defined.

(** ** The jitter measure *)

Module JitterFacts.
Import Enhanced.

Lemma pairs_map {A B : Type} (f : A -> B) (l : list A) :
  Py.pairs (map f l) = map (fun pc => (f (fst pc), f (snd pc))) (Py.pairs l).
Proof.
  induction l as [|a [|b t] IH]; try reflexivity.
  change (Py.pairs (map f (a :: b :: t)))
    with ((f a, f b) :: Py.pairs (map f (b :: t))).
  rewrite IH. reflexivity.
Qed.

Lemma sum_nonneg (l : list R) : Forall (fun v => 0 <= v) l -> 0 <= Py.sum l.
Proof.
  induction 1 as [|v l Hv _ IH]; [cbn; lra|].
  change (Py.sum (v :: l)) with (v + Py.sum l). lra.
Qed.

Lemma mean_nonneg (l : list R) :
  l <> [] -> Forall (fun v => 0 <= v) l -> 0 <= Py.mean l.
Proof.
  intros Hne H. unfold Py.mean.
  apply Rmult_le_pos; [apply sum_nonneg, H|].
  apply Rlt_le, Rinv_0_lt_compat, lt_0_INR.
  destruct l; [contradiction|cbn; lia].
Qed.

(** The velocities of a steady motion are all equal. *)
Lemma first_derivs_line (dx dy : Z) (n : nat) : forall x y,
  map (fun pc => (fst (snd pc) - fst (fst pc), snd (snd pc) - snd (fst pc))%Z)
      (Py.pairs ((x, y) :: Spec.line x y dx dy n))
  = repeat (dx, dy) n.
Proof.
  induction n as [|n IH]; intros x y; [reflexivity|].
  cbn [Spec.line].
  change (Py.pairs ((x, y) :: ((x + dx)%Z, (y + dy)%Z)
                    :: Spec.line (x + dx) (y + dy) dx dy n))
    with (((x, y), ((x + dx)%Z, (y + dy)%Z))
          :: Py.pairs (((x + dx)%Z, (y + dy)%Z)
                       :: Spec.line (x + dx) (y + dy) dx dy n)).
  cbn [map fst snd repeat]. rewrite IH. f_equal. f_equal; lia.
Qed.

(** Moving every position by the same vector leaves the velocities as they
    are. *)
Lemma first_derivs_shift (ps : list (Z * Z)) (cx cy : Z) :
  map (fun pc => (fst (snd pc) - fst (fst pc), snd (snd pc) - snd (fst pc))%Z)
      (Py.pairs (map (fun p => (fst p + cx, snd p + cy)%Z) ps))
  = map (fun pc => (fst (snd pc) - fst (fst pc),
                    snd (snd pc) - snd (fst pc))%Z)
        (Py.pairs ps).
Proof.
  rewrite pairs_map, map_map. apply map_ext.
  intros pc. cbn [fst snd]. f_equal; lia.
Qed.

Lemma magnitude_zero : calculate_magnitude 0 0 = 0.
Proof. unfold calculate_magnitude. cbn. apply sqrt_0. Qed.

(** Equal velocities give zero accelerations. *)
Lemma second_derivs_repeat (v : Z * Z) (n : nat) :
  map (fun pc => calculate_magnitude (fst (snd pc) - fst (fst pc))
                                     (snd (snd pc) - snd (fst pc)))
      (Py.pairs (repeat v n))
  = repeat 0 (pred n).
Proof.
  rewrite RatioFacts.pairs_repeat, map_repeat. cbn [fst snd].
  rewrite !Z.sub_diag, magnitude_zero. reflexivity.
Qed.

(** A steady motion has no jitter. *)
Lemma jitter_line (x y dx dy : Z) (n : nat) :
  calculate_jitter (Spec.line x y dx dy n) = 0.
Proof.
  unfold calculate_jitter.
  destruct (length (Spec.line x y dx dy n) <? 3)%nat eqn:E;
    [reflexivity|].
  destruct n as [|n]; [discriminate E|].
  cbn [Spec.line]. cbv zeta.
  rewrite first_derivs_line, second_derivs_repeat.
  destruct (pred n) as [|k]; [reflexivity|].
  change (Py.mean (repeat 0 (S k)) = 0).
  apply EvalFacts.mean_repeat. lia.
Qed.

End JitterFacts.

(** X7. The jitter measure is never negative, is 0 for fewer than three
    positions, is 0 for a cursor that advances by the same step at every
    sample, and does not change when all positions are moved by the same
    vector. *)
Theorem X_jitter_facts :
  (forall ps : list (Z * Z), 0 <= Enhanced.calculate_jitter ps)
  /\ (forall ps : list (Z * Z),
        (length ps < 3)%nat -> Enhanced.calculate_jitter ps = 0)
  /\ (forall (ps : list (Z * Z)) (cx cy : Z),
        Enhanced.calculate_jitter
          (map (fun p => (fst p + cx, snd p + cy)%Z) ps)
        = Enhanced.calculate_jitter ps)
  /\ (forall (x y dx dy : Z) (n : nat),
        Enhanced.calculate_jitter (Spec.line x y dx dy n) = 0).
Proof.
  split; [|split; [|split]].
  - intros ps. unfold Enhanced.calculate_jitter.
    destruct (length ps <? 3)%nat; [lra|]. cbv zeta.
    match goal with
    | |- 0 <= match ?l with [] => _ | _ :: _ => _ end =>
        assert (Hall : Forall (fun v => 0 <= v) l);
        [|destruct l as [|v l'] eqn:E; [lra|]]
    end.
    + apply Forall_map, Forall_forall. intros pc _.
      unfold Enhanced.calculate_magnitude. apply sqrt_pos.
    + apply JitterFacts.mean_nonneg; [discriminate|exact Hall].
  - intros ps H. unfold Enhanced.calculate_jitter.
    apply Nat.ltb_lt in H. rewrite H. reflexivity.
  - intros ps cx cy. unfold Enhanced.calculate_jitter.
    rewrite length_map, JitterFacts.first_derivs_shift. reflexivity.
  - intros x y dx dy n. apply JitterFacts.jitter_line.
Qed.

Lemma X_jitter_facts_witness :
  Enhanced.calculate_jitter [(1, 2); (3, 4)]%Z = 0.
Proof.
  apply (proj1 (proj2 X_jitter_facts)). cbn. lia.
Defined.

(** ** The window along a run of the controller *)

Module GrowthFacts.
Import Enhanced.

Lemma length_deque_append {A : Type} (m : nat) (l : list A) (x : A) :
  length (Py.deque_append m l x) = Nat.min m (S (length l)).
Proof.
  unfold Py.deque_append.
  rewrite ListFacts.length_lastn, length_app. cbn [length]. f_equal. lia.
Qed.

(** The window of [detect_tremor]'s result has at most [deque_maxlen]
    entries, whatever the state it started from. *)
Lemma detect_tremor_window cfg st dx dy x y now :
  length (delta_history (fst (detect_tremor cfg st dx dy x y now)))
  = Nat.min deque_maxlen (S (length (delta_history st))).
Proof.
  rewrite (proj1 (WindowFacts.detect_tremor_histories cfg st dx dy x y now)).
  apply length_deque_append.
Qed.

(** With [SAMPLE_SIZE // 2] above the capacity of the deques the guard of
    [detect_tremor] always fires. *)
Lemma detect_tremor_oversized cfg st dx dy x y now :
  (52 <= SAMPLE_SIZE cfg)%Z ->
  snd (detect_tremor cfg st dx dy x y now) = false.
Proof.
  intros H.
  apply (GuardFacts.detect_tremor_guard cfg st dx dy x y now).
  rewrite detect_tremor_window. unfold deque_maxlen.
  assert (26 <= SAMPLE_SIZE cfg / 2)%Z
    by (apply Z.div_le_lower_bound; lia).
  lia.
Qed.

(** The part of a polling step that the decision of [detect_tremor]
    controls. *)
Lemma mouse_monitor_step_undetected cfg st x y now :
  snd (detect_tremor cfg (set_last_real st x y)
         (x - last_real_x st) (y - last_real_y st) x y now) = false ->
  snd (mouse_monitor_step cfg st x y now) = [].
Proof.
  intros H. unfold mouse_monitor_step. cbv zeta.
  destruct (_ && _); [|reflexivity].
  destruct (detect_tremor cfg (set_last_real st x y) _ _ x y now)
    as [st2 d].
  cbn [snd] in H. subst d. reflexivity.
Qed.

Lemma mouse_monitor_step_window cfg st x y now :
  let st' := fst (mouse_monitor_step cfg st x y now) in
  delta_history st' = delta_history st
  \/ delta_history st'
     = Py.deque_append deque_maxlen (delta_history st)
         ((x - last_real_x st)%Z, (y - last_real_y st)%Z).
Proof.
  unfold mouse_monitor_step. cbv zeta.
  destruct (_ && _); [|left; reflexivity].
  pose proof (proj1 (WindowFacts.detect_tremor_histories cfg
                       (set_last_real st x y)
                       (x - last_real_x st) (y - last_real_y st) x y now))
    as Hd.
  destruct (detect_tremor cfg (set_last_real st x y) _ _ x y now)
    as [st2 d].
  cbn [fst] in Hd. right.
  destruct d; cbn; exact Hd.
Qed.

Lemma step_window cfg st e :
  (length (delta_history st) <= deque_maxlen)%nat ->
  (length (delta_history st)
   <= length (delta_history (fst (step cfg st e))) <= deque_maxlen)%nat.
Proof.
  intros H. destruct e as [x y now|]; cbn [step].
  - destruct (mouse_monitor_step_window cfg st x y now) as [E|E];
      cbv zeta in E; rewrite E.
    + lia.
    + rewrite length_deque_append. lia.
  - cbn. lia.
Qed.

Lemma run_window cfg es : forall st,
  (length (delta_history st) <= deque_maxlen)%nat ->
  (length (delta_history st)
   <= length (delta_history (fst (run cfg st es))) <= deque_maxlen)%nat.
Proof.
  induction es as [|e es IH]; intros st H; [cbn; lia|].
  cbn [run].
  pose proof (step_window cfg st e H) as H1.
  destruct (step cfg st e) as [st1 out]. cbn [fst] in H1.
  specialize (IH st1 (proj2 H1)).
  destruct (run cfg st1 es) as [st2 outs]. cbn [fst] in *. lia.
Qed.

End GrowthFacts.

(** X8. Along any run of the controller from the initial state the window
    never holds more than [deque_maxlen] deltas; from a state within that
    capacity the window never shrinks; and a polling step that leaves the
    window below [SAMPLE_SIZE // 2] entries emits no correction. *)
Theorem X_window_growth_and_warm_up (cfg : Enhanced.Config) :
  (forall es : list Enhanced.Event,
      (length (Enhanced.delta_history
                 (fst (Enhanced.run cfg Enhanced.initial_state es)))
       <= Enhanced.deque_maxlen)%nat)
  /\ (forall (st : Enhanced.State) (es : list Enhanced.Event),
        (length (Enhanced.delta_history st) <= Enhanced.deque_maxlen)%nat ->
        (length (Enhanced.delta_history st)
         <= length (Enhanced.delta_history (fst (Enhanced.run cfg st es))))%nat)
  /\ (forall (st : Enhanced.State) (x y : Z) (now : R),
        let r := Enhanced.mouse_monitor_step cfg st x y now in
        (Z.of_nat (length (Enhanced.delta_history (fst r)))
         < Enhanced.SAMPLE_SIZE cfg / 2)%Z ->
        snd r = []).
Proof.
  split; [|split].
  - intros es.
    apply (GrowthFacts.run_window cfg es Enhanced.initial_state).
    cbn. unfold Enhanced.deque_maxlen. lia.
  - intros st es H. apply (GrowthFacts.run_window cfg es st H).
  - intros st x y now r Hlt.
    unfold r in *. clear r.
    unfold Enhanced.mouse_monitor_step in *. cbv zeta in *.
    destruct (_ && _); [|reflexivity].
    pose proof (GuardFacts.detect_tremor_guard cfg
                  (Enhanced.set_last_real st x y)
                  (x - Enhanced.last_real_x st) (y - Enhanced.last_real_y st)
                  x y now) as G.
    cbv zeta in G.
    destruct (Enhanced.detect_tremor cfg (Enhanced.set_last_real st x y)
                _ _ x y now) as [st2 d].
    cbn [fst snd] in G.
    destruct d; [|reflexivity].
    exfalso.
    assert (Hd : true = false); [|discriminate Hd].
    apply G. cbn in Hlt. exact Hlt.
Qed.

Lemma X_window_growth_and_warm_up_witness :
  let r := Enhanced.mouse_monitor_step Enhanced.default_config
             Enhanced.initial_state 5 0 1 in
  (Z.of_nat (length (Enhanced.delta_history (fst r)))
   < Enhanced.SAMPLE_SIZE Enhanced.default_config / 2)%Z
  /\ snd r = [].
Proof.
  cbv zeta.
  assert (H : (Z.of_nat (length (Enhanced.delta_history
                 (fst (Enhanced.mouse_monitor_step Enhanced.default_config
                         Enhanced.initial_state 5 0 1))))
               < Enhanced.SAMPLE_SIZE Enhanced.default_config / 2)%Z)
    by (cbn; lia).
  split; [exact H|].
  exact (proj2 (proj2 (X_window_growth_and_warm_up Enhanced.default_config))
           Enhanced.initial_state 5%Z 0%Z 1 H).
Defined.

Module OversizeFacts.

Lemma enhanced_decisions_oversized cfg ss : forall st,
  (52 <= Enhanced.SAMPLE_SIZE cfg)%Z ->
  Enhanced.decisions cfg st ss = repeat false (length ss).
Proof.
  induction ss as [|s ss IH]; intros st H; [reflexivity|].
  cbn [Enhanced.decisions length repeat]. unfold Enhanced.classify.
  pose proof (GrowthFacts.detect_tremor_oversized cfg st
                (Enhanced.s_dx s) (Enhanced.s_dy s)
                (Enhanced.s_x s) (Enhanced.s_y s) (Enhanced.s_t s) H) as Hd.
  destruct (Enhanced.detect_tremor cfg st _ _ _ _ _) as [st' d].
  cbn [snd] in Hd. subst d. rewrite (IH st' H). reflexivity.
Qed.

Lemma enhanced_run_oversized cfg es : forall st,
  (52 <= Enhanced.SAMPLE_SIZE cfg)%Z ->
  Forall (fun out => forall x y : Z, ~ In (SetCursorPos x y) out)
         (snd (Enhanced.run cfg st es)).
Proof.
  induction es as [|e es IH]; intros st H; [constructor|].
  cbn [Enhanced.run].
  assert (Hout : forall x y : Z,
             ~ In (SetCursorPos x y) (snd (Enhanced.step cfg st e))).
  { intros x y. destruct e as [cx cy now|]; cbn [Enhanced.step].
    - rewrite GrowthFacts.mouse_monitor_step_undetected.
      + intros [].
      + apply GrowthFacts.detect_tremor_oversized, H.
    - cbn. intros [C|[]]. discriminate C. }
  destruct (Enhanced.step cfg st e) as [st1 out]. cbn [snd] in Hout.
  specialize (IH st1 H).
  destruct (Enhanced.run cfg st1 es) as [st2 outs]. cbn [snd] in *.
  constructor; assumption.
Qed.

Lemma length_baseline_append (l : list (Z * Z)) (d : Z * Z) :
  (length (Py.deque_append Baseline.deque_maxlen l d)
   <= Baseline.deque_maxlen)%nat.
Proof. rewrite GrowthFacts.length_deque_append. lia. Qed.

Lemma baseline_detect_oversized cfg st x y :
  (42 <= Baseline.SAMPLE_SIZE cfg)%Z ->
  snd (Baseline.detect_tremor cfg st x y) = false.
Proof.
  intros H. unfold Baseline.detect_tremor. cbv zeta.
  cbn [Baseline.mouse_history Baseline.set_mouse_history].
  pose proof (length_baseline_append (Baseline.mouse_history st) (x, y))
    as Hl.
  unfold Baseline.deque_maxlen in Hl at 2.
  assert (21 <= Baseline.SAMPLE_SIZE cfg / 2)%Z
    by (apply Z.div_le_lower_bound; lia).
  destruct (Z.ltb_spec
              (Z.of_nat (length (Py.deque_append Baseline.deque_maxlen
                                   (Baseline.mouse_history st) (x, y))))
              (Baseline.SAMPLE_SIZE cfg / 2)); [reflexivity|lia].
Qed.

Lemma baseline_decisions_oversized cfg ds : forall st,
  (42 <= Baseline.SAMPLE_SIZE cfg)%Z ->
  Baseline.decisions cfg st ds = repeat false (length ds).
Proof.
  induction ds as [|d ds IH]; intros st H; [reflexivity|].
  cbn [Baseline.decisions length repeat].
  pose proof (baseline_detect_oversized cfg st (fst d) (snd d) H) as Hd.
  destruct (Baseline.detect_tremor cfg st (fst d) (snd d)) as [st' b].
  cbn [snd] in Hd. subst b. rewrite (IH st' H). reflexivity.
Qed.

End OversizeFacts.

(** X9. The deques keep the capacity they were built with.  When
    [SAMPLE_SIZE] is 52 or more (42 or more in the baseline variants) the
    window can never reach [SAMPLE_SIZE // 2] entries: [detect_tremor]
    returns false on every sample, from every state, and the enhanced
    controller never places the cursor. *)
Theorem X_oversized_sample_size_never_detects :
  (forall (cfg : Enhanced.Config) (st : Enhanced.State)
          (ss : list Enhanced.Sample),
      (52 <= Enhanced.SAMPLE_SIZE cfg)%Z ->
      Enhanced.decisions cfg st ss = repeat false (length ss))
  /\ (forall (cfg : Enhanced.Config) (st : Enhanced.State)
             (es : list Enhanced.Event),
      (52 <= Enhanced.SAMPLE_SIZE cfg)%Z ->
      Forall (fun out => forall x y : Z, ~ In (SetCursorPos x y) out)
             (snd (Enhanced.run cfg st es)))
  /\ (forall (cfg : Baseline.Config) (st : Baseline.State)
             (ds : list (Z * Z)),
      (42 <= Baseline.SAMPLE_SIZE cfg)%Z ->
      Baseline.decisions cfg st ds = repeat false (length ds)).
Proof.
  split; [|split].
  - intros cfg st ss H. apply OversizeFacts.enhanced_decisions_oversized, H.
  - intros cfg st es H. apply OversizeFacts.enhanced_run_oversized, H.
  - intros cfg st ds H. apply OversizeFacts.baseline_decisions_oversized, H.
Qed.

Lemma X_oversized_sample_size_never_detects_witness :
  let cfg :=
    Enhanced.mkConfig 60 (17 / 10) (4 / 10) 3 12 (4 / 10) (75 / 100) 2 true in
  Enhanced.decisions cfg Enhanced.initial_state (Spec.oscillation 0 0 5 40)
  = repeat false (length (Spec.oscillation 0 0 5 40)).
Proof.
  apply (proj1 X_oversized_sample_size_never_detects). cbn. lia.
Defined.

(** ** The intensity along a run *)

Module IntensityFacts.
Import Enhanced.

Lemma fired_count_le_5 (c : Criteria) : (Spec.fired_count c <= 5)%nat.
Proof.
  destruct c as [[] [] [] [] []]; unfold Spec.fired_count, Spec.fired;
    cbn; lia.
Qed.

Lemma detect_tremor_fifths cfg st dx dy x y now :
  Spec.fifths (tremor_intensity st) ->
  Spec.fifths (tremor_intensity (fst (detect_tremor cfg st dx dy x y now))).
Proof.
  intros H. unfold detect_tremor. cbv zeta.
  destruct (Z.of_nat _ <? _)%Z; [exact H|].
  cbn [fst set_classification tremor_intensity].
  rewrite ClassifierFacts.tremor_score_count.
  eexists. split; [apply fired_count_le_5|reflexivity].
Qed.

Lemma step_fifths cfg st e :
  Spec.fifths (tremor_intensity st) ->
  Spec.fifths (tremor_intensity (fst (step cfg st e))).
Proof.
  intros H. destruct e as [x y now|]; cbn [step]; [|exact H].
  unfold mouse_monitor_step. cbv zeta.
  destruct (_ && _); [|exact H].
  pose proof (detect_tremor_fifths cfg (set_last_real st x y)
                (x - last_real_x st) (y - last_real_y st) x y now H) as H2.
  destruct (detect_tremor cfg (set_last_real st x y) _ _ x y now)
    as [st2 d].
  cbn [fst] in H2. destruct d; exact H2.
Qed.

Lemma run_fifths cfg es : forall st,
  Spec.fifths (tremor_intensity st) ->
  Spec.fifths (tremor_intensity (fst (run cfg st es))).
Proof.
  induction es as [|e es IH]; intros st H; [exact H|].
  cbn [run].
  pose proof (step_fifths cfg st e H) as H1.
  destruct (step cfg st e) as [st1 out]. cbn [fst] in H1.
  specialize (IH st1 H1).
  destruct (run cfg st1 es) as [st2 outs]. exact IH.
Qed.

Lemma fifths_range (v : R) : Spec.fifths v -> 0 <= v <= 1.
Proof.
  intros (k & Hk & ->).
  pose proof (pos_INR k) as H0.
  apply le_INR in Hk. replace (INR 5) with 5 in Hk by (simpl; lra).
  lra.
Qed.

End IntensityFacts.

(** X10. In every state the controller reaches from the initial state the
    intensity is one of 0, 1/5, ..., 1, hence in [0, 1].  With adaptive
    smoothing on and a smoothing factor in [0, 1] the effective blend
    factor then lies between 0.1 and the larger of 0.1 and the smoothing
    factor, so it is at most 1. *)
Theorem X_intensity_range (cfg : Enhanced.Config) (es : list Enhanced.Event) :
  let st := fst (Enhanced.run cfg Enhanced.initial_state es) in
  (exists k : nat, (k <= 5)%nat /\ Enhanced.tremor_intensity st = INR k / 5)
  /\ 0 <= Enhanced.tremor_intensity st <= 1
  /\ (Enhanced.ADAPTIVE_SMOOTHING cfg = true ->
      0 <= Enhanced.SMOOTHING_FACTOR cfg <= 1 ->
      1 / 10 <= Enhanced.adaptive_factor cfg st
             <= Rmax (1 / 10) (Enhanced.SMOOTHING_FACTOR cfg)
      /\ Enhanced.adaptive_factor cfg st <= 1).
Proof.
  intros st.
  assert (H : Spec.fifths (Enhanced.tremor_intensity st)).
  { apply IntensityFacts.run_fifths. exists 0%nat. split; [lia|].
    cbn. lra. }
  pose proof (IntensityFacts.fifths_range _ H) as Hr.
  split; [exact H|]. split; [exact Hr|].
  intros Ha Hs. unfold Enhanced.adaptive_factor. rewrite Ha.
  rewrite PyFacts.max_Rmax.
  set (i := Enhanced.tremor_intensity st) in *.
  set (s := Enhanced.SMOOTHING_FACTOR cfg) in *.
  assert (Hp : s * (1 - i) <= s) by nra.
  unfold Rmax.
  destruct (Rle_dec (1 / 10) (s * (1 - i)));
    destruct (Rle_dec (1 / 10) s); lra.
Qed.

Lemma X_intensity_range_witness :
  let st := fst (Enhanced.run Enhanced.default_config Enhanced.initial_state
                   [Enhanced.Poll 5 0 1]) in
  1 / 10 <= Enhanced.adaptive_factor Enhanced.default_config st
         <= Rmax (1 / 10) (Enhanced.SMOOTHING_FACTOR Enhanced.default_config)
  /\ Enhanced.adaptive_factor Enhanced.default_config st <= 1.
Proof.
  apply (proj2 (proj2 (X_intensity_range Enhanced.default_config
                         [Enhanced.Poll 5 0 1]))).
  - reflexivity.
  - simpl. lra.
Defined.

(** ** The reference position and the return value of the callbacks *)

(** X11. After a sample, the polling loops hold as reference position the
    raw position when nothing was emitted and the emitted position when a
    correction was made.  The listener callback holds the raw position in
    both cases: when it makes no correction it returns true, and when it
    makes one it places the cursor and is then left by the [RuntimeError]
    of [mouse_listener.start()], before the reference position is moved to
    the emitted position and before anything is returned.  The hook
    callback keeps the raw position as reference whenever it processes a
    move, also after a correction, and returns 1 exactly when it placed the
    cursor. *)
Theorem X_reference_position_after_a_sample :
  (forall cfg st x y now,
      let r := Enhanced.mouse_monitor_step cfg st x y now in
      (snd r = []
       /\ Enhanced.last_real_x (fst r) = x
       /\ Enhanced.last_real_y (fst r) = y)
      \/ snd r = [SetCursorPos (Enhanced.last_real_x (fst r))
                               (Enhanced.last_real_y (fst r))])
  /\ (forall cfg st x y,
      let r := SimpleWindows.mouse_monitor_step cfg st x y in
      (snd r = []
       /\ Baseline.last_real_x (fst r) = x
       /\ Baseline.last_real_y (fst r) = y)
      \/ snd r = [SetCursorPos (Baseline.last_real_x (fst r))
                               (Baseline.last_real_y (fst r))])
  /\ (forall cfg st x y,
      let r := Joystick.on_move cfg st x y in
      Baseline.last_real_x (fst (fst r)) = x
      /\ Baseline.last_real_y (fst (fst r)) = y
      /\ ((snd (fst r) = [] /\ snd r = Joystick.Return true)
          \/ (snd (fst r)
               = [SetCursorPos (Py.int (Baseline.last_x (fst (fst r))))
                               (Py.int (Baseline.last_y (fst (fst r))))]
              /\ snd r = Joystick.Raise Py.RuntimeError)))
  /\ (forall cfg st n_code w_param x y,
      let r := WindowsHook.mouse_callback cfg st n_code w_param x y in
      ((n_code <? 0)%Z = false ->
       (w_param =? WindowsHook.WM_MOUSEMOVE)%Z = true ->
       Baseline.stabilization_active st = true ->
       Baseline.last_real_x (fst (fst r)) = x
       /\ Baseline.last_real_y (fst (fst r)) = y)
      /\ (snd r = true <-> snd (fst r) <> [])).
Proof.
  split; [|split; [|split]].
  - intros cfg st x y now. unfold Enhanced.mouse_monitor_step. cbv zeta.
    destruct (_ && _); [|left; cbn; auto].
    pose proof (ControllerFacts.detect_tremor_frame cfg
                  (Enhanced.set_last_real st x y)
                  (x - Enhanced.last_real_x st) (y - Enhanced.last_real_y st)
                  x y now) as (_ & _ & _ & Hx & Hy).
    destruct (Enhanced.detect_tremor cfg (Enhanced.set_last_real st x y)
                _ _ x y now) as [st2 d].
    cbn [fst] in Hx, Hy. destruct d; [right; reflexivity|left].
    cbn. rewrite Hx, Hy. cbn. auto.
  - intros cfg st x y. unfold SimpleWindows.mouse_monitor_step. cbv zeta.
    destruct (_ && _); [|left; cbn; auto].
    pose proof (ZeroDeltaFacts.baseline_detect_tremor_state cfg
                  (Baseline.set_last_real st x y)
                  (x - Baseline.last_real_x st) (y - Baseline.last_real_y st))
      as Hst.
    destruct (Baseline.detect_tremor cfg (Baseline.set_last_real st x y) _ _)
      as [st2 d].
    cbn [fst] in Hst. subst st2.
    destruct d; [right; reflexivity|left]. cbn. auto.
  - intros cfg st x y. unfold Joystick.on_move. cbv zeta.
    destruct (_ && _); [|cbn; auto].
    pose proof (ZeroDeltaFacts.baseline_detect_tremor_state cfg
                  (Baseline.set_last_real st x y)
                  (x - Baseline.last_real_x st) (y - Baseline.last_real_y st))
      as Hst.
    destruct (Baseline.detect_tremor cfg (Baseline.set_last_real st x y) _ _)
      as [st2 d].
    cbn [fst] in Hst. subst st2.
    destruct d; cbn; auto.
  - intros cfg st n_code w_param x y. unfold WindowsHook.mouse_callback.
    cbv zeta. split.
    + intros Hn Hw Ha. rewrite Hn, Hw, Ha. cbn [andb].
      destruct (negb _ || negb _); [|cbn; auto].
      pose proof (ZeroDeltaFacts.baseline_detect_tremor_state cfg
                    (Baseline.set_last_real st x y)
                    (x - Baseline.last_real_x st)
                    (y - Baseline.last_real_y st)) as Hst.
      destruct (Baseline.detect_tremor cfg (Baseline.set_last_real st x y)
                  _ _) as [st2 d].
      cbn [fst] in Hst. subst st2. destruct d; cbn; auto.
    + destruct (n_code <? 0)%Z; [cbn; split; [discriminate|congruence]|].
      destruct (_ && _); [|cbn; split; [discriminate|congruence]].
      destruct (negb _ || negb _); [|cbn; split; [discriminate|congruence]].
      destruct (Baseline.detect_tremor cfg (Baseline.set_last_real st x y)
                  _ _) as [st2 d].
      destruct d; cbn; split; try discriminate; try congruence; auto.
Qed.

Lemma X_reference_position_after_a_sample_witness :
  let r := WindowsHook.mouse_callback Baseline.default_config
             Baseline.initial_state 0 WindowsHook.WM_MOUSEMOVE 7 9 in
  Baseline.last_real_x (fst (fst r)) = 7%Z
  /\ Baseline.last_real_y (fst (fst r)) = 9%Z.
Proof.
  apply (proj1 (proj2 (proj2 (proj2 X_reference_position_after_a_sample))
                 Baseline.default_config Baseline.initial_state
                 0%Z WindowsHook.WM_MOUSEMOVE 7%Z 9%Z));
    reflexivity.
Defined.

(** ** Steady motion *)

Module DriftFacts.
Import Enhanced.

Lemma length_drift (dx dy : Z) (ts : list R) : forall x y,
  length (Spec.drift x y dx dy ts) = length ts.
Proof.
  induction ts as [|t ts IH]; intros x y; [reflexivity|].
  cbn [Spec.drift length]. rewrite IH. reflexivity.
Qed.

Lemma drift_deltas (dx dy : Z) (ts : list R) : forall x y,
  map (fun s => (s_dx s, s_dy s)) (Spec.drift x y dx dy ts)
  = repeat (dx, dy) (length ts).
Proof.
  induction ts as [|t ts IH]; intros x y; [reflexivity|].
  cbn [Spec.drift map length repeat s_dx s_dy]. rewrite IH. reflexivity.
Qed.

Lemma drift_positions (dx dy : Z) (ts : list R) : forall x y,
  map (fun s => (s_x s, s_y s)) (Spec.drift x y dx dy ts)
  = Spec.line x y dx dy (length ts).
Proof.
  induction ts as [|t ts IH]; intros x y; [reflexivity|].
  cbn [Spec.drift map length Spec.line s_x s_y]. rewrite IH. reflexivity.
Qed.

(** A suffix of a steady motion is a steady motion. *)
Lemma skipn_drift (dx dy : Z) (n : nat) : forall ts x y,
  exists x' y',
    skipn n (Spec.drift x y dx dy ts)
    = Spec.drift x' y' dx dy (skipn n ts).
Proof.
  induction n as [|n IH]; intros ts x y.
  - exists x, y. reflexivity.
  - destruct ts as [|t ts].
    + exists x, y. reflexivity.
    + cbn [Spec.drift skipn]. apply IH.
Qed.

Lemma lastn_drift (dx dy : Z) (k : nat) (ts : list R) (x y : Z) :
  exists x' y',
    Py.lastn k (Spec.drift x y dx dy ts)
    = Spec.drift x' y' dx dy (Py.lastn k ts).
Proof.
  unfold Py.lastn. rewrite length_drift. apply skipn_drift.
Qed.

Lemma drift_snoc (dx dy : Z) (ts : list R) (t : R) : forall x y,
  exists s,
    Spec.drift x y dx dy (ts ++ [t]) = Spec.drift x y dx dy ts ++ [s]
    /\ s_dx s = dx /\ s_dy s = dy.
Proof.
  induction ts as [|t0 ts IH]; intros x y.
  - eexists. cbn. split; [reflexivity|]. cbn. auto.
  - destruct (IH (x + dx)%Z (y + dy)%Z) as (s & E & Hx & Hy).
    exists s. cbn [app Spec.drift]. rewrite E. auto.
Qed.

(** The criteria on a window filled by a steady motion: at most the
    frequency criterion can fire. *)
Lemma criteria_steady cfg st (dx dy x y : Z) (k : nat) :
  (0 < k)%nat ->
  (dx, dy) <> (0, 0)%Z ->
  1 <= SHAKE_THRESHOLD cfg ->
  0 <= DIRECTION_CHANGE_THRESHOLD cfg ->
  0 <= JITTER_THRESHOLD cfg ->
  0 <= STD_DEV_THRESHOLD cfg ->
  delta_history st = repeat (dx, dy) k ->
  position_history st = Spec.line x y dx dy k ->
  (Spec.fired_count (criteria cfg st dx dy) <= 1)%nat.
Proof.
  intros Hk Hd Hs Hdir Hj Hv Ed Ep.
  pose proof (DirectionFacts.magnitude_pos (dx, dy) Hd) as Hm.
  cbn [fst snd] in Hm.
  set (m := calculate_magnitude dx dy) in *.
  assert (Hc : directional_tremor (criteria cfg st dx dy) = false
               /\ magnitude_tremor (criteria cfg st dx dy) = false
               /\ jitter_tremor (criteria cfg st dx dy) = false
               /\ variance_tremor (criteria cfg st dx dy) = false).
  { unfold criteria.
    cbn [directional_tremor magnitude_tremor jitter_tremor variance_tremor].
    rewrite Ed, Ep, map_repeat. cbn [fst snd]. fold m.
    rewrite (EvalFacts.mean_repeat m k Hk), (EvalFacts.std_repeat m k Hk).
    rewrite (RatioFacts.ratio_repeat (dx, dy) k Hd).
    rewrite JitterFacts.jitter_line.
    replace (Py.gtb m 0) with true by (symmetry; apply PyFacts.gtb_true; lra).
    replace (0 / m) with 0 by (unfold Rdiv; ring).
    repeat split; apply PyFacts.gtb_false; try lra. nra. }
  destruct Hc as (H1 & H2 & H3 & H4).
  unfold Spec.fired_count, Spec.fired. rewrite H1, H2, H3, H4.
  destruct (frequency_tremor _); cbn; lia.
Qed.

(** A positive decision means that at least two criteria fired on the
    window the call left behind. *)
Lemma classify_true cfg st s :
  snd (classify cfg st s) = true ->
  (2 <= Spec.fired_count
          (criteria cfg (fst (classify cfg st s)) (s_dx s) (s_dy s)))%nat.
Proof.
  unfold classify. intros H.
  destruct (Z.ltb_spec
              (Z.of_nat (length (delta_history
                 (fst (detect_tremor cfg st (s_dx s) (s_dy s)
                         (s_x s) (s_y s) (s_t s))))))
              (SAMPLE_SIZE cfg / 2)) as [Hlt|Hge].
  - destruct (GuardFacts.detect_tremor_guard cfg st (s_dx s) (s_dy s)
                (s_x s) (s_y s) (s_t s) Hlt) as (Hf & _).
    rewrite Hf in H. discriminate H.
  - rewrite (proj1 (WindowFacts.detect_tremor_histories _ _ _ _ _ _ _))
      in Hge.
    pose proof (ClassifierFacts.detect_tremor_full cfg st (s_dx s) (s_dy s)
                  (s_x s) (s_y s) (s_t s) Hge) as E.
    cbv zeta in E.
    set (st1 := set_histories st _ _ _) in E.
    rewrite E in H |- *. cbn [fst snd] in *.
    rewrite (ClassifierFacts.criteria_ext cfg st1
               (set_classification st1 _ _)) by reflexivity.
    apply Nat.leb_le. exact H.
Qed.

Lemma decisions_snoc cfg ss s : forall st,
  decisions cfg st (ss ++ [s])
  = decisions cfg st ss ++ [snd (classify cfg (feed cfg st ss) s)].
Proof.
  induction ss as [|s0 ss IH]; intros st.
  - cbn. destruct (classify cfg st s). reflexivity.
  - cbn [app decisions]. unfold feed. cbn [fold_left].
    destruct (classify cfg st s0) as [st' d] eqn:E. cbn [fst].
    rewrite (IH st'). reflexivity.
Qed.

(** After a steady motion of at least one sample the window is a steady
    motion. *)
Lemma feed_drift cfg (dx dy x y : Z) (ts : list R) :
  ts <> [] ->
  exists x' y' k,
    (0 < k)%nat
    /\ delta_history (feed cfg initial_state (Spec.drift x y dx dy ts))
       = repeat (dx, dy) k
    /\ position_history (feed cfg initial_state (Spec.drift x y dx dy ts))
       = Spec.line x' y' dx dy k.
Proof.
  intros Hne.
  destruct (WindowFacts.feed_histories cfg (Spec.drift x y dx dy ts))
    as (Hd & Hp & _).
  cbv zeta in Hd, Hp.
  destruct (lastn_drift dx dy deque_maxlen ts x y) as (x' & y' & E).
  rewrite E in Hd, Hp. rewrite drift_deltas in Hd. rewrite drift_positions in Hp.
  exists x', y', (length (Py.lastn deque_maxlen ts)).
  split; [|split; assumption].
  rewrite ListFacts.length_lastn. unfold deque_maxlen.
  destruct ts; [contradiction|cbn [length]; lia].
Qed.

End DriftFacts.

(** X12. A cursor that advances by the same non-zero step at every sample
    (a step whose squared length is below 2^64, so that [np.sqrt] takes it)
    is never classified as tremor by the enhanced classifier, whatever the
    timestamps, as long as the shake threshold is at least 1.1, the
    variance threshold at least 0.01 and the direction and jitter
    thresholds are not negative: only the frequency criterion can fire. *)
Theorem X_steady_motion_is_not_tremor
    (cfg : Enhanced.Config) (x y dx dy : Z) (ts : list R) :
  (dx, dy) <> (0, 0)%Z ->
  (dx ^ 2 + dy ^ 2 < 2 ^ 64)%Z ->
  11 / 10 <= Enhanced.SHAKE_THRESHOLD cfg ->
  0 <= Enhanced.DIRECTION_CHANGE_THRESHOLD cfg ->
  0 <= Enhanced.JITTER_THRESHOLD cfg ->
  1 / 100 <= Enhanced.STD_DEV_THRESHOLD cfg ->
  Enhanced.decisions cfg Enhanced.initial_state (Spec.drift x y dx dy ts)
  = repeat false (length ts).
Proof.
  intros Hd _ Hs Hdir Hj Hv.
  assert (Hs1 : 1 <= Enhanced.SHAKE_THRESHOLD cfg) by lra.
  assert (Hv0 : 0 <= Enhanced.STD_DEV_THRESHOLD cfg) by lra.
  induction ts as [|t ts IH] using rev_ind; [reflexivity|].
  destruct (DriftFacts.drift_snoc dx dy ts t x y) as (s & E & Hsx & Hsy).
  rewrite E, DriftFacts.decisions_snoc, IH, length_app. cbn [length].
  rewrite Nat.add_1_r. cbn [repeat]. rewrite repeat_cons. f_equal. f_equal.
  destruct (snd (Enhanced.classify cfg
                   (Enhanced.feed cfg Enhanced.initial_state
                      (Spec.drift x y dx dy ts)) s)) eqn:Hdec;
    [|reflexivity].
  exfalso.
  apply DriftFacts.classify_true in Hdec.
  rewrite <- WindowFacts.feed_snoc, <- E, Hsx, Hsy in Hdec.
  destruct (DriftFacts.feed_drift cfg dx dy x y (ts ++ [t]))
    as (x' & y' & k & Hk & Ed & Ep).
  { destruct ts; discriminate. }
  pose proof (DriftFacts.criteria_steady cfg _ dx dy x' y' k
                Hk Hd Hs1 Hdir Hj Hv0 Ed Ep).
  lia.
Qed.

Lemma X_steady_motion_is_not_tremor_witness :
  Enhanced.decisions Enhanced.default_config Enhanced.initial_state
    (Spec.drift 0 0 1 0 (map INR (seq 1 25)))
  = repeat false (length (map INR (seq 1 25))).
Proof.
  apply X_steady_motion_is_not_tremor.
  - discriminate.
  - reflexivity.
  - simpl. lra.
  - simpl. lra.
  - simpl. lra.
  - simpl. lra.
Defined.

(** ** The baseline classifier along a sequence of deltas *)

Module BaselineFacts.
Import Baseline.

Lemma baseline_feed_snoc cfg st ds d :
  feed cfg st (ds ++ [d])
  = fst (detect_tremor cfg (feed cfg st ds) (fst d) (snd d)).
Proof. unfold feed. rewrite fold_left_app. reflexivity. Qed.

(** Feeding deltas changes the window and nothing else; the window is the
    last [deque_maxlen] deltas fed. *)
Lemma feed_state cfg ds :
  feed cfg initial_state ds
  = set_mouse_history initial_state (Py.lastn deque_maxlen ds).
Proof.
  induction ds as [|d ds IH] using rev_ind; [reflexivity|].
  rewrite baseline_feed_snoc, ZeroDeltaFacts.baseline_detect_tremor_state, IH.
  cbn [mouse_history set_mouse_history].
  unfold Py.deque_append. destruct d as [x y]. cbn [fst snd].
  rewrite ListFacts.lastn_app_lastn. reflexivity.
Qed.

Lemma baseline_decisions_snoc cfg ds d : forall st,
  decisions cfg st (ds ++ [d])
  = decisions cfg st ds
    ++ [snd (detect_tremor cfg (feed cfg st ds) (fst d) (snd d))].
Proof.
  induction ds as [|d0 ds IH]; intros st.
  - cbn. destruct (detect_tremor cfg st (fst d) (snd d)). reflexivity.
  - cbn [app decisions]. unfold feed. cbn [fold_left].
    destruct (detect_tremor cfg st (fst d0) (snd d0)) as [st' b]. cbn [fst].
    rewrite (IH st'). reflexivity.
Qed.

Lemma skipn_repeat {A : Type} (d : A) (n j : nat) :
  skipn j (repeat d n) = repeat d (n - j).
Proof.
  revert n. induction j as [|j IH]; intros n.
  - rewrite Nat.sub_0_r. reflexivity.
  - destruct n as [|n]; [reflexivity|]. cbn [repeat skipn]. apply IH.
Qed.

Lemma lastn_repeat {A : Type} (d : A) (k n : nat) :
  Py.lastn k (repeat d n) = repeat d (Nat.min k n).
Proof.
  unfold Py.lastn. rewrite repeat_length, skipn_repeat. f_equal. lia.
Qed.

(** A window that repeats one delta has no negative dot product. *)
Lemma direction_changes_repeat (d : Z * Z) (k : nat) :
  direction_changes (repeat d k) = 0%nat.
Proof.
  unfold direction_changes, directions.
  rewrite RatioFacts.pairs_repeat.
  apply RatioFacts.count_none.
  induction (pred k) as [|j IH]; [constructor|].
  cbn [repeat flat_map fst snd].
  destruct (negb (fst d =? 0)%Z || negb (snd d =? 0)%Z); [|exact IH].
  cbn [app]. constructor; [|exact IH].
  apply Z.ltb_ge. nia.
Qed.

Lemma magnitude_nonneg (x y : Z) : 0 <= calculate_magnitude x y.
Proof. unfold calculate_magnitude. apply sqrt_pos. Qed.

(** On a window that repeats the current delta none of the three tests of
    [is_tremor] holds, provided the shake threshold is at least 1. *)
Lemma detect_tremor_repeat cfg st (d : Z * Z) (k : nat) :
  1 <= SHAKE_THRESHOLD cfg ->
  (0 < k)%nat ->
  Py.deque_append deque_maxlen (mouse_history st) d = repeat d k ->
  snd (detect_tremor cfg st (fst d) (snd d)) = false.
Proof.
  intros Hs Hk E. unfold detect_tremor. cbv zeta.
  cbn [mouse_history set_mouse_history].
  rewrite <- surjective_pairing, E.
  destruct (Z.of_nat _ <? _)%Z; [reflexivity|].
  cbn [snd]. rewrite map_repeat.
  pose proof (magnitude_nonneg (fst d) (snd d)) as Hm.
  set (m := calculate_magnitude (fst d) (snd d)) in *.
  rewrite (EvalFacts.mean_repeat m k Hk), (EvalFacts.std_repeat m k Hk).
  unfold many_direction_changes. rewrite direction_changes_repeat.
  pose proof (pos_INR (length (directions (repeat d k)))) as Hl.
  cbn [INR].
  replace (Py.gtb m (m * SHAKE_THRESHOLD cfg)) with false
    by (symmetry; apply PyFacts.gtb_false; nra).
  replace (Py.gtb 0 (INR (length (directions (repeat d k))) * (4 / 10)))
    with false by (symmetry; apply PyFacts.gtb_false; nra).
  replace (Py.gtb 0 (m * (8 / 10))) with false
    by (symmetry; apply PyFacts.gtb_false; nra).
  reflexivity.
Qed.

End BaselineFacts.

(** X13. Feeding the baseline classifier a sequence of deltas from the
    initial state changes the window and nothing else; the window is the
    last [deque_maxlen] deltas fed.  While the window, with the next delta,
    is below [SAMPLE_SIZE // 2] entries the classifier returns false. *)
Theorem X_baseline_window (cfg : Baseline.Config) (ds : list (Z * Z)) :
  Baseline.feed cfg Baseline.initial_state ds
  = Baseline.set_mouse_history Baseline.initial_state
      (Py.lastn Baseline.deque_maxlen ds)
  /\ (length (Baseline.mouse_history
                (Baseline.feed cfg Baseline.initial_state ds))
      = Nat.min Baseline.deque_maxlen (length ds))
  /\ (forall d : Z * Z,
        (Z.of_nat (Nat.min Baseline.deque_maxlen (S (length ds)))
         < Baseline.SAMPLE_SIZE cfg / 2)%Z ->
        snd (Baseline.detect_tremor cfg
               (Baseline.feed cfg Baseline.initial_state ds)
               (fst d) (snd d)) = false).
Proof.
  pose proof (BaselineFacts.feed_state cfg ds) as E.
  split; [exact E|]. split.
  - rewrite E. cbn [Baseline.mouse_history Baseline.set_mouse_history].
    apply ListFacts.length_lastn.
  - intros d H. rewrite E. unfold Baseline.detect_tremor. cbv zeta.
    cbn [Baseline.mouse_history Baseline.set_mouse_history].
    rewrite GrowthFacts.length_deque_append, ListFacts.length_lastn.
    replace (Nat.min Baseline.deque_maxlen
               (S (Nat.min Baseline.deque_maxlen (length ds))))
      with (Nat.min Baseline.deque_maxlen (S (length ds))) by lia.
    apply Z.ltb_lt in H. rewrite H. reflexivity.
Qed.

Lemma X_baseline_window_witness :
  snd (Baseline.detect_tremor Baseline.default_config
         (Baseline.feed Baseline.default_config Baseline.initial_state
            [(5, 0); (-5, 0)]%Z)
         (fst (5, 0)%Z) (snd (5, 0)%Z)) = false.
Proof.
  apply (proj2 (proj2 (X_baseline_window Baseline.default_config
                         [(5, 0); (-5, 0)]%Z)) (5, 0)%Z).
  cbn. lia.
Defined.

(** X14. With a shake threshold of at least 1.1 the baseline classifier
    never reports tremor on a sequence that repeats one delta (a delta
    whose squared length is below 2^64, so that [np.sqrt] takes it). *)
Theorem X_baseline_steady_motion_is_not_tremor
    (cfg : Baseline.Config) (d : Z * Z) (n : nat) :
  (fst d ^ 2 + snd d ^ 2 < 2 ^ 64)%Z ->
  11 / 10 <= Baseline.SHAKE_THRESHOLD cfg ->
  Baseline.decisions cfg Baseline.initial_state (repeat d n)
  = repeat false n.
Proof.
  intros _ Hs.
  assert (Hs1 : 1 <= Baseline.SHAKE_THRESHOLD cfg) by lra.
  induction n as [|n IH]; [reflexivity|].
  change (repeat d (S n)) with (d :: repeat d n).
  rewrite repeat_cons, BaselineFacts.baseline_decisions_snoc, IH.
  cbn [repeat]. rewrite repeat_cons. f_equal. f_equal.
  apply (BaselineFacts.detect_tremor_repeat cfg _ d
           (Nat.min Baseline.deque_maxlen (S n)) Hs1).
  - unfold Baseline.deque_maxlen. lia.
  - rewrite BaselineFacts.feed_state.
    cbn [Baseline.mouse_history Baseline.set_mouse_history].
    unfold Py.deque_append. rewrite ListFacts.lastn_app_lastn.
    rewrite <- repeat_cons.
    apply (BaselineFacts.lastn_repeat d Baseline.deque_maxlen (S n)).
Qed.

Lemma X_baseline_steady_motion_is_not_tremor_witness :
  Baseline.decisions Baseline.default_config Baseline.initial_state
    (repeat (1, 0)%Z 30)
  = repeat false 30.
Proof.
  apply X_baseline_steady_motion_is_not_tremor.
  - reflexivity.
  - simpl. lra.
Defined.

(** ** More on the records of the serial link *)

Module RecordFacts.
Import Baseline.

(** The first field of a line that is not [M]: the line never reaches the
    classifier or the filter. *)
Lemma other_record cfg st raw :
  hd EmptyString (Py.split "," (Py.strip raw)) <> "M"%string ->
  let r := Serial.process_line cfg st raw in
  (fst r = st \/ fst r = set_arduino_verified st true)
  /\ (forall x y, ~ In (MoveRel x y) (snd r)).
Proof.
  intros H. unfold Serial.process_line. cbv zeta.
  destruct (String.eqb (Py.strip raw) "");
    [split; [left; reflexivity|intros x y []]|].
  apply String.eqb_neq in H. rewrite H. cbn [andb].
  destruct ((_ || _ || _) && _).
  - destruct (String.eqb _ "1"); split; try (left; reflexivity);
      intros x y [C|[]]; discriminate C.
  - destruct (String.eqb _ "I").
    + destruct (Py.contains _ _); split;
        try (left; reflexivity); try (right; reflexivity);
        intros x y [C|[]]; discriminate C.
    + destruct (String.eqb _ "E"); split; try (left; reflexivity).
      * intros x y [C|[]]; discriminate C.
      * intros x y [].
Qed.

End RecordFacts.

(** X16. A line whose first field is not [M] never changes the window, the
    filter state, the detection flag or the enabled flag and never moves
    the cursor.  A record [L], [R] or [N] with a second field presses the
    left, right or middle button when that field is exactly [1] and
    releases it otherwise.  A motion record with two fields only, a
    one-field line other than [I] and [E], and a line with an unknown first
    field are dropped silently. *)
Theorem X_serial_other_records
    (cfg : Baseline.Config) (st : Baseline.State) (raw : string) :
  let parts := Py.split "," (Py.strip raw) in
  let r := Serial.process_line cfg st raw in
  (hd EmptyString parts <> "M"%string ->
   Baseline.mouse_history (fst r) = Baseline.mouse_history st
   /\ Baseline.last_x (fst r) = Baseline.last_x st
   /\ Baseline.last_y (fst r) = Baseline.last_y st
   /\ Baseline.tremor_detected (fst r) = Baseline.tremor_detected st
   /\ Baseline.stabilization_active (fst r)
      = Baseline.stabilization_active st
   /\ (forall x y, ~ In (MoveRel x y) (snd r)))
  /\ (forall k v rest,
        parts = k :: v :: rest ->
        k = "L"%string \/ k = "R"%string \/ k = "N"%string ->
        r = (st, [if String.eqb v "1"
                  then MouseDown (Serial.button_map k)
                  else MouseUp (Serial.button_map k)])
        /\ Serial.button_map "L" = "left"%string
        /\ Serial.button_map "R" = "right"%string
        /\ Serial.button_map "N" = "middle"%string)
  /\ (forall k,
        parts = [k] ->
        k <> "I"%string -> k <> "E"%string ->
        r = (st, []))
  /\ (forall a, parts = ["M"%string; a] -> r = (st, []))
  /\ (forall k rest,
        parts = k :: rest ->
        ~ In k ["M"; "L"; "R"; "N"; "I"; "E"]%string ->
        r = (st, [])).
Proof.
  intros parts r. split; [|split; [|split; [|split]]].
  - intros H.
    destruct (RecordFacts.other_record cfg st raw H) as [[E|E] Hout];
      fold r in E, Hout; rewrite E; cbn; auto 10.
  - intros k v rest Hp Hk. split; [|auto].
    unfold r, Serial.process_line. cbv zeta. fold parts. rewrite Hp.
    destruct (String.eqb (Py.strip raw) "") eqn:E0.
    { apply String.eqb_eq in E0. unfold parts in Hp. rewrite E0 in Hp.
      discriminate Hp. }
    cbn [hd length nth Nat.leb].
    destruct Hk as [-> | [-> | ->]]; cbn;
      destruct (String.eqb v "1"); reflexivity.
  - intros k Hp HI HE.
    unfold r, Serial.process_line. cbv zeta. fold parts. rewrite Hp.
    destruct (String.eqb (Py.strip raw) ""); [reflexivity|].
    cbn [hd length Nat.leb andb].
    rewrite !andb_false_r.
    apply String.eqb_neq in HI, HE. rewrite HI, HE. reflexivity.
  - intros a Hp.
    unfold r, Serial.process_line. cbv zeta. fold parts. rewrite Hp.
    destruct (String.eqb (Py.strip raw) ""); reflexivity.
  - intros k rest Hp Hk.
    unfold r, Serial.process_line. cbv zeta. fold parts. rewrite Hp.
    destruct (String.eqb (Py.strip raw) ""); [reflexivity|].
    cbn [hd].
    assert (HM : String.eqb k "M" = false)
      by (apply String.eqb_neq; intros ->; apply Hk; cbn; auto).
    assert (HL : String.eqb k "L" = false)
      by (apply String.eqb_neq; intros ->; apply Hk; cbn; auto).
    assert (HR : String.eqb k "R" = false)
      by (apply String.eqb_neq; intros ->; apply Hk; cbn; auto).
    assert (HN : String.eqb k "N" = false)
      by (apply String.eqb_neq; intros ->; apply Hk; cbn; auto).
    assert (HI : String.eqb k "I" = false)
      by (apply String.eqb_neq; intros ->; apply Hk; cbn; auto 10).
    assert (HE : String.eqb k "E" = false)
      by (apply String.eqb_neq; intros ->; apply Hk; cbn; auto 10).
    rewrite HM, HL, HR, HN, HI, HE. reflexivity.
Qed.

Lemma X_serial_other_records_witness :
  Serial.process_line Baseline.default_config Baseline.initial_state
    ("R,0" ++ newline)
  = (Baseline.initial_state, [MouseUp "right"])
  /\ Serial.process_line Baseline.default_config Baseline.initial_state "M,5"
     = (Baseline.initial_state, []).
Proof.
  pose proof (X_serial_other_records Baseline.default_config
                Baseline.initial_state ("R,0" ++ newline)%string)
    as (_ & Hb & _).
  pose proof (X_serial_other_records Baseline.default_config
                Baseline.initial_state "M,5"%string)
    as (_ & _ & _ & Hm & _).
  split.
  - apply (Hb "R"%string "0"%string []); [reflexivity|auto].
  - apply (Hm "5"%string). reflexivity.
Defined.

Module VerifiedFacts.
Import Baseline.

(** No record clears [arduino_verified]. *)
Lemma process_line_verified cfg st raw :
  arduino_verified st = true ->
  arduino_verified (fst (Serial.process_line cfg st raw)) = true.
Proof.
  intros H. unfold Serial.process_line. cbv zeta.
  destruct (String.eqb (Py.strip raw) ""); [exact H|].
  destruct (String.eqb _ "M" && _).
  - destruct (Py.int_of_str _) as [x|]; [|exact H].
    destruct (Py.int_of_str _) as [y|]; [|exact H].
    pose proof (ZeroDeltaFacts.baseline_detect_tremor_state cfg st x y)
      as Hst.
    destruct (detect_tremor cfg st x y) as [st1 d].
    cbn [fst] in Hst. subst st1.
    destruct (d && _); cbn [apply_smoothing];
      destruct (negb _ || negb _); cbn; exact H.
  - destruct ((_ || _ || _) && _).
    + destruct (String.eqb _ "1"); exact H.
    + destruct (String.eqb _ "I").
      * destruct (Py.contains _ _); [reflexivity|exact H].
      * destruct (String.eqb _ "E"); exact H.
Qed.

Lemma process_data_verified cfg reads : forall st,
  arduino_verified st = true ->
  arduino_verified (fst (fst (Serial.process_data cfg st reads))) = true.
Proof.
  induction reads as [|bytes reads IH]; intros st H; [exact H|].
  cbn [Serial.process_data].
  destruct (Py.decode_utf8 bytes) as [raw|]; [|exact H].
  assert (Hl : arduino_verified (fst (Serial.process_line cfg st raw))
               = true) by (apply process_line_verified; exact H).
  assert (Hc : arduino_verified
                 (fst (fst (let (st1, out) := Serial.process_line cfg st raw in
                            let '(st2, outs, e) :=
                              Serial.process_data cfg st1 reads in
                            (st2, (out ++ outs)%list, e))))
               = true).
  { destruct (Serial.process_line cfg st raw) as [st1 out].
    cbn [fst] in Hl. specialize (IH st1 Hl).
    destruct (Serial.process_data cfg st1 reads) as [[st2 outs] e].
    exact IH. }
  destruct (Serial.motion_fields raw) as [[x y]|]; [|exact Hc].
  destruct (Serial.detect_tremor_raises cfg st x y); [exact H|exact Hc].
Qed.

End VerifiedFacts.

(** X17. Once [arduino_verified] is set no sequence of lines clears it,
    whether the processing goes on or is ended by an exception.  An
    [I] record prints its fields and sets [arduino_verified] exactly when
    the line mentions the USB Host Shield; an [E] record prints its fields
    and changes nothing. *)
Theorem X_serial_info_and_error_records
    (cfg : Baseline.Config) (st : Baseline.State) :
  (forall reads : list (list Byte.byte),
      Baseline.arduino_verified st = true ->
      Baseline.arduino_verified
        (fst (fst (Serial.process_data cfg st reads)))
      = true)
  /\ (forall (raw : string) (rest : list string),
        Py.split "," (Py.strip raw) = "I"%string :: rest ->
        let r := Serial.process_line cfg st raw in
        snd r = [Print ("Info: " ++ String.concat "," rest)%string]
        /\ fst r
           = (if Py.contains "USB Host Shield" (Py.strip raw)
              then Baseline.set_arduino_verified st true
              else st))
  /\ (forall (raw : string) (rest : list string),
        Py.split "," (Py.strip raw) = "E"%string :: rest ->
        Serial.process_line cfg st raw
        = (st, [Print ("Error from Arduino: "
                       ++ String.concat "," rest)%string])).
Proof.
  split; [|split].
  - intros reads H. apply VerifiedFacts.process_data_verified, H.
  - intros raw rest Hp r. unfold r, Serial.process_line. cbv zeta.
    rewrite Hp.
    destruct (String.eqb (Py.strip raw) "") eqn:E0.
    { apply String.eqb_eq in E0. rewrite E0 in Hp. discriminate Hp. }
    cbn [hd tl String.eqb Ascii.eqb Bool.eqb andb orb].
    destruct (Py.contains _ _); split; reflexivity.
  - intros raw rest Hp. unfold Serial.process_line. cbv zeta.
    rewrite Hp.
    destruct (String.eqb (Py.strip raw) "") eqn:E0.
    { apply String.eqb_eq in E0. rewrite E0 in Hp. discriminate Hp. }
    cbn [hd tl String.eqb Ascii.eqb Bool.eqb andb orb]. reflexivity.
Qed.

Lemma X_serial_info_and_error_records_witness :
  let r := Serial.process_line Baseline.default_config Baseline.initial_state
             "I,USB Host Shield ready" in
  snd r = [Print ("Info: " ++ String.concat "," ["USB Host Shield ready"])
             %string]
  /\ fst r = Baseline.set_arduino_verified Baseline.initial_state true.
Proof.
  apply (proj1 (proj2 (X_serial_info_and_error_records
                         Baseline.default_config Baseline.initial_state))
           "I,USB Host Shield ready"%string
           ["USB Host Shield ready"%string]).
  reflexivity.
Defined.

(** ** Reversing motion in the baseline classifier *)

Module ReversalFacts.
Import Baseline.






End ReversalFacts.



(** ** An oscillating cursor in the enhanced classifier *)

Module OscillationFacts.
Import Enhanced.

Lemma pairs_map_seq {A : Type} (f : nat -> A) (k : nat) : forall a,
  Py.pairs (map f (seq a k)) = map (fun i => (f i, f (S i))) (seq a (pred k)).
Proof.
  induction k as [|[|k] IH]; intros a; try reflexivity.
  change (Py.pairs (map f (seq a (S (S k)))))
    with ((f a, f (S a)) :: Py.pairs (map f (seq (S a) (S k)))).
  rewrite IH. reflexivity.
Qed.

Lemma lastn_seq (k a n : nat) :
  Py.lastn k (seq a n) = seq (a + (n - k)) (Nat.min k n).
Proof.
  unfold Py.lastn. rewrite length_seq, skipn_seq. f_equal. lia.
Qed.

(** The delta of the [i]-th oscillation sample. *)
Lemma oscillation_delta (x0 amp : Z) (i : nat) :
  (1 <= i)%nat ->
  (Spec.oscillation_x x0 amp i - Spec.oscillation_x x0 amp (i - 1))%Z
  = if Nat.odd i then amp else (- amp)%Z.
Proof.
  intros Hi. unfold Spec.oscillation_x.
  destruct i as [|i]; [lia|].
  replace (S i - 1)%nat with i by lia.
  rewrite Nat.odd_succ, <- Nat.negb_odd.
  destruct (Nat.odd i); cbn; lia.
Qed.

Lemma oscillation_step (x0 amp : Z) (i : nat) :
  (Spec.oscillation_x x0 amp (S i) - Spec.oscillation_x x0 amp i)%Z
  = if Nat.odd (S i) then amp else (- amp)%Z.
Proof.
  rewrite <- (oscillation_delta x0 amp (S i)) by lia.
  replace (S i - 1)%nat with i by lia. reflexivity.
Qed.

(** The deltas of consecutive oscillation samples reverse at every
    sample. *)
Lemma oscillation_deltas (x0 y0 amp : Z) (k : nat) : forall a,
  (1 <= a)%nat ->
  map (fun s => (s_dx s, s_dy s))
      (map (Spec.oscillation_sample x0 y0 amp) (seq a k))
  = Spec.alternating ((if Nat.odd a then amp else (- amp)%Z), 0%Z) k.
Proof.
  induction k as [|k IH]; intros a Ha; [reflexivity|].
  cbn [seq map Spec.alternating Spec.oscillation_sample s_dx s_dy fst snd].
  rewrite (IH (S a)) by lia.
  rewrite (oscillation_delta x0 amp a Ha).
  f_equal. f_equal. rewrite Nat.odd_succ, <- Nat.negb_odd.
  destruct (Nat.odd a); cbn; f_equal; lia.
Qed.

(** The accelerations of an oscillation all have magnitude twice the
    amplitude. *)
Lemma oscillation_jitter (x0 y0 amp : Z) (k a : nat) :
  (3 <= k)%nat ->
  calculate_jitter
    (map (fun s => (s_x s, s_y s))
         (map (Spec.oscillation_sample x0 y0 amp) (seq a k)))
  = IZR (2 * Z.abs amp).
Proof.
  intros Hk. unfold calculate_jitter.
  rewrite !length_map, length_seq.
  replace (k <? 3)%nat with false by (symmetry; apply Nat.ltb_ge; lia).
  cbv zeta. rewrite map_map. cbn [Spec.oscillation_sample s_x s_y].
  rewrite pairs_map_seq, map_map. cbn [fst snd].
  rewrite pairs_map_seq, map_map. cbn [fst snd].
  rewrite (map_ext _ (fun _ => IZR (2 * Z.abs amp))).
  - destruct k as [|[|[|k]]]; try lia.
    cbn [pred]. rewrite map_const, length_seq.
    change (Py.mean (repeat (IZR (2 * Z.abs amp)) (S k))
            = IZR (2 * Z.abs amp)).
    apply EvalFacts.mean_repeat. lia.
  - intros i. rewrite !oscillation_step, Z.sub_diag.
    rewrite EvalFacts.magnitude_axis. f_equal.
    rewrite (Nat.odd_succ (S i)), <- Nat.negb_odd.
    destruct (Nat.odd (S i)); cbn [negb]; lia.
Qed.

(** With the direction criterion and the jitter criterion at least two
    criteria have fired. *)
Lemma two_fired (c : Criteria) :
  directional_tremor c = true -> jitter_tremor c = true ->
  (2 <=? Spec.fired_count c)%nat = true.
Proof.
  intros H1 H2. destruct c as [f d m j v]. cbn in H1, H2. subst d j.
  destruct f, m, v; reflexivity.
Qed.

(** [detect_tremor] past its guard returns whether two criteria fired on
    the window it leaves behind. *)
Lemma classify_decision cfg st s :
  (SAMPLE_SIZE cfg / 2
   <= Z.of_nat (length (delta_history (fst (classify cfg st s)))))%Z ->
  snd (classify cfg st s)
  = (2 <=? Spec.fired_count
             (criteria cfg (fst (classify cfg st s)) (s_dx s) (s_dy s)))%nat.
Proof.
  unfold classify. intros Hge.
  rewrite (proj1 (WindowFacts.detect_tremor_histories _ _ _ _ _ _ _))
    in Hge.
  pose proof (ClassifierFacts.detect_tremor_full cfg st (s_dx s) (s_dy s)
                (s_x s) (s_y s) (s_t s) Hge) as E.
  cbv zeta in E.
  set (st1 := set_histories st _ _ _) in E.
  rewrite E. cbn [fst snd].
  rewrite (ClassifierFacts.criteria_ext cfg st1
             (set_classification st1 _ _)) by reflexivity.
  reflexivity.
Qed.

Lemma length_decisions cfg ss : forall st,
  length (decisions cfg st ss) = length ss.
Proof.
  induction ss as [|s ss IH]; intros st; [reflexivity|].
  cbn [decisions]. destruct (classify cfg st s) as [st' d].
  cbn [length]. rewrite IH. reflexivity.
Qed.

End OscillationFacts.

(** X19. The enhanced classifier reports tremor on the latest sample of a
    cursor that oscillates along the x axis, once at least three samples
    were seen and the window holds [SAMPLE_SIZE // 2] entries, provided the
    direction threshold is below 1 and the jitter threshold is below twice
    the amplitude. *)
Theorem X_enhanced_detects_oscillation
    (cfg : Enhanced.Config) (x0 y0 amp : Z) (n : nat) :
  amp <> 0%Z ->
  Enhanced.DIRECTION_CHANGE_THRESHOLD cfg < 1 ->
  Enhanced.JITTER_THRESHOLD cfg < IZR (2 * Z.abs amp) ->
  (3 <= n)%nat ->
  (Enhanced.SAMPLE_SIZE cfg / 2
   <= Z.of_nat (Nat.min Enhanced.deque_maxlen n))%Z ->
  nth (n - 1)
      (Enhanced.decisions cfg Enhanced.initial_state
         (Spec.oscillation x0 y0 amp n)) false
  = true.
Proof.
  intros Hamp Hdir Hjit Hn Hg.
  destruct n as [|m]; [lia|].
  replace (S m - 1)%nat with m by lia.
  set (s := Spec.oscillation_sample x0 y0 amp (S m)).
  assert (Eo : Spec.oscillation x0 y0 amp (S m)
               = Spec.oscillation x0 y0 amp m ++ [s]).
  { unfold Spec.oscillation. rewrite seq_S, map_app. reflexivity. }
  assert (Hlen : length (Spec.oscillation x0 y0 amp m) = m)
    by (unfold Spec.oscillation; rewrite length_map, length_seq;
        reflexivity).
  rewrite Eo, DriftFacts.decisions_snoc.
  rewrite app_nth2 by (rewrite OscillationFacts.length_decisions, Hlen; lia).
  rewrite OscillationFacts.length_decisions, Hlen, Nat.sub_diag. cbn [nth].
  destruct (WindowFacts.feed_histories cfg (Spec.oscillation x0 y0 amp (S m)))
    as (Hd & Hp & _).
  cbv zeta in Hd, Hp.
  rewrite Eo, WindowFacts.feed_snoc, <- Eo in Hd, Hp.
  unfold Spec.oscillation in Hd at 2. unfold Spec.oscillation in Hp at 2.
  rewrite ListFacts.lastn_map, OscillationFacts.lastn_seq in Hd, Hp.
  set (k := Nat.min Enhanced.deque_maxlen (S m)) in *.
  set (a := (1 + (S m - Enhanced.deque_maxlen))%nat) in *.
  rewrite OscillationFacts.oscillation_deltas in Hd by (unfold a; lia).
  rewrite OscillationFacts.classify_decision.
  2:{ rewrite Hd, RatioFacts.length_alternating. exact Hg. }
  apply OscillationFacts.two_fired.
  - unfold Enhanced.criteria. cbn [Enhanced.directional_tremor]. rewrite Hd.
    rewrite RatioFacts.ratio_all_reversals.
    + apply PyFacts.gtb_true. exact Hdir.
    + apply RatioFacts.alternating_nonzero.
      intros C. injection C as C. destruct (Nat.odd a); lia.
    + apply RatioFacts.alternating_reverses.
      intros C. injection C as C. destruct (Nat.odd a); lia.
    + rewrite RatioFacts.length_alternating. unfold k, Enhanced.deque_maxlen. lia.
  - unfold Enhanced.criteria. cbn [Enhanced.jitter_tremor]. rewrite Hp.
    rewrite OscillationFacts.oscillation_jitter by (unfold k, Enhanced.deque_maxlen; lia).
    apply PyFacts.gtb_true. exact Hjit.
Qed.

Lemma X_enhanced_detects_oscillation_witness :
  nth (25 - 1)
      (Enhanced.decisions Enhanced.default_config Enhanced.initial_state
         (Spec.oscillation 0 0 5 25)) false
  = true.
Proof.
  apply X_enhanced_detects_oscillation.
  - discriminate.
  - simpl. lra.
  - simpl. lra.
  - lia.
  - cbn. lia.
Defined.

